(** * tfinit.py: Terraform state store provisioning and VNet peering

    A shallow embedding of [src/tfinit.py].  The script is a sequence of
    calls into the Azure management SDK with conditional branching; the SDK
    itself is an external collaborator.  It is taken here as a record of
    operations over an arbitrary world type [W], so that every statement
    proved about [azure_state_setup] and [azure_peering] holds for every
    behaviour of the provider.  A run yields the list of calls it made, each
    with the reply it got, together with the lines it printed. *)

From Stdlib Require Import String Ascii List Bool Arith PeanoNat Lia.
Import ListNotations.
Local Open Scope list_scope.
Local Open Scope string_scope.

(** ** Exceptions and results *)

(** The exceptions the script can meet: [CloudError] from [msrestazure],
    [KeyError] from a failed [os.environ[...]] or dictionary lookup,
    [IndexError] from [random.choice] on an empty sequence, and any other
    error a provider call may raise. *)
Inductive exn : Type :=
| CloudError (message : string)
| KeyError (key : string)
| IndexError (message : string)
| OtherError (message : string).

(** What a provider call gives back: a value, or a raised exception. *)
Inductive result (A : Type) : Type :=
| Ok (a : A)
| Err (e : exn).
Arguments Ok {A} a.
Arguments Err {A} e.

(** How a (fuel-bounded) run of a procedure ends. [OutOfFuel] is only ever
    produced by the polling loop of [azure_peering]. *)
Inductive outcome (A : Type) : Type :=
| Returned (a : A)
| Raised (e : exn)
| OutOfFuel.
Arguments Returned {A} a.
Arguments Raised {A} e.
Arguments OutOfFuel {A}.

(** ** Python strings *)

(** [needle in hay] on Python strings: substring containment. *)
Fixpoint str_in (needle hay : string) : bool :=
  if String.prefix needle hay then true
  else match hay with
       | EmptyString => false
       | String _ rest => str_in needle rest
       end.

(** [x in xs] on a Python list of strings: membership by equality. *)
Definition list_in (x : string) (xs : list string) : bool :=
  existsb (String.eqb x) xs.

(** [string.ascii_lowercase] and [string.digits]. *)
Definition ascii_lowercase : string := "abcdefghijklmnopqrstuvwxyz".
Definition digits : string := "0123456789".

(** ** random_generator (lines 30-31)

    [random.choice(chars)] returns [chars[k]] for a random [k] below
    [len(chars)] and raises [IndexError] on an empty sequence.  The source of
    randomness is a parameter: [draws x] is the raw number drawn at the
    [x]-th iteration, reduced modulo the length of [chars]. *)
Definition choice (chars : string) (draw : nat) : result ascii :=
  match String.get (draw mod String.length chars) chars with
  | Some c => Ok c
  | None => Err (IndexError "Cannot choose from an empty sequence")
  end.

(** [''.join(random.choice(chars) for x in range(size))], with [x] running
    from [from] on. *)
Fixpoint join_choices (chars : string) (draws : nat -> nat) (from size : nat)
  : result string :=
  match size with
  | O => Ok EmptyString
  | S size' =>
      match choice chars (draws from) with
      | Err e => Err e
      | Ok c =>
          match join_choices chars draws (S from) size' with
          | Err e => Err e
          | Ok s => Ok (String c s)
          end
      end
  end.

Definition random_generator (size : nat) (chars : string) (draws : nat -> nat)
  : result string :=
  join_choices chars draws 0 size.

(** The defaults of the signature: [size=6],
    [chars=string.ascii_lowercase+string.digits]. *)
Definition default_size : nat := 6.
Definition default_chars : string := ascii_lowercase ++ digits.

(** ** Objects passed to and returned by the SDK *)

(** The argument [vnet] of [azure_state_setup]: an object with [orgName] and
    [location] attributes. *)
Record OrgLocation : Type := {
  orgName : string;
  location : string
}.

(** [ServicePrincipalCredentials(client_id=, object_id=, secret=, tenant=)];
    [azure_peering] builds it without [object_id]. *)
Record ServicePrincipalCredentials : Type := {
  spc_client_id : string;
  spc_object_id : option string;
  spc_secret : string;
  spc_tenant : string
}.

(** [ClientSecretCredential(tenant_id, client_id, client_secret)]. *)
Record ClientSecretCredential : Type := {
  csc_tenant_id : string;
  csc_client_id : string;
  csc_client_secret : string
}.

(** A management client: [XManagementClient(CREDENTIALS, subscription)]. *)
Record Client : Type := {
  credentials : ServicePrincipalCredentials;
  subscription_id : string
}.

(** [SecretClient(vault_url=, credential=)]. *)
Record SecretClient : Type := {
  vault_url : string;
  credential : ClientSecretCredential
}.

(** [BlockBlobService(account_name=, account_key=)]. *)
Record BlockBlobService : Type := {
  account_name : string;
  account_key : string
}.

(** An item of a listing (vault, storage account, container): the script
    reads its [name] attribute only. *)
Record Item : Type := { name : string }.

(** An element of [storage_keys.keys]. *)
Record StorageAccountKey : Type := {
  key_name : string;
  value : string
}.

(** [SkuName] and [Kind] of [azure.mgmt.storage.models]; the script uses
    [SkuName.standard_ragrs] and [Kind.storage]. *)
Inductive SkuName : Type :=
| standard_lrs | standard_grs | standard_ragrs | standard_zrs | premium_lrs.

Inductive Kind : Type :=
| storage | storage_v2 | blob_storage | file_storage | block_blob_storage.

(** [StorageAccountCreateParameters(sku=Sku(name=), kind=, location=)]. *)
Record StorageAccountCreateParameters : Type := {
  sku : SkuName;
  kind : Kind;
  sa_location : string
}.

(** The parameter dictionary of [vaults.create_or_update] (lines 88-104). *)
Record VaultParameters : Type := {
  kv_location : string;
  kv_sku_name : string;
  kv_tenant_id : string;
  kv_policy_tenant_id : string;
  kv_policy_object_id : string;
  kv_policy_keys : list string;
  kv_policy_secrets : list string
}.

(** A virtual network object: the script reads [id] and
    [address_space.address_prefixes]. *)
Record VirtualNetwork : Type := {
  vnet_id : string;
  address_prefixes : list string
}.

(** The parameter dictionary of [virtual_network_peerings.create_or_update]
    (lines 202-211). *)
Record PeeringParameters : Type := {
  remote_virtual_network_id : string;
  allow_virtual_network_access : bool;
  allow_forwarded_traffic : bool;
  remote_address_prefixes : list string
}.

(** The handle of a long-running operation. *)
Definition Poller : Type := nat.

(** ** Events of a run

    Every SDK call the script makes is recorded with its arguments and its
    reply; [Print] is a line on standard output and [Sleep] a call of
    [time.sleep]. *)
Inductive event : Type :=
| Print (line : string)
| Sleep (seconds : nat)
| ProvidersRegister (c : Client) (ns : string) (r : result unit)
| CheckExistence (c : Client) (rg : string) (r : result bool)
| ResourceGroupCreate (c : Client) (rg loc : string) (r : result unit)
| VaultsList (c : Client) (r : result (list Item))
| VaultCreate (c : Client) (rg vault : string) (p : VaultParameters)
    (r : result unit)
| StorageAccountsList (c : Client) (r : result (list Item))
| CheckNameAvailability (c : Client) (account : string) (r : result bool)
| StorageAccountCreate (c : Client) (rg account : string)
    (p : StorageAccountCreateParameters) (r : result Poller)
| StorageOperationResult (op : Poller) (r : result unit)
| BlobContainerCreate (c : Client) (rg account container : string)
    (r : result unit)
| ListKeys (c : Client) (rg account : string)
    (r : result (list StorageAccountKey))
| ListContainers (b : BlockBlobService) (r : result (list Item))
| SetSecret (s : SecretClient) (secret_name secret_value : string)
    (r : result unit)
| VirtualNetworkGet (c : Client) (rg vnet : string)
    (r : result VirtualNetwork)
| PeeringCreate (c : Client) (rg vnet peering : string)
    (p : PeeringParameters) (r : result Poller)
| PollerDone (op : Poller) (r : result bool)
| PollerStatus (op : Poller) (r : result string).

(** ** The provider

    One field per SDK operation the script calls.  Each takes the world
    before the call and gives the reply and the world after it. *)
Record SDK (W : Type) : Type := {
  providers_register : Client -> string -> W -> result unit * W;
  check_existence : Client -> string -> W -> result bool * W;
  resource_groups_create_or_update :
    Client -> string -> string -> W -> result unit * W;
  vaults_list : Client -> W -> result (list Item) * W;
  vaults_create_or_update :
    Client -> string -> string -> VaultParameters -> W -> result unit * W;
  storage_accounts_list : Client -> W -> result (list Item) * W;
  check_name_availability : Client -> string -> W -> result bool * W;
  storage_accounts_create :
    Client -> string -> string -> StorageAccountCreateParameters -> W ->
    result Poller * W;
  storage_operation_result : Poller -> W -> result unit * W;
  blob_containers_create :
    Client -> string -> string -> string -> W -> result unit * W;
  list_keys : Client -> string -> string -> W ->
              result (list StorageAccountKey) * W;
  list_containers : BlockBlobService -> W -> result (list Item) * W;
  set_secret : SecretClient -> string -> string -> W -> result unit * W;
  virtual_networks_get :
    Client -> string -> string -> W -> result VirtualNetwork * W;
  peerings_create_or_update :
    Client -> string -> string -> string -> PeeringParameters -> W ->
    result Poller * W;
  poller_done : Poller -> W -> result bool * W;
  poller_status : Poller -> W -> result string * W;
  time_sleep : nat -> W -> W
}.
Arguments providers_register {W}.
Arguments check_existence {W}.
Arguments resource_groups_create_or_update {W}.
Arguments vaults_list {W}.
Arguments vaults_create_or_update {W}.
Arguments storage_accounts_list {W}.
Arguments check_name_availability {W}.
Arguments storage_accounts_create {W}.
Arguments storage_operation_result {W}.
Arguments blob_containers_create {W}.
Arguments list_keys {W}.
Arguments list_containers {W}.
Arguments set_secret {W}.
Arguments virtual_networks_get {W}.
Arguments peerings_create_or_update {W}.
Arguments poller_done {W}.
Arguments poller_status {W}.
Arguments time_sleep {W}.

(** ** Dictionaries *)

(** A Python [dict] from strings to strings: the binding added last for a key
    is the one a lookup finds. *)
Definition dict : Type := list (string * string).

Definition dict_set (d : dict) (k v : string) : dict := (k, v) :: d.

Definition dict_get (d : dict) (k : string) : option string :=
  option_map snd (find (fun kv => String.eqb (fst kv) k) d).

(** [{v.key_name: v.value for v in storage_keys.keys}] (lines 149, 160). *)
Definition keys_dict (storage_keys : list StorageAccountKey) : dict :=
  fold_left (fun d v => dict_set d (key_name v) (value v)) storage_keys [].

(** The counting loops [for item in ...: i += 1] (lines 72-73, 112-113). *)
Definition count_items (items : list Item) : nat :=
  fold_left (fun i _ => i + 1) items 0.

(** ** Runs *)

Section Procedures.

Context {W : Type}.

(** What a procedure has done when it stops: the events in order, the world
    it leaves, and how it ended. *)
Record run (A : Type) : Type := {
  trace : list event;
  final : W;
  outcome_of : outcome A
}.
Arguments trace {A}.
Arguments final {A}.
Arguments outcome_of {A}.

Definition M (A : Type) : Type := W -> run A.

Definition ret {A} (a : A) : M A :=
  fun w => {| trace := []; final := w; outcome_of := Returned a |}.

Definition raise {A} (e : exn) : M A :=
  fun w => {| trace := []; final := w; outcome_of := Raised e |}.

Definition out_of_fuel {A} : M A :=
  fun w => {| trace := []; final := w; outcome_of := OutOfFuel |}.

Definition bind {A B} (m : M A) (f : A -> M B) : M B :=
  fun w =>
    let r := m w in
    match outcome_of r with
    | Returned a =>
        let r' := f a (final r) in
        {| trace := trace r ++ trace r';
           final := final r';
           outcome_of := outcome_of r' |}
    | Raised e =>
        {| trace := trace r; final := final r; outcome_of := Raised e |}
    | OutOfFuel =>
        {| trace := trace r; final := final r; outcome_of := OutOfFuel |}
    end.

(** [try: body except CloudError as ex: handler(str(ex))]: only a
    [CloudError] is caught. *)
Definition try_except_CloudError {A} (body : M A) (handler : string -> M A)
  : M A :=
  fun w =>
    let r := body w in
    match outcome_of r with
    | Raised (CloudError message) =>
        let r' := handler message (final r) in
        {| trace := trace r ++ trace r';
           final := final r';
           outcome_of := outcome_of r' |}
    | _ => r
    end.

(** A value or an exception computed without the provider. *)
Definition lift {A} (r : result A) : M A :=
  match r with
  | Ok a => ret a
  | Err e => raise e
  end.

(** One provider call: perform it, record it with its reply, and return the
    value or raise the exception. *)
Definition invoke {A} (op : W -> result A * W) (ev : result A -> event)
  : M A :=
  fun w =>
    let (r, w') := op w in
    {| trace := [ev r];
       final := w';
       outcome_of := match r with
                     | Ok a => Returned a
                     | Err e => Raised e
                     end |}.

Definition print (line : string) : M unit :=
  fun w => {| trace := [Print line]; final := w; outcome_of := Returned tt |}.

(** [os.environ[key]]. *)
Definition os_environ (environ : string -> option string) (key : string)
  : M string :=
  match environ key with
  | Some v => ret v
  | None => raise (KeyError key)
  end.

(** [d[key]]. *)
Definition getitem (d : dict) (key : string) : M string :=
  match dict_get d key with
  | Some v => ret v
  | None => raise (KeyError key)
  end.

End Procedures.

Arguments run W A : clear implicits.
Arguments M W A : clear implicits.
Arguments trace {W A}.
Arguments final {W A}.
Arguments outcome_of {W A}.

Declare Scope proc_scope.
Delimit Scope proc_scope with proc.
Notation "x <- m ;; k" := (bind m (fun x => k))
  (at level 61, m at next level, right associativity) : proc_scope.
Notation "m ;; k" := (bind m (fun _ => k))
  (at level 61, right associativity) : proc_scope.
Notation "' pat <- m ;; k" := (bind m (fun x => match x with pat => k end))
  (at level 61, pat pattern, m at next level, right associativity)
  : proc_scope.

(** ** The procedures of tfinit.py *)

Section Tfinit.

Context {W : Type}.
Variable sdk : SDK W.
Variable environ : string -> option string.

Local Open Scope proc_scope.

(** The loop of lines 77-80: every vault whose name equals [keyvault_name]
    prints the bypass line and sets [keyvault_exists]. *)
Fixpoint scan_vaults (keyvault_name : string) (vaults : list Item)
  (keyvault_exists : bool) : M W bool :=
  match vaults with
  | [] => ret keyvault_exists
  | item :: rest =>
      if String.eqb (name item) keyvault_name then
        print ("*** The keyvault " ++ keyvault_name
               ++ " already exists, bypassing creation ***") ;;
        scan_vaults keyvault_name rest true
      else scan_vaults keyvault_name rest keyvault_exists
  end.

(** The loop of lines 117-123: every account whose name contains
    ["tfstate"] prints the bypass line, overwrites [storage_account_name]
    and sets [storage_account_exists]. *)
Fixpoint scan_accounts (storage_accounts : list Item)
  (storage_account_name : string) (storage_account_exists : bool)
  : M W (string * bool) :=
  match storage_accounts with
  | [] => ret (storage_account_name, storage_account_exists)
  | item :: rest =>
      if str_in "tfstate" (name item) then
        print "*** The tfstate storage account exists, bypassing storage build ***" ;;
        scan_accounts rest (name item) true
      else scan_accounts rest storage_account_name storage_account_exists
  end.

(** Lines 62-65: create the resource group unless it exists. *)
Definition ensure_resource_group (resource_client : Client)
  (resource_group : string) (vnet : OrgLocation) : M W unit :=
  found <- invoke (check_existence sdk resource_client resource_group)
                  (CheckExistence resource_client resource_group) ;;
  if negb found then
    invoke (resource_groups_create_or_update sdk resource_client
              resource_group (location vnet))
           (ResourceGroupCreate resource_client resource_group (location vnet))
  else ret tt.

(** Lines 67-80: list the vaults, count them, and when there is at least one
    list them again and look for [keyvault_name]. *)
Definition find_keyvault (keyvault_client : Client) (keyvault_name : string)
  : M W bool :=
  vaults <- invoke (vaults_list sdk keyvault_client)
                   (VaultsList keyvault_client) ;;
  let i := count_items vaults in
  if (0 <? i)%nat then
    vaults <- invoke (vaults_list sdk keyvault_client)
                     (VaultsList keyvault_client) ;;
    scan_vaults keyvault_name vaults false
  else ret false.

(** Lines 82-105: create the vault when it was not found. *)
Definition ensure_keyvault (keyvault_client : Client)
  (resource_group keyvault_name : string) (vnet : OrgLocation)
  (keyvault_exists : bool) : M W unit :=
  if negb keyvault_exists then
    print ("*** The keyvault " ++ keyvault_name
           ++ " doesn't exist, creating ***") ;;
    tenant_id <- os_environ environ "ARM_TENANT_ID" ;;
    policy_tenant_id <- os_environ environ "ARM_TENANT_ID" ;;
    policy_object_id <- os_environ environ "ARM_OBJECT_ID" ;;
    let parameters :=
      {| kv_location := location vnet;
         kv_sku_name := "standard";
         kv_tenant_id := tenant_id;
         kv_policy_tenant_id := policy_tenant_id;
         kv_policy_object_id := policy_object_id;
         kv_policy_keys := ["all"];
         kv_policy_secrets := ["all"] |} in
    invoke (vaults_create_or_update sdk keyvault_client resource_group
              keyvault_name parameters)
           (VaultCreate keyvault_client resource_group keyvault_name
              parameters)
  else ret tt.

(** Lines 109-123: list the storage accounts, count them, and when there is
    at least one list them again and look for a name containing
    ["tfstate"].  Gives [storage_account_name] and
    [storage_account_exists] as they stand after the loop. *)
Definition find_storage_account (storage_client : Client)
  (storage_account_name : string) : M W (string * bool) :=
  storage_accounts <- invoke (storage_accounts_list sdk storage_client)
                             (StorageAccountsList storage_client) ;;
  let i := count_items storage_accounts in
  if (0 <? i)%nat then
    storage_accounts <- invoke (storage_accounts_list sdk storage_client)
                               (StorageAccountsList storage_client) ;;
    scan_accounts storage_accounts storage_account_name false
  else ret (storage_account_name, false).

(** Lines 175-182: write both keys into the vault and return them with the
    account name. *)
Definition store_and_return (secret_client : SecretClient) (keys : dict)
  (storage_account_name : string) : M W (option (string * string * string)) :=
  key1 <- getitem keys "key1" ;;
  invoke (set_secret sdk secret_client "tfstate1" key1)
         (SetSecret secret_client "tfstate1" key1) ;;
  key2 <- getitem keys "key2" ;;
  invoke (set_secret sdk secret_client "tfstate2" key2)
         (SetSecret secret_client "tfstate2" key2) ;;
  r1 <- getitem keys "key1" ;;
  r2 <- getitem keys "key2" ;;
  ret (Some (r1, r2, storage_account_name)).

(** Lines 125-155: the account was not found; check the candidate name and
    build the account and its container, or print and return [None]. *)
Definition build_storage_account (storage_client : Client)
  (secret_client : SecretClient) (resource_group storage_account_name : string)
  (vnet : OrgLocation) : M W (option (string * string * string)) :=
  print ("Checking if storage account name " ++ storage_account_name
         ++ " is available") ;;
  stg_name_availability <-
    invoke (check_name_availability sdk storage_client storage_account_name)
           (CheckNameAvailability storage_client storage_account_name) ;;
  if stg_name_availability : bool then
    print ("The storage account name " ++ storage_account_name
           ++ " is available, building account.") ;;
    let parameters :=
      {| sku := standard_ragrs; kind := storage;
         sa_location := location vnet |} in
    storage_async_operation <-
      invoke (storage_accounts_create sdk storage_client resource_group
                storage_account_name parameters)
             (StorageAccountCreate storage_client resource_group
                storage_account_name parameters) ;;
    invoke (storage_operation_result sdk storage_async_operation)
           (StorageOperationResult storage_async_operation) ;;
    invoke (blob_containers_create sdk storage_client resource_group
              storage_account_name "tfstate")
           (BlobContainerCreate storage_client resource_group
              storage_account_name "tfstate") ;;
    print "The tfstate container added to the storage account" ;;
    storage_keys <-
      invoke (list_keys sdk storage_client resource_group storage_account_name)
             (ListKeys storage_client resource_group storage_account_name) ;;
    let keys := keys_dict storage_keys in
    store_and_return secret_client keys storage_account_name
  else
    print ("The storage account " ++ storage_account_name
           ++ " is not available.") ;;
    ret None.

(** Lines 156-173: the account was found; fetch its keys and make sure the
    ["tfstate"] container is there. *)
Definition reuse_storage_account (storage_client : Client)
  (secret_client : SecretClient) (resource_group storage_account_name : string)
  : M W (option (string * string * string)) :=
  storage_keys <-
    invoke (list_keys sdk storage_client resource_group storage_account_name)
           (ListKeys storage_client resource_group storage_account_name) ;;
  let keys := keys_dict storage_keys in
  print "Confirming container for tfstate" ;;
  key1 <- getitem keys "key1" ;;
  let blob_service :=
    {| account_name := storage_account_name; account_key := key1 |} in
  container_list <- invoke (list_containers sdk blob_service)
                           (ListContainers blob_service) ;;
  let containers := map name container_list in
  (if negb (list_in "tfstate" containers) then
     print "tfstate container doesn't exist, creating container." ;;
     invoke (blob_containers_create sdk storage_client resource_group
               storage_account_name "tfstate")
            (BlobContainerCreate storage_client resource_group
               storage_account_name "tfstate")
   else print "tfstate container already exists.") ;;
  store_and_return secret_client keys storage_account_name.

(** [azure_state_setup(vnet, ops_subscription)] (lines 33-182).  [draws] is
    the randomness [random_generator] consumes. *)
Definition azure_state_setup (draws : nat -> nat) (vnet : OrgLocation)
  (ops_subscription : string) : M W (option (string * string * string)) :=
  let keyvault_name := orgName vnet ++ "-tfstate-kv" in
  let storage_prefix := orgName vnet ++ "tfstate" in
  suffix <- lift (random_generator default_size default_chars draws) ;;
  let storage_account_name := storage_prefix ++ suffix in
  let resource_group := orgName vnet ++ "-tfstate-rg" in
  client_id <- os_environ environ "ARM_CLIENT_ID" ;;
  object_id <- os_environ environ "ARM_OBJECT_ID" ;;
  secret <- os_environ environ "ARM_CLIENT_SECRET" ;;
  tenant <- os_environ environ "ARM_TENANT_ID" ;;
  let CREDENTIALS :=
    {| spc_client_id := client_id; spc_object_id := Some object_id;
       spc_secret := secret; spc_tenant := tenant |} in
  let resource_client :=
    {| credentials := CREDENTIALS; subscription_id := ops_subscription |} in
  let storage_client :=
    {| credentials := CREDENTIALS; subscription_id := ops_subscription |} in
  let keyvault_client :=
    {| credentials := CREDENTIALS; subscription_id := ops_subscription |} in
  sc_tenant <- os_environ environ "ARM_TENANT_ID" ;;
  sc_client_id <- os_environ environ "ARM_CLIENT_ID" ;;
  sc_secret <- os_environ environ "ARM_CLIENT_SECRET" ;;
  let secret_credentials :=
    {| csc_tenant_id := sc_tenant; csc_client_id := sc_client_id;
       csc_client_secret := sc_secret |} in
  let vault_uri := "https://" ++ keyvault_name ++ ".vault.azure.net/" in
  invoke (providers_register sdk resource_client "Microsoft.KeyVault")
         (ProvidersRegister resource_client "Microsoft.KeyVault") ;;
  ensure_resource_group resource_client resource_group vnet ;;
  keyvault_exists <- find_keyvault keyvault_client keyvault_name ;;
  ensure_keyvault keyvault_client resource_group keyvault_name vnet
    keyvault_exists ;;
  '(storage_account_name, storage_account_exists) <-
    find_storage_account storage_client storage_account_name ;;
  let secret_client :=
    {| vault_url := vault_uri; credential := secret_credentials |} in
  if negb storage_account_exists then
    build_storage_account storage_client secret_client resource_group
      storage_account_name vnet
  else
    reuse_storage_account storage_client secret_client resource_group
      storage_account_name.

(** [time.sleep(seconds)]: time passes in the world. *)
Definition sleep (seconds : nat) : M W unit :=
  fun w => {| trace := [Sleep seconds];
              final := time_sleep sdk seconds w;
              outcome_of := Returned tt |}.

(** The loop of lines 213-215, [while not async_vnet_peering.done(): ...];
    [fuel] bounds the number of times the condition is evaluated. *)
Fixpoint wait_for_peering (fuel : nat) (async_vnet_peering : Poller)
  : M W unit :=
  match fuel with
  | O => out_of_fuel
  | S fuel' =>
      done <- invoke (poller_done sdk async_vnet_peering)
                     (PollerDone async_vnet_peering) ;;
      if negb done then
        sleep 2 ;;
        status <- invoke (poller_status sdk async_vnet_peering)
                         (PollerStatus async_vnet_peering) ;;
        print ("Peering: " ++ status) ;;
        wait_for_peering fuel' async_vnet_peering
      else ret tt
  end.

(** [azure_peering(sub1, rg1, vnet1, sub2, rg2, vnet2)] (lines 184-218). *)
Definition azure_peering (fuel : nat) (sub1 rg1 vnet1 sub2 rg2 vnet2 : string)
  : M W unit :=
  client_id <- os_environ environ "ARM_CLIENT_ID" ;;
  secret <- os_environ environ "ARM_CLIENT_SECRET" ;;
  tenant <- os_environ environ "ARM_TENANT_ID" ;;
  let CREDENTIALS :=
    {| spc_client_id := client_id; spc_object_id := None;
       spc_secret := secret; spc_tenant := tenant |} in
  let network_client_1 :=
    {| credentials := CREDENTIALS; subscription_id := sub1 |} in
  let network_client_2 :=
    {| credentials := CREDENTIALS; subscription_id := sub2 |} in
  vnet1_obj <- invoke (virtual_networks_get sdk network_client_1 rg1 vnet1)
                      (VirtualNetworkGet network_client_1 rg1 vnet1) ;;
  vnet2_obj <- invoke (virtual_networks_get sdk network_client_2 rg2 vnet2)
                      (VirtualNetworkGet network_client_2 rg2 vnet2) ;;
  try_except_CloudError
    (let parameters :=
       {| remote_virtual_network_id := vnet_id vnet2_obj;
          allow_virtual_network_access := true;
          allow_forwarded_traffic := true;
          remote_address_prefixes := address_prefixes vnet2_obj |} in
     async_vnet_peering <-
       invoke (peerings_create_or_update sdk network_client_1 rg1 vnet1
                 "hubpeering" parameters)
              (PeeringCreate network_client_1 rg1 vnet1 "hubpeering"
                 parameters) ;;
     wait_for_peering fuel async_vnet_peering ;;
     print " ********** peering completed **********")
    (fun message => print message).

End Tfinit.

(** ** A reference provider

    A small in-memory subscription that answers the SDK calls of the script:
    resource groups, vaults with their secrets, storage accounts with two
    keys and their containers, virtual networks and one long-running
    peering operation that completes after a number of seconds of sleep (or
    never).  It gives the concrete runs on which the statements below are
    exercised. *)
Module SimCloud.

Record Account : Type := {
  acct_name : string;
  acct_key1 : string;
  acct_key2 : string;
  acct_containers : list string
}.

Record Network : Type := {
  net_subscription : string;
  net_group : string;
  net_name : string;
  net_object : VirtualNetwork
}.

Record Peering : Type := {
  peer_subscription : string;
  peer_group : string;
  peer_vnet : string;
  peer_name : string;
  peer_parameters : PeeringParameters
}.

Record Cloud : Type := {
  groups : list string;
  vaults : list string;
  secrets : list (string * string * string);
  accounts : list Account;
  (** storage account names taken elsewhere: the names are global *)
  taken : list string;
  networks : list Network;
  (** virtual networks under a management lock: they can be read but a
      peering cannot be added *)
  locked : list string;
  peerings : list Peering;
  (** seconds of sleep still needed before the peering operation reports
      done; [None] when it never does *)
  pending : option nat
}.

Definition with_groups (s : Cloud) (g : list string) : Cloud :=
  {| groups := g; vaults := vaults s; secrets := secrets s;
     accounts := accounts s; taken := taken s; networks := networks s; locked := locked s;
     peerings := peerings s; pending := pending s |}.

Definition with_vaults (s : Cloud) (v : list string) : Cloud :=
  {| groups := groups s; vaults := v; secrets := secrets s;
     accounts := accounts s; taken := taken s; networks := networks s; locked := locked s;
     peerings := peerings s; pending := pending s |}.

Definition with_secrets (s : Cloud) (x : list (string * string * string))
  : Cloud :=
  {| groups := groups s; vaults := vaults s; secrets := x;
     accounts := accounts s; taken := taken s; networks := networks s; locked := locked s;
     peerings := peerings s; pending := pending s |}.

Definition with_accounts (s : Cloud) (a : list Account) : Cloud :=
  {| groups := groups s; vaults := vaults s; secrets := secrets s;
     accounts := a; taken := taken s; networks := networks s; locked := locked s;
     peerings := peerings s; pending := pending s |}.

Definition with_peerings (s : Cloud) (p : list Peering) : Cloud :=
  {| groups := groups s; vaults := vaults s; secrets := secrets s;
     accounts := accounts s; taken := taken s; networks := networks s; locked := locked s;
     peerings := p; pending := pending s |}.

Definition with_pending (s : Cloud) (p : option nat) : Cloud :=
  {| groups := groups s; vaults := vaults s; secrets := secrets s;
     accounts := accounts s; taken := taken s; networks := networks s; locked := locked s;
     peerings := peerings s; pending := p |}.

Definition find_account (account : string) (s : Cloud) : option Account :=
  find (fun a => String.eqb (acct_name a) account) (accounts s).

(** Add a container to every account of that name. *)
Definition add_container (account container : string) (l : list Account)
  : list Account :=
  map (fun a =>
         if String.eqb (acct_name a) account then
           {| acct_name := acct_name a; acct_key1 := acct_key1 a;
              acct_key2 := acct_key2 a;
              acct_containers := acct_containers a ++ [container] |}
         else a) l.

Definition name_taken (account : string) (s : Cloud) : bool :=
  match find_account account s with
  | Some _ => true
  | None => list_in account (taken s)
  end.

Definition vault_of_url (url : string) (s : Cloud) : option string :=
  find (fun v => String.eqb ("https://" ++ v ++ ".vault.azure.net/") url)
       (vaults s).

Definition find_network (subscription rg vnet : string) (s : Cloud)
  : option Network :=
  find (fun n => String.eqb (net_subscription n) subscription
                 && String.eqb (net_group n) rg
                 && String.eqb (net_name n) vnet)%bool
       (networks s).

Definition operation_done (s : Cloud) : bool :=
  match pending s with
  | Some 0 => true
  | _ => false
  end.

Definition provider : SDK Cloud := {|
  providers_register := fun _ _ s => (Ok tt, s);
  check_existence := fun _ rg s => (Ok (list_in rg (groups s)), s);
  resource_groups_create_or_update := fun _ rg _ s =>
    (Ok tt, if list_in rg (groups s) then s
            else with_groups s (groups s ++ [rg]));
  vaults_list := fun _ s => (Ok (map Build_Item (vaults s)), s);
  vaults_create_or_update := fun _ _ vault _ s =>
    (Ok tt, if list_in vault (vaults s) then s
            else with_vaults s (vaults s ++ [vault]));
  storage_accounts_list := fun _ s =>
    (Ok (map (fun a => Build_Item (acct_name a)) (accounts s)), s);
  check_name_availability := fun _ account s =>
    (Ok (negb (name_taken account s)), s);
  storage_accounts_create := fun _ _ account _ s =>
    if name_taken account s then
      (Err (CloudError "StorageAccountAlreadyTaken"), s)
    else
        (Ok 0, with_accounts s
                 (accounts s ++
                  [{| acct_name := account;
                      acct_key1 := "key1-of-" ++ account;
                      acct_key2 := "key2-of-" ++ account;
                      acct_containers := [] |}]));
  storage_operation_result := fun _ s => (Ok tt, s);
  blob_containers_create := fun _ _ account container s =>
    match find_account account s with
    | Some _ =>
        (Ok tt, with_accounts s (add_container account container (accounts s)))
    | None => (Err (CloudError "ResourceNotFound"), s)
    end;
  list_keys := fun _ _ account s =>
    match find_account account s with
    | Some a =>
        (Ok [ {| key_name := "key1"; value := acct_key1 a |};
              {| key_name := "key2"; value := acct_key2 a |} ], s)
    | None => (Err (CloudError "ResourceNotFound"), s)
    end;
  list_containers := fun b s =>
    match find_account (account_name b) s with
    | Some a => (Ok (map Build_Item (acct_containers a)), s)
    | None => (Err (OtherError "AuthenticationFailed"), s)
    end;
  set_secret := fun c secret_name secret_value s =>
    match vault_of_url (vault_url c) s with
    | Some _ =>
        (Ok tt, with_secrets s
                  ((vault_url c, secret_name, secret_value) :: secrets s))
    | None => (Err (OtherError "ServiceRequestError"), s)
    end;
  virtual_networks_get := fun c rg vnet s =>
    match find_network (subscription_id c) rg vnet s with
    | Some n => (Ok (net_object n), s)
    | None => (Err (CloudError "ResourceNotFound"), s)
    end;
  peerings_create_or_update := fun c rg vnet peering p s =>
    match find_network (subscription_id c) rg vnet s with
    | Some _ =>
        if list_in vnet (locked s) then (Err (CloudError "ScopeLocked"), s)
        else
          (Ok 1, with_peerings s
                   (peerings s ++
                    [{| peer_subscription := subscription_id c;
                        peer_group := rg; peer_vnet := vnet;
                        peer_name := peering; peer_parameters := p |}]))
    | None => (Err (CloudError "ResourceNotFound"), s)
    end;
  poller_done := fun _ s => (Ok (operation_done s), s);
  poller_status := fun _ s =>
    (Ok (if operation_done s then "Succeeded" else "InProgress"), s);
  time_sleep := fun seconds s =>
    with_pending s (option_map (fun k => k - seconds) (pending s))
|}.

(** The listing the provider gives of its storage accounts. *)
Definition listing (s : Cloud) : list Item :=
  map (fun a => Build_Item (acct_name a)) (accounts s).

(** A complete environment. *)
Definition environ (key : string) : option string :=
  if String.eqb key "ARM_CLIENT_ID" then Some "client"
  else if String.eqb key "ARM_OBJECT_ID" then Some "object"
  else if String.eqb key "ARM_CLIENT_SECRET" then Some "secret"
  else if String.eqb key "ARM_TENANT_ID" then Some "tenant"
  else None.

(** The management client [azure_state_setup] builds from [environ] for the
    subscription ["ops"], and those [azure_peering] builds for ["sub1"] and
    ["sub2"]. *)
Definition ops_client : Client :=
  {| credentials :=
       {| spc_client_id := "client"; spc_object_id := Some "object";
          spc_secret := "secret"; spc_tenant := "tenant" |};
     subscription_id := "ops" |}.

Definition network_client (subscription : string) : Client :=
  {| credentials :=
       {| spc_client_id := "client"; spc_object_id := None;
          spc_secret := "secret"; spc_tenant := "tenant" |};
     subscription_id := subscription |}.

(** A fresh subscription. *)
Definition fresh : Cloud :=
  {| groups := []; vaults := []; secrets := []; accounts := [];
     taken := []; networks := []; locked := []; peerings := [];
     pending := Some 4 |}.

(** A fresh subscription when the candidate name of the example is taken by
    someone else. *)
Definition name_gone : Cloud :=
  {| groups := []; vaults := []; secrets := []; accounts := [];
     taken := ["acmetfstateabc012"]; networks := []; locked := [];
     peerings := []; pending := Some 4 |}.

(** A subscription with a vault whose name only starts like the derived
    name, and a storage account whose name merely contains ["tfstate"]. *)
Definition lookalikes : Cloud :=
  {| groups := []; vaults := ["acme-tfstate-kv-old"]; secrets := [];
     accounts := [{| acct_name := "xtfstatey"; acct_key1 := "k1";
                     acct_key2 := "k2"; acct_containers := ["tfstate"] |}];
     taken := []; networks := []; locked := []; peerings := [];
     pending := Some 4 |}.

(** A provisioned subscription with two accounts whose names contain
    ["tfstate"]; the one listed last has no container yet. *)
Definition provisioned : Cloud :=
  {| groups := ["acme-tfstate-rg"]; vaults := ["acme-tfstate-kv"];
     secrets := [];
     accounts := [{| acct_name := "acmetfstateold111"; acct_key1 := "old1";
                     acct_key2 := "old2"; acct_containers := ["tfstate"] |};
                  {| acct_name := "logs"; acct_key1 := "l1";
                     acct_key2 := "l2"; acct_containers := [] |};
                  {| acct_name := "acmetfstatenew222"; acct_key1 := "new1";
                     acct_key2 := "new2"; acct_containers := [] |}];
     taken := []; networks := []; locked := []; peerings := [];
     pending := Some 4 |}.

(** Two virtual networks in two subscriptions; the peering operation needs
    four seconds. *)
Definition hub : VirtualNetwork :=
  {| vnet_id := "/subscriptions/sub1/resourceGroups/rg1/virtualNetworks/hub";
     address_prefixes := ["10.0.0.0/16"] |}.

Definition spoke : VirtualNetwork :=
  {| vnet_id := "/subscriptions/sub2/resourceGroups/rg2/virtualNetworks/spoke";
     address_prefixes := ["10.1.0.0/16"; "10.2.0.0/16"] |}.

Definition hub_and_spoke : Cloud :=
  {| groups := []; vaults := []; secrets := []; accounts := []; taken := [];
     networks := [{| net_subscription := "sub1"; net_group := "rg1";
                     net_name := "hub"; net_object := hub |};
                  {| net_subscription := "sub2"; net_group := "rg2";
                     net_name := "spoke"; net_object := spoke |}];
     locked := []; peerings := []; pending := Some 4 |}.

(** The same, when the peering operation never completes, and when the hub
    is locked. *)
Definition never_done : Cloud := with_pending hub_and_spoke None.

Definition locked_hub : Cloud :=
  {| groups := []; vaults := []; secrets := []; accounts := []; taken := [];
     networks := networks hub_and_spoke; locked := ["hub"]; peerings := [];
     pending := Some 4 |}.

(** The organisation used in the examples. *)
Definition acme : OrgLocation := {| orgName := "acme"; location := "westus" |}.

(** Draws giving the suffix ["abc012"]. *)
Definition draws (x : nat) : nat :=
  match x with
  | 0 => 0 | 1 => 1 | 2 => 2 | 3 => 26 | 4 => 27 | _ => 28
  end.

End SimCloud.

(** The environment has the four variables the script reads. *)
Definition complete (environ : string -> option string) : Prop :=
  forall key,
    In key ["ARM_CLIENT_ID"; "ARM_OBJECT_ID"; "ARM_CLIENT_SECRET";
            "ARM_TENANT_ID"] ->
    environ key <> None.

(** ** Classification of events *)

(** The calls that create a resource. *)
Definition is_creation (e : event) : bool :=
  match e with
  | ResourceGroupCreate _ _ _ _ => true
  | VaultCreate _ _ _ _ _ => true
  | StorageAccountCreate _ _ _ _ _ => true
  | BlobContainerCreate _ _ _ _ _ => true
  | PeeringCreate _ _ _ _ _ _ => true
  | _ => false
  end.

(** The calls that create storage: an account or a container. *)
Definition is_storage_creation (e : event) : bool :=
  match e with
  | StorageAccountCreate _ _ _ _ _ => true
  | BlobContainerCreate _ _ _ _ _ => true
  | _ => false
  end.

Definition is_set_secret (e : event) : bool :=
  match e with
  | SetSecret _ _ _ _ => true
  | _ => false
  end.

Definition is_peering_create (e : event) : bool :=
  match e with
  | PeeringCreate _ _ _ _ _ _ => true
  | _ => false
  end.

Definition is_print (e : event) : bool :=
  match e with
  | Print _ => true
  | _ => false
  end.

(** The events of one pass through the body of the polling loop: the
    operation is not done, the script sleeps two seconds, reads the status
    and prints it. *)
Definition polling_iteration (op : Poller) (status : string) : list event :=
  [PollerDone op (Ok false); Sleep 2; PollerStatus op (Ok status);
   Print ("Peering: " ++ status)].

Definition is_iteration_event (e : event) : bool :=
  match e with
  | PollerDone _ (Ok false) => true
  | Sleep 2 => true
  | PollerStatus _ (Ok _) => true
  | Print _ => true
  | _ => false
  end.

(** The call recorded by the event raised an exception. *)
Definition replied_error (e : event) : bool :=
  match e with
  | Print _ | Sleep _ => false
  | ProvidersRegister _ _ (Err _) => true
  | CheckExistence _ _ (Err _) => true
  | ResourceGroupCreate _ _ _ (Err _) => true
  | VaultsList _ (Err _) => true
  | VaultCreate _ _ _ _ (Err _) => true
  | StorageAccountsList _ (Err _) => true
  | CheckNameAvailability _ _ (Err _) => true
  | StorageAccountCreate _ _ _ _ (Err _) => true
  | StorageOperationResult _ (Err _) => true
  | BlobContainerCreate _ _ _ _ (Err _) => true
  | ListKeys _ _ _ (Err _) => true
  | ListContainers _ (Err _) => true
  | SetSecret _ _ _ (Err _) => true
  | VirtualNetworkGet _ _ _ (Err _) => true
  | PeeringCreate _ _ _ _ _ (Err _) => true
  | PollerDone _ (Err _) => true
  | PollerStatus _ (Err _) => true
  | _ => false
  end.

(** How the polling loop can stop after the passes [statuses]: what it
    leaves in the trace after them, and the outcome. *)
Definition loop_exit (fuel : nat) (op : Poller) (statuses : list string)
  (rest : list event) (o : outcome unit) : Prop :=
  match o with
  | Returned _ =>
      rest = [PollerDone op (Ok true)] /\ List.length statuses < fuel
  | OutOfFuel => rest = [] /\ List.length statuses = fuel
  | Raised e =>
      List.length statuses < fuel
      /\ (rest = [PollerDone op (Err e)]
          \/ rest = [PollerDone op (Ok false); Sleep 2;
                     PollerStatus op (Err e)])
  end.

(** The names of a listing that contain ["tfstate"], in listing order. *)
Definition tfstate_names (storage_accounts : list Item) : list string :=
  filter (str_in "tfstate") (map name storage_accounts).

(** Every character of [s] occurs in [chars]. *)
Fixpoint drawn_from (chars s : string) : Prop :=
  match s with
  | EmptyString => True
  | String c s' => (exists k, String.get k chars = Some c) /\ drawn_from chars s'
  end.

(** The name the account loop ends with: the last listed name containing
    ["tfstate"], or the name it started with. *)
Definition resolved_name (storage_accounts : list Item) (candidate : string)
  : string :=
  last (tfstate_names storage_accounts) candidate.

(** ** Statements about runs

    [holds m Q w]: [Q] holds of the trace, the final world and the outcome
    of the run of [m] from the world [w]. *)
Definition holds {W A} (m : M W A)
  (Q : list event -> W -> outcome A -> Prop) (w : W) : Prop :=
  Q (trace (m w)) (final (m w)) (outcome_of (m w)).

(** The events of lines 62-65: the resource group. *)
Definition is_group_event (e : event) : bool :=
  match e with
  | CheckExistence _ _ _ => true
  | ResourceGroupCreate _ _ _ _ => true
  | _ => false
  end.

(** The events of lines 67-105: the key vault. *)
Definition is_vault_event (e : event) : bool :=
  match e with
  | Print _ => true
  | VaultsList _ _ => true
  | VaultCreate _ _ _ _ _ => true
  | _ => false
  end.

(** The events of lines 109-182: storage account, container and secrets. *)
Definition is_storage_phase_event (e : event) : bool :=
  match e with
  | Print _ => true
  | StorageAccountsList _ _ => true
  | CheckNameAvailability _ _ _ => true
  | StorageAccountCreate _ _ _ _ _ => true
  | StorageOperationResult _ _ => true
  | BlobContainerCreate _ _ _ _ _ => true
  | ListKeys _ _ _ _ => true
  | ListContainers _ _ => true
  | SetSecret _ _ _ _ => true
  | _ => false
  end.

(** What is used of a phase when it is not looked into: the class of its
    events, and that it stops. *)
Definition of_class {W A} (class : event -> bool)
  : list event -> W -> outcome A -> Prop :=
  fun t _ o => Forall (fun e => class e = true) t /\ o <> OutOfFuel.


(** ** What an event tells of its call *)

Definition error_of {A} (r : result A) : option exn :=
  match r with
  | Ok _ => None
  | Err e => Some e
  end.

(** The exception the call recorded by the event raised, if it raised. *)
Definition raised_by (e : event) : option exn :=
  match e with
  | Print _ | Sleep _ => None
  | ProvidersRegister _ _ r => error_of r
  | CheckExistence _ _ r => error_of r
  | ResourceGroupCreate _ _ _ r => error_of r
  | VaultsList _ r => error_of r
  | VaultCreate _ _ _ _ r => error_of r
  | StorageAccountsList _ r => error_of r
  | CheckNameAvailability _ _ r => error_of r
  | StorageAccountCreate _ _ _ _ r => error_of r
  | StorageOperationResult _ r => error_of r
  | BlobContainerCreate _ _ _ _ r => error_of r
  | ListKeys _ _ _ r => error_of r
  | ListContainers _ r => error_of r
  | SetSecret _ _ _ r => error_of r
  | VirtualNetworkGet _ _ _ r => error_of r
  | PeeringCreate _ _ _ _ _ r => error_of r
  | PollerDone _ r => error_of r
  | PollerStatus _ r => error_of r
  end.

(** The management client a call was made through. *)
Definition client_of (e : event) : option Client :=
  match e with
  | ProvidersRegister c _ _ => Some c
  | CheckExistence c _ _ => Some c
  | ResourceGroupCreate c _ _ _ => Some c
  | VaultsList c _ => Some c
  | VaultCreate c _ _ _ _ => Some c
  | StorageAccountsList c _ => Some c
  | CheckNameAvailability c _ _ => Some c
  | StorageAccountCreate c _ _ _ _ => Some c
  | BlobContainerCreate c _ _ _ _ => Some c
  | ListKeys c _ _ _ => Some c
  | VirtualNetworkGet c _ _ _ => Some c
  | PeeringCreate c _ _ _ _ _ => Some c
  | _ => None
  end.

(** The calls on virtual networks, peerings and their operations, and
    [time.sleep]: what [azure_peering] does. *)
Definition is_network_event (e : event) : bool :=
  match e with
  | VirtualNetworkGet _ _ _ _ => true
  | PeeringCreate _ _ _ _ _ _ => true
  | PollerDone _ _ => true
  | PollerStatus _ _ => true
  | Sleep _ => true
  | _ => false
  end.

(** The event is a call through the management client [c], a secret
    written through [sc], a call on an object obtained from those, or a
    printed line; it is not a call on a virtual network. *)
Definition through (c : Client) (sc : SecretClient) (e : event) : Prop :=
  match e with
  | SetSecret sc' _ _ _ => sc' = sc
  | _ =>
      is_network_event e = false
      /\ match client_of e with
         | Some c' => c' = c
         | None => True
         end
  end.

(** [os.environ] has no entry for [key]. *)
Definition unset (environ : string -> option string) (key : string) : bool :=
  match environ key with
  | Some _ => false
  | None => true
  end.

Definition is_accounts_list (e : event) : bool :=
  match e with
  | StorageAccountsList _ _ => true
  | _ => false
  end.

Definition is_vaults_list (e : event) : bool :=
  match e with
  | VaultsList _ _ => true
  | _ => false
  end.

Definition is_vault_create (e : event) : bool :=
  match e with
  | VaultCreate _ _ _ _ _ => true
  | _ => false
  end.

(** The name a creation call asks for. *)
Definition created_name (e : event) : string :=
  match e with
  | ResourceGroupCreate _ rg _ _ => rg
  | VaultCreate _ _ vault _ _ => vault
  | StorageAccountCreate _ _ account _ _ => account
  | BlobContainerCreate _ _ _ container _ => container
  | PeeringCreate _ _ _ peering _ _ => peering
  | _ => ""
  end.

(** The storage account the reference provider makes for a name, holding
    the containers given. *)
Definition new_account (account : string) (containers : list string)
  : SimCloud.Account :=
  {| SimCloud.acct_name := account;
     SimCloud.acct_key1 := "key1-of-" ++ account;
     SimCloud.acct_key2 := "key2-of-" ++ account;
     SimCloud.acct_containers := containers |}.

(** ** Properties of a whole run *)

(** Every event of the run satisfies [P]. *)
Definition always {W A} (P : event -> Prop)
  : list event -> W -> outcome A -> Prop :=
  fun t _ _ => Forall P t.

(** A run without error handling: a call that raises is the last event and
    its exception is the outcome; and an exception that is the outcome was
    raised by the last call, or is the [KeyError] of a lookup of one of
    [keys]. *)
Definition fails_fast {W A} (keys : list string)
  : list event -> W -> outcome A -> Prop :=
  fun t _ o =>
    (forall e x,
       In e t -> raised_by e = Some x ->
       o = Raised x /\ exists pre, t = (pre ++ [e])%list)
    /\ (forall x,
          o = Raised x ->
          (exists pre e, t = (pre ++ [e])%list /\ raised_by e = Some x)
          \/ (exists key, In key keys /\ x = KeyError key))
    /\ o <> OutOfFuel.

(** ** The reference provider with faults

    The reference provider with two replies replaced: the key listing of
    every storage account, and the status of the peering operation. *)
Module SimFaults.

Definition provider (storage_keys : result (list StorageAccountKey))
  (status : result string) : SDK SimCloud.Cloud := {|
  providers_register := providers_register SimCloud.provider;
  check_existence := check_existence SimCloud.provider;
  resource_groups_create_or_update :=
    resource_groups_create_or_update SimCloud.provider;
  vaults_list := vaults_list SimCloud.provider;
  vaults_create_or_update := vaults_create_or_update SimCloud.provider;
  storage_accounts_list := storage_accounts_list SimCloud.provider;
  check_name_availability := check_name_availability SimCloud.provider;
  storage_accounts_create := storage_accounts_create SimCloud.provider;
  storage_operation_result := storage_operation_result SimCloud.provider;
  blob_containers_create := blob_containers_create SimCloud.provider;
  list_keys := fun _ _ _ s => (storage_keys, s);
  list_containers := list_containers SimCloud.provider;
  set_secret := set_secret SimCloud.provider;
  virtual_networks_get := virtual_networks_get SimCloud.provider;
  peerings_create_or_update := peerings_create_or_update SimCloud.provider;
  poller_done := poller_done SimCloud.provider;
  poller_status := fun _ s => (status, s);
  time_sleep := time_sleep SimCloud.provider
|}.

(** An environment without [ARM_OBJECT_ID]. *)
Definition no_object_id (key : string) : option string :=
  if String.eqb key "ARM_OBJECT_ID" then None else SimCloud.environ key.

End SimFaults.

(** ** ASCII strings

    [chars.isascii()]: every character of [chars] is below 128.  A Python
    [str] is a sequence of code points and the strings here are sequences
    of bytes; the two have the same length and the same characters at the
    same indices exactly on ASCII strings. *)
Definition isascii (chars : string) : bool :=
  forallb (fun c => (nat_of_ascii c <? 128)%nat) (list_ascii_of_string chars).

(** ** A subscription in which everything is in place

    The reply recorded by the event is one a subscription gives in which
    the resource group exists, the vaults are [vaults], the storage accounts
    are [storage_accounts], and the account named [account] has the keys
    [storage_keys] and the containers [container_list]; and the call did not
    raise.  Nothing is asked of the keys and the containers of another
    account. *)
Definition in_place (vaults storage_accounts : list Item) (account : string)
  (storage_keys : list StorageAccountKey) (container_list : list Item)
  (e : event) : Prop :=
  replied_error e = false
  /\ match e with
     | CheckExistence _ _ reply => reply = Ok true
     | VaultsList _ reply => reply = Ok vaults
     | StorageAccountsList _ reply => reply = Ok storage_accounts
     | ListKeys _ _ a reply => a = account -> reply = Ok storage_keys
     | ListContainers b reply =>
         account_name b = account -> reply = Ok container_list
     | _ => True
     end.

(** [C] holds of the run whenever every event of the run satisfies [ok]. *)
Definition given {W A} (ok : event -> Prop)
  (C : list event -> W -> outcome A -> Prop)
  : list event -> W -> outcome A -> Prop :=
  fun t w o => Forall ok t -> C t w o.

(** ** Strings *)

Lemma prefix_app (s t : string) : String.prefix s (s ++ t) = true.
Proof.
  induction s as [|c s IH]; simpl.
  - destruct t; reflexivity.
  - destruct (ascii_dec c c) as [_|n]; [exact IH | contradiction n; reflexivity].
Qed.

Lemma str_in_prefix (needle hay : string) :
  String.prefix needle hay = true -> str_in needle hay = true.
Proof.
  intros H. destruct hay; unfold str_in; fold str_in; now rewrite H.
Qed.

Lemma str_in_app (needle s t : string) :
  str_in needle (s ++ needle ++ t) = true.
Proof.
  induction s as [|c s IH].
  - apply str_in_prefix. exact (prefix_app needle t).
  - change (String c s ++ needle ++ t) with (String c (s ++ needle ++ t)).
    unfold str_in; fold str_in.
    destruct (String.prefix needle (String c (s ++ needle ++ t)));
      [reflexivity | exact IH].
Qed.

Lemma string_app_assoc (a b c : string) : (a ++ b) ++ c = a ++ b ++ c.
Proof. induction a; simpl; congruence. Qed.

(** ** The random suffix *)

Lemma get_below (s : string) (k : nat) :
  k < String.length s -> exists c, String.get k s = Some c.
Proof.
  revert k; induction s as [|a s IH]; simpl; intros k Hk; [lia|].
  destruct k; [eauto | apply IH; lia].
Qed.

Lemma choice_nonempty (chars : string) (draw : nat) :
  0 < String.length chars ->
  exists c, choice chars draw = Ok c
            /\ String.get (draw mod String.length chars) chars = Some c.
Proof.
  intros H. unfold choice.
  destruct (get_below chars (draw mod String.length chars)) as [c Hc].
  - apply Nat.mod_upper_bound. lia.
  - rewrite Hc. eauto.
Qed.

Lemma join_choices_nonempty (chars : string) (draws : nat -> nat)
  (size from : nat) :
  0 < String.length chars ->
  exists s, join_choices chars draws from size = Ok s
            /\ String.length s = size /\ drawn_from chars s.
Proof.
  intros H. revert from.
  induction size as [|n IH]; intros from; simpl.
  - exists EmptyString. simpl. auto.
  - destruct (choice_nonempty chars (draws from) H) as [c [Hc Hg]].
    rewrite Hc. destruct (IH (S from)) as [s [Hs [Hl Hd]]]. rewrite Hs.
    exists (String c s). simpl. repeat split; eauto.
Qed.

Lemma random_generator_default (draws : nat -> nat) :
  exists suffix,
    random_generator default_size default_chars draws = Ok suffix
    /\ String.length suffix = 6
    /\ drawn_from (ascii_lowercase ++ digits) suffix.
Proof.
  apply join_choices_nonempty. simpl. lia.
Qed.

(** ** The two discovery loops *)

Lemma count_items_length (items : list Item) :
  count_items items = List.length items.
Proof.
  unfold count_items.
  assert (G : forall l n, fold_left (fun i (_ : Item) => i + 1) l n
                          = n + List.length l).
  { induction l as [|x l IH]; intros n; simpl; [lia | rewrite IH; lia]. }
  now rewrite G.
Qed.

Lemma count_items_positive (items : list Item) :
  (0 <? count_items items)%nat = negb (match items with [] => true | _ => false end).
Proof. rewrite count_items_length. destruct items; reflexivity. Qed.

Section Loops.

Context {W : Type}.

(** The vault loop prints once per exact match, leaves the world alone, and
    ends with the flag set when a match was seen. *)
Lemma scan_vaults_run (keyvault_name : string) (vaults : list Item)
  (keyvault_exists : bool) (w : W) :
  scan_vaults keyvault_name vaults keyvault_exists w =
  {| trace :=
       map (fun _ => Print ("*** The keyvault " ++ keyvault_name
                            ++ " already exists, bypassing creation ***"))
           (filter (fun item => String.eqb (name item) keyvault_name) vaults);
     final := w;
     outcome_of :=
       Returned (keyvault_exists
                 || existsb (fun item => String.eqb (name item) keyvault_name)
                            vaults)%bool |}.
Proof.
  revert keyvault_exists.
  induction vaults as [|item rest IH]; intros b; simpl.
  - now rewrite orb_false_r.
  - destruct (String.eqb (name item) keyvault_name); simpl.
    + unfold bind, print; simpl. rewrite IH. simpl.
      now rewrite orb_true_r.
    + apply IH.
Qed.

Lemma last_cons_default {A} (x d : A) (l : list A) :
  last (x :: l) d = last l x.
Proof.
  revert x d; induction l as [|y l IH]; intros x d; [reflexivity|].
  change (last (x :: y :: l) d) with (last (y :: l) d).
  now rewrite !IH.
Qed.

Lemma scan_accounts_run (storage_accounts : list Item)
  (storage_account_name : string) (storage_account_exists : bool) (w : W) :
  scan_accounts storage_accounts storage_account_name
    storage_account_exists w =
  {| trace :=
       map (fun _ => Print "*** The tfstate storage account exists, bypassing storage build ***")
           (tfstate_names storage_accounts);
     final := w;
     outcome_of :=
       Returned (resolved_name storage_accounts storage_account_name,
                 (storage_account_exists
                  || existsb (fun item => str_in "tfstate" (name item))
                             storage_accounts)%bool) |}.
Proof.
  revert storage_account_name storage_account_exists.
  induction storage_accounts as [|item rest IH]; intros n b.
  - simpl. now rewrite orb_false_r.
  - unfold resolved_name, tfstate_names in *.
    cbn [scan_accounts map filter existsb].
    destruct (str_in "tfstate" (name item)) eqn:E.
    + unfold bind, print. cbn [outcome_of trace final].
      rewrite IH. cbn [outcome_of trace final app map].
      rewrite orb_true_r, last_cons_default. reflexivity.
    + rewrite IH. reflexivity.
Qed.

End Loops.


(** ** Rules for stepping through a procedure *)

Local Open Scope list_scope.

Section Rules.

Context {W : Type}.

Lemma holds_run {A} (m : M W A) (Q : list event -> W -> outcome A -> Prop)
  (w : W) :
  holds m Q w -> Q (trace (m w)) (final (m w)) (outcome_of (m w)).
Proof. exact (fun H => H). Qed.

Lemma holds_bind_invoke {A B} (op : W -> result A * W) ev
  (f : A -> M W B) Q w :
  (forall r w', op w = (r, w') ->
     match r with
     | Ok a => holds (f a) (fun t => Q (ev (Ok a) :: t)) w'
     | Err e => Q [ev (Err e)] w' (Raised e)
     end) ->
  holds (bind (invoke op ev) f) Q w.
Proof.
  intros H. unfold holds, bind, invoke in *.
  destruct (op w) as [[a|e] w'] eqn:E; specialize (H _ _ eq_refl);
    exact H.
Qed.

Lemma holds_invoke {A} (op : W -> result A * W) ev Q w :
  (forall r w', op w = (r, w') ->
     Q [ev r] w'
       (match r with Ok a => Returned a | Err e => Raised e end)) ->
  holds (invoke op ev) Q w.
Proof.
  intros H. unfold holds, invoke. destruct (op w) as [r w']. cbn.
  now apply H.
Qed.

Lemma holds_bind_print {B} s (f : unit -> M W B) Q w :
  holds (f tt) (fun t => Q (Print s :: t)) w -> holds (bind (print s) f) Q w.
Proof. exact (fun H => H). Qed.

Lemma holds_print s Q (w : W) :
  Q [Print s] w (Returned tt) -> holds (print s) Q w.
Proof. exact (fun H => H). Qed.

Lemma holds_ret {A} (a : A) Q (w : W) :
  Q [] w (Returned a) -> holds (ret a) Q w.
Proof. exact (fun H => H). Qed.

Lemma holds_out_of_fuel {A} (Q : list event -> W -> outcome A -> Prop)
  (w : W) :
  Q [] w OutOfFuel -> holds out_of_fuel Q w.
Proof. exact (fun H => H). Qed.

Lemma holds_bind_ret {A B} (a : A) (f : A -> M W B) Q w :
  holds (f a) Q w -> holds (bind (ret a) f) Q w.
Proof. unfold holds, bind, ret; cbn. trivial. Qed.

Lemma holds_bind_os_environ {B} env k (f : string -> M W B) Q w :
  match env k with
  | Some v => holds (f v) Q w
  | None => Q [] w (Raised (KeyError k))
  end ->
  holds (bind (os_environ env k) f) Q w.
Proof.
  unfold holds, bind, os_environ. destruct (env k); cbn; trivial.
Qed.

Lemma holds_bind_getitem {B} d k (f : string -> M W B) Q w :
  match dict_get d k with
  | Some v => holds (f v) Q w
  | None => Q [] w (Raised (KeyError k))
  end ->
  holds (bind (getitem d k) f) Q w.
Proof.
  unfold holds, bind, getitem. destruct (dict_get d k); cbn; trivial.
Qed.

Lemma holds_bind_lift {A B} (r : result A) (f : A -> M W B) Q w :
  match r with
  | Ok a => holds (f a) Q w
  | Err e => Q [] w (Raised e)
  end ->
  holds (bind (lift r) f) Q w.
Proof.
  unfold holds, bind, lift. destruct r; cbn; trivial.
Qed.

Lemma holds_bind_bind {A B C} (m : M W A) (f : A -> M W B)
  (g : B -> M W C) Q w :
  holds (bind m (fun a => bind (f a) g)) Q w ->
  holds (bind (bind m f) g) Q w.
Proof.
  unfold holds, bind. destruct (m w) as [t1 w1 [a|e|]]; cbn; trivial.
  destruct (f a w1) as [t2 w2 [b|e|]]; cbn; trivial.
  destruct (g b w2) as [t3 w3 o]; cbn. now rewrite <- !app_assoc.
Qed.

Lemma holds_bind_sleep {B} (sdk : SDK W) seconds (f : unit -> M W B) Q w :
  holds (f tt) (fun t => Q (Sleep seconds :: t)) (time_sleep sdk seconds w) ->
  holds (bind (sleep sdk seconds) f) Q w.
Proof. exact (fun H => H). Qed.

(** [try ... except CloudError]: the handler runs after a [CloudError] of
    the body, and only then. *)
Lemma holds_try {A} (body : M W A) (handler : string -> M W A) Q w :
  holds body
    (fun t w1 o =>
       match o with
       | Raised (CloudError message) =>
           holds (handler message) (fun t' => Q (t ++ t')) w1
       | _ => Q t w1 o
       end) w ->
  holds (try_except_CloudError body handler) Q w.
Proof.
  unfold holds, try_except_CloudError.
  destruct (body w) as [t w1 [a|[m|k|m|m]|]]; cbn; trivial.
Qed.

(** A step whose run is known in closed form. *)
Lemma holds_bind_known {A B} (m : M W A) t w1 a (f : A -> M W B) Q w :
  m w = {| trace := t; final := w1; outcome_of := Returned a |} ->
  holds (f a) (fun t' => Q (t ++ t')) w1 ->
  holds (bind m f) Q w.
Proof. intros E. unfold holds, bind. rewrite E. cbn. trivial. Qed.

Lemma holds_known {A} (m : M W A) t w1 o Q w :
  m w = {| trace := t; final := w1; outcome_of := o |} ->
  Q t w1 o ->
  holds m Q w.
Proof. intros E. unfold holds. now rewrite E. Qed.

(** A step of which only a property [P] of its run is used. *)
Lemma holds_bind_phase {A B} (P : list event -> W -> outcome A -> Prop)
  (m : M W A) (f : A -> M W B) Q w :
  holds m P w ->
  (forall t w1 o, P t w1 o ->
     match o with
     | Returned a => holds (f a) (fun t' => Q (t ++ t')) w1
     | Raised e => Q t w1 (Raised e)
     | OutOfFuel => Q t w1 OutOfFuel
     end) ->
  holds (bind m f) Q w.
Proof.
  unfold holds, bind. cbn. intros HP H. specialize (H _ _ _ HP).
  destruct (outcome_of (m w)); cbn; trivial.
Qed.

Lemma holds_phase {A} (P : list event -> W -> outcome A -> Prop)
  (m : M W A) (Q : list event -> W -> outcome A -> Prop) w :
  holds m P w ->
  (forall t w1 o, P t w1 o -> Q t w1 o) ->
  holds m Q w.
Proof. unfold holds. auto. Qed.

End Rules.

(** One step of a procedure: the head statement is performed and the goal
    splits along its possible replies.  Local records (clients, credentials,
    parameters) are kept under their names. *)
Ltac step :=
  cbv beta iota;
  lazymatch goal with
  | |- holds (let x := ?v in @?body x) ?Q ?w =>
      let T := type of v in
      let keep :=
        lazymatch T with
        | ServicePrincipalCredentials => constr:(true)
        | ClientSecretCredential => constr:(true)
        | Client => constr:(true)
        | SecretClient => constr:(true)
        | BlockBlobService => constr:(true)
        | VaultParameters => constr:(true)
        | StorageAccountCreateParameters => constr:(true)
        | PeeringParameters => constr:(true)
        | _ => constr:(false)
        end in
      lazymatch keep with
      | true =>
          let y := fresh x in
          pose (y := v); change (holds (body y) Q w)
      | false => change (holds (body v) Q w)
      end
  | |- holds (bind (bind _ _) _) _ _ => apply holds_bind_bind
  | |- holds (bind (invoke _ _) _) _ _ =>
      apply holds_bind_invoke; intros [?|?] ? ?
  | |- holds (invoke _ _) _ _ => apply holds_invoke; intros [?|?] ? ?
  | |- holds (bind (print _) _) _ _ => apply holds_bind_print
  | |- holds (print _) _ _ => apply holds_print
  | |- holds (bind (ret _) _) _ _ => apply holds_bind_ret
  | |- holds (ret _) _ _ => apply holds_ret
  | |- holds out_of_fuel _ _ => apply holds_out_of_fuel
  | |- holds (bind (sleep _ _) _) _ _ => apply holds_bind_sleep
  | |- holds (try_except_CloudError _ _) _ _ => apply holds_try
  | |- holds (bind (os_environ ?e ?k) _) _ _ =>
      apply holds_bind_os_environ;
      let E := fresh "Henv" in
      destruct (e k) eqn:E;
      repeat match goal with
             | H : Some _ = Some _ |- _ => injection H as <-
             | H : Some _ = None |- _ => discriminate H
             | H : None = Some _ |- _ => discriminate H
             end
  | |- holds (bind (getitem ?d ?k) _) _ _ =>
      apply holds_bind_getitem;
      let E := fresh "Hkey" in
      destruct (dict_get d k) eqn:E;
      repeat match goal with
             | H : Some _ = Some _ |- _ => injection H as <-
             | H : Some _ = None |- _ => discriminate H
             | H : None = Some _ |- _ => discriminate H
             end
  | |- holds (bind (lift (random_generator default_size default_chars ?d)) _)
         _ _ =>
      let s := fresh "suffix" in
      let E := fresh "Hsuffix" in
      apply holds_bind_lift;
      destruct (random_generator_default d) as [s [E _]]; rewrite E
  | |- holds (bind (scan_vaults _ _ _) _) _ _ =>
      eapply holds_bind_known; [apply scan_vaults_run|]
  | |- holds (bind (scan_accounts _ _ _) _) _ _ =>
      eapply holds_bind_known; [apply scan_accounts_run|]
  | |- holds (scan_vaults _ _ _) _ _ =>
      eapply holds_known; [apply scan_vaults_run|]
  | |- holds (scan_accounts _ _ _) _ _ =>
      eapply holds_known; [apply scan_accounts_run|]
  | |- holds (bind (if ?b then _ else _) _) _ _ => destruct b eqn:?
  | |- holds (if ?b then _ else _) _ _ => destruct b eqn:?
  | |- holds (match ?x with (_, _) => _ end) _ _ => destruct x eqn:?
  end.

(** Take a membership hypothesis apart.  A member of a segment [t] known
    only by the class of its events is discarded when it cannot be of that
    class. *)
Ltac in_inv H :=
  cbn [app] in H;
  lazymatch type of H with
  | In _ (_ ++ _) =>
      apply in_app_or in H;
      let H' := fresh H in
      destruct H as [H'|H]; [in_inv H' | in_inv H]
  | In _ (_ :: _) =>
      let H' := fresh H in
      destruct H as [H'|H]; [try discriminate H' | in_inv H]
  | In _ [] => destruct H
  | In _ (map _ _) =>
      apply in_map_iff in H; destruct H as (? & H & _); try discriminate H
  | In _ ?t =>
      try match goal with
          | F : Forall _ t |- _ =>
              apply (proj1 (Forall_forall _ _) F) in H; discriminate H
          end
  end.

(** Prove a membership in a collected trace; segments known only by their
    class are passed over. *)
Ltac in_solve :=
  solve [ cbn [app];
          repeat first
            [ left; reflexivity
            | right
            | lazymatch goal with
              | |- In _ ((?a ++ ?b) ++ ?c) =>
                  rewrite <- (app_assoc a b c); cbn [app]
              end
            | apply in_or_app; right ] ].

(** ** The phases of azure_state_setup *)

Lemma Forall_map_const {A B} (P : B -> Prop) (b : B) (l : list A) :
  P b -> Forall P (map (fun _ => b) l).
Proof. intros H. induction l; simpl; constructor; assumption. Qed.

Ltac class_leaf :=
  split;
  [ cbn [app];
    repeat first
      [ apply Forall_nil
      | apply Forall_cons; [reflexivity|]
      | apply Forall_app; split
      | apply Forall_map_const; reflexivity ]
  | discriminate ].

Section Phases.

Context {W : Type}.
Variable sdk : SDK W.
Variable environ : string -> option string.

Lemma ensure_resource_group_class c rg vnet w :
  holds (ensure_resource_group sdk c rg vnet) (of_class is_group_event) w.
Proof. unfold ensure_resource_group. repeat step; class_leaf. Qed.

Lemma find_keyvault_class c kv w :
  holds (find_keyvault sdk c kv) (of_class is_vault_event) w.
Proof. unfold find_keyvault. repeat step; class_leaf. Qed.

Lemma ensure_keyvault_class c rg kv vnet b w :
  holds (ensure_keyvault sdk environ c rg kv vnet b)
        (of_class is_vault_event) w.
Proof. unfold ensure_keyvault. repeat step; class_leaf. Qed.

Lemma find_storage_account_class c n w :
  holds (find_storage_account sdk c n) (of_class is_storage_phase_event) w.
Proof. unfold find_storage_account. repeat step; class_leaf. Qed.

Lemma build_storage_account_class c sc rg n vnet w :
  holds (build_storage_account sdk c sc rg n vnet)
        (of_class is_storage_phase_event) w.
Proof.
  unfold build_storage_account, store_and_return. repeat step; class_leaf.
Qed.

Lemma reuse_storage_account_class c sc rg n w :
  holds (reuse_storage_account sdk c sc rg n)
        (of_class is_storage_phase_event) w.
Proof.
  unfold reuse_storage_account, store_and_return. repeat step; class_leaf.
Qed.

End Phases.

(** ** Filtering a trace *)

Lemma filter_map_const {A B} (p : B -> bool) (b : B) (l : list A) :
  p b = false -> filter p (map (fun _ => b) l) = [].
Proof. intros H. induction l; simpl; [|rewrite H]; auto. Qed.

Lemma filter_other_class (c1 c2 : event -> bool) (t : list event) :
  Forall (fun e => c1 e = true) t ->
  (forall e, c1 e = true -> c2 e = false) ->
  filter c2 t = [].
Proof.
  intros F H. induction F as [|e t He _ IH]; simpl; [reflexivity|].
  now rewrite (H e He).
Qed.

(** Compute [filter p] over a collected trace. *)
Ltac filter_trace :=
  repeat first
    [ rewrite filter_app
    | rewrite filter_map_const by reflexivity
    | match goal with
      | F : Forall _ ?t |- context [filter ?p ?t] =>
          rewrite (filter_other_class _ p t F)
            by (intros []; simpl; congruence)
      end
    | progress cbn [filter app is_creation is_storage_creation is_set_secret
                    is_peering_create is_print] ].

(** The phases of [azure_state_setup] taken by the class of their events. *)
Ltac group_phase_step :=
  lazymatch goal with
  | |- holds (bind (ensure_resource_group _ _ _ _) _) _ _ =>
      eapply holds_bind_phase; [apply ensure_resource_group_class|]
  end;
  let F := fresh "Hclass" in
  let N := fresh "Hstop" in
  intros ? ? [?|?|] [F N]; [ | | contradiction N; reflexivity ].

Ltac vault_phase_step :=
  lazymatch goal with
  | |- holds (bind (find_keyvault _ _ _) _) _ _ =>
      eapply holds_bind_phase; [apply find_keyvault_class|]
  | |- holds (bind (ensure_keyvault _ _ _ _ _ _ _) _) _ _ =>
      eapply holds_bind_phase; [apply ensure_keyvault_class|]
  end;
  let F := fresh "Hclass" in
  let N := fresh "Hstop" in
  intros ? ? [?|?|] [F N]; [ | | contradiction N; reflexivity ].

Ltac storage_phase_step :=
  lazymatch goal with
  | |- holds (bind (find_storage_account _ _ _) _) _ _ =>
      eapply holds_bind_phase; [apply find_storage_account_class|];
      let F := fresh "Hclass" in
      let N := fresh "Hstop" in
      intros ? ? [[? ?]|?|] [F N]; [ | | contradiction N; reflexivity ]
  | |- holds (build_storage_account _ _ _ _ _ _) _ _ =>
      eapply holds_phase; [apply build_storage_account_class|];
      let F := fresh "Hclass" in
      intros ? ? ? [F _]
  | |- holds (reuse_storage_account _ _ _ _ _) _ _ =>
      eapply holds_phase; [apply reuse_storage_account_class|];
      let F := fresh "Hclass" in
      intros ? ? ? [F _]
  end.

(** Run [azure_state_setup] through its storage part, with the resource
    group and key vault phases taken by class. *)
Ltac run_state_setup :=
  lazymatch goal with
  | |- holds _ ?Q _ =>
      let post := fresh "post" in
      set (post := Q);
      unfold azure_state_setup;
      repeat (step || group_phase_step || vault_phase_step);
      unfold find_storage_account, build_storage_account,
        reuse_storage_account, store_and_return;
      repeat step;
      subst post; cbv beta
  end.

(** Run [azure_state_setup] through its key vault part, with the resource
    group and storage phases taken by class. *)
Ltac run_vault_phases :=
  lazymatch goal with
  | |- holds _ ?Q _ =>
      let post := fresh "post" in
      set (post := Q);
      unfold azure_state_setup;
      repeat (step || group_phase_step);
      unfold find_keyvault, ensure_keyvault;
      repeat (step || storage_phase_step);
      subst post; cbv beta
  end.

(** ** Locating a run of consecutive events in a trace *)

Lemma split_here {A} (l : list A) : l = [] ++ l.
Proof. reflexivity. Qed.

Lemma split_cons {A} (x : A) (l pre s : list A) :
  l = pre ++ s -> x :: l = (x :: pre) ++ s.
Proof. intros ->. reflexivity. Qed.

Lemma split_app {A} (t l pre s : list A) :
  l = pre ++ s -> t ++ l = (t ++ pre) ++ s.
Proof. intros ->. now rewrite app_assoc. Qed.

(** Solve [trace = ?pre ++ e :: ...] by walking down the trace to [e]. *)
Ltac split_trace :=
  cbn [app];
  repeat
    lazymatch goal with
    | |- (?a ++ ?b) ++ ?c = _ => rewrite <- (app_assoc a b c); cbn [app]
    | |- ?x :: ?l = ?pre ++ ?a :: _ =>
        first [ unify x a; apply split_here | apply split_cons ]
    | |- ?t ++ ?l = _ => apply split_app
    end.

(** ** The discovery rules on a listing *)

Lemma tfstate_names_none (storage_accounts : list Item) :
  existsb (fun item => str_in "tfstate" (name item)) storage_accounts = false
  <-> tfstate_names storage_accounts = [].
Proof.
  unfold tfstate_names.
  induction storage_accounts as [|item rest IH]; simpl; [tauto|].
  destruct (str_in "tfstate" (name item)); simpl; [|exact IH].
  split; discriminate.
Qed.

Lemma resolved_name_no_match (storage_accounts : list Item)
  (candidate : string) :
  existsb (fun item => str_in "tfstate" (name item)) storage_accounts = false ->
  resolved_name storage_accounts candidate = candidate.
Proof.
  intros H. unfold resolved_name.
  now rewrite (proj1 (tfstate_names_none _) H).
Qed.

Lemma last_default_irrelevant {A} (l : list A) (d d' : A) :
  l <> [] -> last l d = last l d'.
Proof.
  induction l as [|x l IH]; intros H; [contradiction|].
  destruct l as [|y l]; [reflexivity|].
  change (last (y :: l) d = last (y :: l) d'). apply IH. discriminate.
Qed.

Lemma existsb_name_eqb (keyvault_name : string) (vaults : list Item) :
  existsb (fun item => String.eqb (name item) keyvault_name) vaults = true
  <-> In keyvault_name (map name vaults).
Proof.
  rewrite existsb_exists, in_map_iff. split.
  - intros [x [Hx E]]. apply String.eqb_eq in E. eauto.
  - intros [x [E Hx]]. exists x. split; [assumption|].
    now apply String.eqb_eq.
Qed.

Lemma existsb_tfstate (storage_accounts : list Item) :
  existsb (fun item => str_in "tfstate" (name item)) storage_accounts = true
  <-> exists account, In account (map name storage_accounts)
                      /\ str_in "tfstate" account = true.
Proof.
  rewrite existsb_exists. split.
  - intros [x [Hx E]]. exists (name x). split; [now apply in_map | exact E].
  - intros [n [Hn E]]. apply in_map_iff in Hn. destruct Hn as [x [<- Hx]].
    eauto.
Qed.

(** Use that every listing of the run replied [l]. *)
Ltac same_listing Hall :=
  repeat match goal with
         | H : _ = (?r, _) |- _ =>
             lazymatch type of Hall with
             | forall c reply, In _ _ -> reply = ?l =>
                 lazymatch r with
                 | l => fail
                 | _ =>
                     let E := fresh "E" in
                     assert (E : r = l) by (eapply Hall; in_solve);
                     first [ discriminate E
                           | injection E as E; subst ]
                 end
             end
         end.

(** Bring the tests on a listing into the form [existsb ... = b]; a listing
    counted as empty is replaced by [[]]. *)
Ltac flag_facts :=
  try match goal with
      | H : negb false = false |- _ => discriminate H
      end;
  repeat match goal with
         | H : (0 <? count_items ?l)%nat = _ |- _ =>
             rewrite count_items_positive in H;
             first [ apply (proj1 (negb_false_iff _)) in H;
                     destruct l; [clear H | discriminate H]
                   | clear H ]
         | H : negb (false || _) = _ |- _ =>
             rewrite orb_false_l in H;
             first [ apply (proj1 (negb_true_iff _)) in H
                   | apply (proj1 (negb_false_iff _)) in H ]
         end.

(** ** azure_state_setup: the storage branch *)

Section StateSetup.

Context {W : Type}.
Variable sdk : SDK W.
Variable environ : string -> option string.

(** The procedure always stops: it returns or raises. *)
Lemma azure_state_setup_stops draws vnet ops_subscription w :
  outcome_of (azure_state_setup sdk environ draws vnet ops_subscription w)
  <> OutOfFuel.
Proof.
  apply (holds_run (azure_state_setup sdk environ draws vnet ops_subscription)
           (fun _ _ o => o <> OutOfFuel)).
  run_state_setup; discriminate.
Qed.

(** C2: in every run in which the name-availability check replies
    "unavailable", the function returns [None] without raising; the run
    contains no storage account creation, no container creation and no
    secret write, and after the check it only prints the "not available"
    line. *)
Theorem unavailable_name_returns_none draws vnet ops_subscription w c n :
  let r := azure_state_setup sdk environ draws vnet ops_subscription w in
  In (CheckNameAvailability c n (Ok false)) (trace r) ->
  outcome_of r = Returned None
  /\ filter is_storage_creation (trace r) = []
  /\ filter is_set_secret (trace r) = []
  /\ exists pre,
       trace r
       = pre ++ [CheckNameAvailability c n (Ok false);
                 Print ("The storage account " ++ n ++ " is not available.")].
Proof.
  intros r. subst r.
  apply (holds_run (azure_state_setup sdk environ draws vnet ops_subscription)
           (fun t _ o =>
              In (CheckNameAvailability c n (Ok false)) t ->
              o = Returned None
              /\ filter is_storage_creation t = []
              /\ filter is_set_secret t = []
              /\ exists pre,
                   t = pre ++ [CheckNameAvailability c n (Ok false);
                               Print ("The storage account " ++ n
                                      ++ " is not available.")])).
  run_state_setup.
  all: intros Hin; in_inv Hin.
  all: match goal with
       | H : CheckNameAvailability _ _ _ = _ |- _ => injection H as <- <-
       end.
  all: repeat split;
    [ filter_trace; reflexivity
    | filter_trace; reflexivity
    | eexists; split_trace ].
Qed.

(** What a run returns and what it has written then: a run that returns,
    and not through the unavailable-name path, returns the triple
    [(key1, key2, storage_account_name)] where [key1] and [key2] are the
    entries of the key listing fetched for that account, and has written
    exactly two secrets, [tfstate1] with [key1] and [tfstate2] with
    [key2], to the vault of the derived name. *)
Lemma returned_triple_and_secrets draws vnet ops_subscription w v :
  let r := azure_state_setup sdk environ draws vnet ops_subscription w in
  outcome_of r = Returned v ->
  (forall c n, ~ In (CheckNameAvailability c n (Ok false)) (trace r)) ->
  exists key1 key2 account c rg storage_keys secret_client,
    v = Some (key1, key2, account)
    /\ In (ListKeys c rg account (Ok storage_keys)) (trace r)
    /\ dict_get (keys_dict storage_keys) "key1" = Some key1
    /\ dict_get (keys_dict storage_keys) "key2" = Some key2
    /\ filter is_set_secret (trace r)
       = [SetSecret secret_client "tfstate1" key1 (Ok tt);
          SetSecret secret_client "tfstate2" key2 (Ok tt)]
    /\ vault_url secret_client
       = ("https://" ++ (orgName vnet ++ "-tfstate-kv")
          ++ ".vault.azure.net/")%string.
Proof.
  intros r. subst r.
  apply (holds_run (azure_state_setup sdk environ draws vnet ops_subscription)
           (fun t _ o =>
              o = Returned v ->
              (forall c n, ~ In (CheckNameAvailability c n (Ok false)) t) ->
              exists key1 key2 account c rg storage_keys secret_client,
                v = Some (key1, key2, account)
                /\ In (ListKeys c rg account (Ok storage_keys)) t
                /\ dict_get (keys_dict storage_keys) "key1" = Some key1
                /\ dict_get (keys_dict storage_keys) "key2" = Some key2
                /\ filter is_set_secret t
                   = [SetSecret secret_client "tfstate1" key1 (Ok tt);
                      SetSecret secret_client "tfstate2" key2 (Ok tt)]
                /\ vault_url secret_client
                   = ("https://" ++ (orgName vnet ++ "-tfstate-kv")
                      ++ ".vault.azure.net/")%string)).
  run_state_setup.
  all: intros Hret Hno; try discriminate Hret.
  all: injection Hret as <-.
  all: try (exfalso; eapply Hno; in_solve).
  all: repeat match goal with u : unit |- _ => destruct u end.
  all: do 7 eexists; repeat split;
    [ in_solve | eassumption | eassumption
    | filter_trace; reflexivity
    | reflexivity ].
Qed.

(** C7: whenever a run has created a storage account (the creation call
    was accepted and its operation completed), the name is the candidate
    name, found available; the account was asked for with SKU
    [standard_ragrs], kind [storage] and the location of [vnet], in the
    derived resource group; and the next call creates the container
    ["tfstate"] in that account. *)
Theorem created_account_parameters_and_container
  draws vnet ops_subscription w c rg account p op :
  let r := azure_state_setup sdk environ draws vnet ops_subscription w in
  In (StorageAccountCreate c rg account p (Ok op)) (trace r) ->
  In (StorageOperationResult op (Ok tt)) (trace r) ->
  p = {| sku := standard_ragrs; kind := storage;
         sa_location := location vnet |}
  /\ rg = (orgName vnet ++ "-tfstate-rg")%string
  /\ (exists suffix,
        random_generator default_size default_chars draws = Ok suffix
        /\ account = ((orgName vnet ++ "tfstate") ++ suffix)%string)
  /\ In (CheckNameAvailability c account (Ok true)) (trace r)
  /\ exists pre reply post,
       trace r
       = pre ++ [StorageAccountCreate c rg account p (Ok op);
                 StorageOperationResult op (Ok tt);
                 BlobContainerCreate c rg account "tfstate" reply] ++ post.
Proof.
  intros r. subst r.
  apply (holds_run (azure_state_setup sdk environ draws vnet ops_subscription)
           (fun t _ o =>
              In (StorageAccountCreate c rg account p (Ok op)) t ->
              In (StorageOperationResult op (Ok tt)) t ->
              p = {| sku := standard_ragrs; kind := storage;
                     sa_location := location vnet |}
              /\ rg = (orgName vnet ++ "-tfstate-rg")%string
              /\ (exists suffix,
                    random_generator default_size default_chars draws
                    = Ok suffix
                    /\ account
                       = ((orgName vnet ++ "tfstate") ++ suffix)%string)
              /\ In (CheckNameAvailability c account (Ok true)) t
              /\ exists pre reply post,
                   t = pre ++ [StorageAccountCreate c rg account p (Ok op);
                               StorageOperationResult op (Ok tt);
                               BlobContainerCreate c rg account "tfstate"
                                 reply] ++ post)).
  run_state_setup.
  all: intros Hc Hr; in_inv Hc.
  all: in_inv Hr.
  all: repeat match goal with u : unit |- _ => destruct u end.
  all: match goal with
       | H : StorageAccountCreate _ _ _ _ _ = _ |- _ =>
           injection H as <- <- <- <- <-
       end.
  all: try match goal with
           | H : StorageOperationResult _ _ = _ |- _ => clear H
           end.
  all: try rewrite resolved_name_no_match
         by (match goal with
             | H : negb (false || ?b) = true |- _ =>
                 destruct b; [discriminate H | reflexivity]
             end).
  all: repeat split;
    [ eexists; split; [eassumption | reflexivity]
    | in_solve
    | eexists _, _, _; split_trace ].
Qed.

End StateSetup.

(** ** azure_state_setup: discovery of the storage account *)

Section Discovery.

Context {W : Type}.
Variable sdk : SDK W.
Variable environ : string -> option string.

(** When every storage account listing of a run replied
    [storage_accounts], the name-availability check is made exactly when no
    listed name contains ["tfstate"], and the account is created exactly
    when moreover that check replied "available". *)
Lemma storage_policy draws vnet ops_subscription w storage_accounts :
  let r := azure_state_setup sdk environ draws vnet ops_subscription w in
  (exists c, In (StorageAccountsList c (Ok storage_accounts)) (trace r)) ->
  (forall c reply,
     In (StorageAccountsList c reply) (trace r) ->
     reply = Ok storage_accounts) ->
  ((exists c n reply, In (CheckNameAvailability c n reply) (trace r))
   <-> existsb (fun item => str_in "tfstate" (name item)) storage_accounts
       = false)
  /\ ((exists c rg n p reply,
         In (StorageAccountCreate c rg n p reply) (trace r))
      <-> (existsb (fun item => str_in "tfstate" (name item)) storage_accounts
           = false
           /\ exists c n, In (CheckNameAvailability c n (Ok true)) (trace r))).
Proof.
  intros r. subst r.
  apply (holds_run (azure_state_setup sdk environ draws vnet ops_subscription)
           (fun t _ _ =>
              (exists c, In (StorageAccountsList c (Ok storage_accounts)) t) ->
              (forall c reply,
                 In (StorageAccountsList c reply) t ->
                 reply = Ok storage_accounts) ->
              ((exists c n reply, In (CheckNameAvailability c n reply) t)
               <-> existsb (fun item => str_in "tfstate" (name item))
                           storage_accounts = false)
              /\ ((exists c rg n p reply,
                     In (StorageAccountCreate c rg n p reply) t)
                  <-> (existsb (fun item => str_in "tfstate" (name item))
                               storage_accounts = false
                       /\ exists c n,
                            In (CheckNameAvailability c n (Ok true)) t)))).
  run_state_setup.
  all: intros [c0 Hin] Hall; first [ solve [in_inv Hin] | clear Hin ].
  all: same_listing Hall.
  all: flag_facts.
  all: split;
    [ split;
      [ intros (c & n & reply & Hc); in_inv Hc;
        first [ assumption | reflexivity ]
      | intros Hex; first [ congruence | do 3 eexists; in_solve ] ]
    | split;
      [ intros (c & rg & n & p & reply & Hc); in_inv Hc;
        (split; [ first [ assumption | reflexivity ]
                | do 2 eexists; in_solve ])
      | intros [Hex (c & n & Hc)]; in_inv Hc;
        first [ congruence | do 5 eexists; in_solve ] ] ].
Qed.

End Discovery.

(** ** azure_state_setup: what is made of the listings *)

(** Compute the listing calls of a collected trace. *)
Ltac filter_listings :=
  repeat first
    [ rewrite filter_app
    | rewrite filter_map_const by reflexivity
    | match goal with
      | F : Forall _ ?t |- context [filter ?p ?t] =>
          rewrite (filter_other_class _ p t F)
            by (intros []; simpl; congruence)
      end
    | progress cbn [filter app is_accounts_list is_vaults_list] ].

(** Replace [filter p] of the collected trace by its value. *)
Ltac listings p :=
  lazymatch goal with
  | |- context [filter p ?t] =>
      let E := fresh "E" in
      eassert (E : filter p t = _) by (filter_listings; reflexivity);
      rewrite E; clear E
  end.

(** A listing that was counted is empty or not. *)
Ltac counted :=
  repeat match goal with
         | H : (0 <? count_items ?l)%nat = _ |- _ =>
             rewrite count_items_positive in H;
             destruct l; cbn [negb] in H; [|];
             first [ discriminate H | clear H ]
         end.

(** State a property of a run as a property of its trace and outcome. *)
Ltac on_run :=
  lazymatch goal with
  | |- context [trace (?m ?w)] =>
      let r := fresh "r" in
      set (r := m w);
      pattern (trace r), (outcome_of r);
      lazymatch goal with
      | |- ?P _ _ =>
          subst r; apply (holds_run m (fun t _ o => P t o) w)
      end
  end.

Section Listings.

Context {W : Type}.
Variable sdk : SDK W.
Variable environ : string -> option string.

(** The vault listings of a run and the creation of the vault. *)
Lemma vault_discovery draws vnet ops_subscription (w : W) :
  let r := azure_state_setup sdk environ draws vnet ops_subscription w in
  let keyvault_name := (orgName vnet ++ "-tfstate-kv")%string in
  let vault_created :=
    exists c rg p reply,
      In (VaultCreate c rg keyvault_name p reply) (trace r) in
  match filter is_vaults_list (trace r) with
  | [] => ~ vault_created /\ exists e, outcome_of r = Raised e
  | [VaultsList _ (Err e)] => ~ vault_created /\ outcome_of r = Raised e
  | [VaultsList _ (Ok [])] => vault_created
  | [VaultsList _ (Ok (_ :: _)); VaultsList _ (Err e)] =>
      ~ vault_created /\ outcome_of r = Raised e
  | [VaultsList _ (Ok (_ :: _)); VaultsList _ (Ok vaults)] =>
      vault_created <-> ~ In keyvault_name (map name vaults)
  | _ => False
  end.
Proof.
  intros r keyvault_name vault_created.
  subst vault_created keyvault_name r.
  on_run.
  run_vault_phases.
  all: listings is_vaults_list.
  all: counted.
  all: cbv beta iota.
  all: try rewrite <- existsb_name_eqb, not_true_iff_false.
  all: flag_facts.
  all: first
    [ split;
      [ intros (c' & rg' & p' & reply' & Hc); in_inv Hc
      | first [ reflexivity | eexists; reflexivity ] ]
    | do 4 eexists; in_solve
    | split;
      [ intros (c' & rg' & p' & reply' & Hc); in_inv Hc;
        first [ assumption | reflexivity ]
      | intros Hex; first [ congruence | do 4 eexists; in_solve ] ] ].
Qed.

(** The storage account listings of a run, the name availability check and
    the creation of the account. *)
Lemma account_discovery draws vnet ops_subscription (w : W) :
  let r := azure_state_setup sdk environ draws vnet ops_subscription w in
  let name_checked :=
    exists c n reply, In (CheckNameAvailability c n reply) (trace r) in
  let name_available :=
    exists c n, In (CheckNameAvailability c n (Ok true)) (trace r) in
  let account_created :=
    exists c rg n p reply,
      In (StorageAccountCreate c rg n p reply) (trace r) in
  match filter is_accounts_list (trace r) with
  | [] =>
      ~ name_checked /\ ~ account_created
      /\ exists e, outcome_of r = Raised e
  | [StorageAccountsList _ (Err e)] =>
      ~ name_checked /\ ~ account_created /\ outcome_of r = Raised e
  | [StorageAccountsList _ (Ok [])] =>
      name_checked /\ (account_created <-> name_available)
  | [StorageAccountsList _ (Ok (_ :: _)); StorageAccountsList _ (Err e)] =>
      ~ name_checked /\ ~ account_created /\ outcome_of r = Raised e
  | [StorageAccountsList _ (Ok (_ :: _));
     StorageAccountsList _ (Ok storage_accounts)] =>
      (name_checked
       <-> ~ (exists account,
                In account (map name storage_accounts)
                /\ str_in "tfstate" account = true))
      /\ (account_created <-> name_available)
  | _ => False
  end.
Proof.
  intros r name_checked name_available account_created.
  subst name_checked name_available account_created r.
  on_run.
  run_state_setup.
  all: listings is_accounts_list.
  all: counted.
  all: cbv beta iota.
  all: try rewrite <- existsb_tfstate, not_true_iff_false.
  all: flag_facts.
  all: repeat match goal with |- _ /\ _ => split end.
  all: try solve [ intros (c' & n' & reply' & Hc); in_inv Hc ].
  all: try solve [ intros (c' & rg' & n' & p' & reply' & Hc); in_inv Hc ].
  all: try solve [ reflexivity | eexists; reflexivity ].
  all: try solve [ do 3 eexists; in_solve ].
  all: try solve
    [ split;
      [ intros (c' & n' & reply' & Hc); in_inv Hc;
        first [ assumption | reflexivity ]
      | intros Hex; first [ congruence | do 3 eexists; in_solve ] ] ].
  all: try solve
    [ split;
      [ intros (c' & rg' & n' & p' & reply' & Hc); in_inv Hc;
        do 2 eexists; in_solve
      | intros (c' & n' & Hc); in_inv Hc;
        do 5 eexists; in_solve ] ].
Qed.

End Listings.

Section Resolution.

Context {W : Type}.
Variable sdk : SDK W.
Variable environ : string -> option string.

(** The name a run checks for availability, and the name of an account it
    creates, is the candidate name: the prefix followed by the random
    suffix. *)
Lemma candidate_used draws vnet ops_subscription w c n :
  let r := azure_state_setup sdk environ draws vnet ops_subscription w in
  ((exists reply, In (CheckNameAvailability c n reply) (trace r))
   \/ (exists rg p reply, In (StorageAccountCreate c rg n p reply) (trace r))) ->
  exists suffix,
    random_generator default_size default_chars draws = Ok suffix
    /\ n = ((orgName vnet ++ "tfstate") ++ suffix)%string.
Proof.
  intros r. subst r.
  apply (holds_run (azure_state_setup sdk environ draws vnet ops_subscription)
           (fun t _ _ =>
              ((exists reply, In (CheckNameAvailability c n reply) t)
               \/ (exists rg p reply,
                     In (StorageAccountCreate c rg n p reply) t)) ->
              exists suffix,
                random_generator default_size default_chars draws = Ok suffix
                /\ n = ((orgName vnet ++ "tfstate") ++ suffix)%string)).
  run_state_setup.
  all: intros [(reply & Hin)|(rg & p & reply & Hin)]; in_inv Hin.
  all: try rewrite resolved_name_no_match in *
         by (match goal with
             | H : negb (false || ?b) = true |- _ =>
                 destruct b; [discriminate H | reflexivity]
             end).
  all: match goal with
       | H : CheckNameAvailability _ _ _ = _ |- _ => injection H as <- <- <-
       | H : StorageAccountCreate _ _ _ _ _ = _ |- _ =>
           injection H as <- <- <- <- <-
       end.
  all: eexists; split; [eassumption | reflexivity].
Qed.


End Resolution.

(** C1: the two match policies, on the listing calls of any run.  A run
    lists the vaults once and, when that listing is not empty, a second
    time; the vault [<org>-tfstate-kv] is created exactly when no name of
    the listing read (the second one, or the empty first one) is equal to
    that name.  It lists the storage accounts in the same way; the storage
    build is entered (the availability of the candidate name is checked)
    exactly when no name of the listing read contains ["tfstate"], and the
    account is then created exactly when the check replied "available".  A
    run never creates the vault, checks a name or creates an account
    without the listing before it: with no listing, or one that raised, the
    run has raised and has done none of these. *)
Theorem discovery_match_policies {W} (sdk : SDK W)
  (environ : string -> option string) draws vnet ops_subscription w :
  let r := azure_state_setup sdk environ draws vnet ops_subscription w in
  let keyvault_name := (orgName vnet ++ "-tfstate-kv")%string in
  let vault_created :=
    exists c rg p reply,
      In (VaultCreate c rg keyvault_name p reply) (trace r) in
  let name_checked :=
    exists c n reply, In (CheckNameAvailability c n reply) (trace r) in
  let name_available :=
    exists c n, In (CheckNameAvailability c n (Ok true)) (trace r) in
  let account_created :=
    exists c rg n p reply,
      In (StorageAccountCreate c rg n p reply) (trace r) in
  match filter is_vaults_list (trace r) with
  | [] => ~ vault_created /\ exists e, outcome_of r = Raised e
  | [VaultsList _ (Err e)] => ~ vault_created /\ outcome_of r = Raised e
  | [VaultsList _ (Ok [])] => vault_created
  | [VaultsList _ (Ok (_ :: _)); VaultsList _ (Err e)] =>
      ~ vault_created /\ outcome_of r = Raised e
  | [VaultsList _ (Ok (_ :: _)); VaultsList _ (Ok vaults)] =>
      vault_created <-> ~ In keyvault_name (map name vaults)
  | _ => False
  end
  /\ match filter is_accounts_list (trace r) with
     | [] =>
         ~ name_checked /\ ~ account_created
         /\ exists e, outcome_of r = Raised e
     | [StorageAccountsList _ (Err e)] =>
         ~ name_checked /\ ~ account_created /\ outcome_of r = Raised e
     | [StorageAccountsList _ (Ok [])] =>
         name_checked /\ (account_created <-> name_available)
     | [StorageAccountsList _ (Ok (_ :: _));
        StorageAccountsList _ (Err e)] =>
         ~ name_checked /\ ~ account_created /\ outcome_of r = Raised e
     | [StorageAccountsList _ (Ok (_ :: _));
        StorageAccountsList _ (Ok storage_accounts)] =>
         (name_checked
          <-> ~ (exists account,
                   In account (map name storage_accounts)
                   /\ str_in "tfstate" account = true))
         /\ (account_created <-> name_available)
     | _ => False
     end.
Proof.
  intros r keyvault_name vault_created name_checked name_available
    account_created.
  split.
  - exact (vault_discovery sdk environ draws vnet ops_subscription w).
  - exact (account_discovery sdk environ draws vnet ops_subscription w).
Qed.

(** C9: the candidate name is [orgName + "tfstate"] followed by six
    characters drawn from the lowercase letters and the digits; it is the
    name a run checks and creates; it contains ["tfstate"]; hence an account
    of that name, once listed, is matched by the discovery of any later
    run, which then neither checks a name nor creates an account. *)
Theorem candidate_name_is_rediscovered (draws : nat -> nat)
  (vnet : OrgLocation) :
  exists suffix,
    random_generator default_size default_chars draws = Ok suffix
    /\ String.length suffix = 6
    /\ drawn_from (ascii_lowercase ++ digits) suffix
    /\ let candidate := ((orgName vnet ++ "tfstate") ++ suffix)%string in
       str_in "tfstate" candidate = true
       /\ (forall W (sdk : SDK W) environ ops_subscription w c n,
             let r :=
               azure_state_setup sdk environ draws vnet ops_subscription w in
             ((exists reply, In (CheckNameAvailability c n reply) (trace r))
              \/ (exists rg p reply,
                    In (StorageAccountCreate c rg n p reply) (trace r))) ->
             n = candidate)
       /\ (forall W (sdk : SDK W) environ draws' vnet' ops_subscription w
                  storage_accounts,
             let r :=
               azure_state_setup sdk environ draws' vnet' ops_subscription w in
             (exists c, In (StorageAccountsList c (Ok storage_accounts))
                           (trace r)) ->
             (forall c reply,
                In (StorageAccountsList c reply) (trace r) ->
                reply = Ok storage_accounts) ->
             In candidate (map name storage_accounts) ->
             (forall c n reply,
                ~ In (CheckNameAvailability c n reply) (trace r))
             /\ (forall c rg n p reply,
                   ~ In (StorageAccountCreate c rg n p reply) (trace r))).
Proof.
  destruct (random_generator_default draws) as [suffix [Hs [Hl Hd]]].
  exists suffix. repeat split; try assumption.
  - rewrite string_app_assoc. apply str_in_app.
  - intros W sdk environ ops_subscription w c n r H.
    destruct (candidate_used sdk environ draws vnet ops_subscription w c n H)
      as [suffix' [Hs' ->]].
    rewrite Hs in Hs'. now injection Hs' as <-.
  - intros c n reply Hc.
    destruct (storage_policy sdk environ draws' vnet' ops_subscription w
                storage_accounts H H0) as [[Hno _] _].
    assert (E : existsb (fun item => str_in "tfstate" (name item))
                  storage_accounts = false) by (apply Hno; eauto).
    apply not_true_iff_false in E. apply E, existsb_tfstate.
    eexists. split; [eassumption|].
    rewrite string_app_assoc. apply str_in_app.
  - intros c rg n p reply Hc.
    destruct (storage_policy sdk environ draws' vnet' ops_subscription w
                storage_accounts H H0) as [_ [Hno _]].
    assert (E : existsb (fun item => str_in "tfstate" (name item))
                  storage_accounts = false) by (apply Hno; eauto 6).
    apply not_true_iff_false in E. apply E, existsb_tfstate.
    eexists. split; [eassumption|].
    rewrite string_app_assoc. apply str_in_app.
Qed.

(** ** azure_peering *)

Lemma iterations_class (op : Poller) (statuses : list string) :
  Forall (fun e => is_iteration_event e = true)
         (concat (map (polling_iteration op) statuses)).
Proof.
  induction statuses as [|s l IH]; simpl; [constructor|].
  repeat (constructor; [reflexivity|]). exact IH.
Qed.

Section PollingLoop.

Context {W : Type}.
Variable sdk : SDK W.

(** The shape of every run of the polling loop: a number of passes, each
    finding the operation not done, sleeping two seconds and printing the
    status, and then one of the exits of [loop_exit]. *)
Lemma wait_for_peering_shape fuel op w :
  holds (wait_for_peering sdk fuel op)
        (fun t _ o =>
           exists statuses rest,
             t = concat (map (polling_iteration op) statuses) ++ rest
             /\ loop_exit fuel op statuses rest o) w.
Proof.
  revert w. induction fuel as [|fuel IH]; intros w; simpl wait_for_peering.
  - step. exists [], []. simpl. auto.
  - step.
    + destruct a.
      * simpl negb. step. exists [], [PollerDone op (Ok true)].
        simpl. split; [reflexivity | split; [reflexivity | lia]].
      * simpl negb. cbv iota. step. step.
        -- step. eapply holds_phase; [apply IH|].
           intros t w1 o (statuses & rest & -> & Hexit).
           exists (a :: statuses), rest. split; [reflexivity|].
           destruct o as [[]|e'|]; simpl in *;
             intuition (try lia; auto).
        -- exists [], [PollerDone op (Ok false); Sleep 2;
                       PollerStatus op (Err e)].
           simpl. split; [reflexivity | split; [lia | auto]].
    + exists [], [PollerDone op (Err e)]. simpl.
      split; [reflexivity | split; [lia | auto]].
Qed.

(** C8: the polling loop.  Each pass evaluates [done()], finds the
    operation not done, sleeps two seconds, reads the status and prints it.
    The loop returns exactly when [done()] has replied [True]; nothing else
    ends it but an exception of [done()] or [status()].  As long as [done()]
    replies [False] the loop goes on: whatever the bound on the number of
    polls, it is still running when the bound is reached, having made that
    many passes. *)
Theorem polling_loop_unbounded fuel op w :
  let r := wait_for_peering sdk fuel op w in
  (exists statuses rest,
     trace r = concat (map (polling_iteration op) statuses) ++ rest
     /\ loop_exit fuel op statuses rest (outcome_of r))
  /\ (outcome_of r = Returned tt <-> In (PollerDone op (Ok true)) (trace r))
  /\ ((forall reply, In (PollerDone op reply) (trace r) -> reply = Ok false) ->
      (forall reply, In (PollerStatus op reply) (trace r) ->
                     exists status, reply = Ok status) ->
      outcome_of r = OutOfFuel
      /\ exists statuses,
           List.length statuses = fuel
           /\ trace r = concat (map (polling_iteration op) statuses)).
Proof.
  intros r.
  destruct (holds_run _ _ _ (wait_for_peering_shape fuel op w))
    as (statuses & rest & Ht & Hexit).
  fold r in Ht, Hexit.
  pose proof (iterations_class op statuses) as Hclass.
  split; [eauto | split].
  - rewrite Ht. split.
    + intros Hret. rewrite Hret in Hexit. destruct Hexit as [-> _].
      apply in_or_app. right. left. reflexivity.
    + intros Hin. in_inv Hin.
      destruct (outcome_of r) as [[]|e|]; simpl in Hexit.
      * reflexivity.
      * destruct Hexit as [_ [->| ->]]; in_inv Hin.
      * destruct Hexit as [-> _]. in_inv Hin.
  - intros Hdone Hstatus. rewrite Ht in Hdone, Hstatus.
    destruct (outcome_of r) as [[]|e|]; simpl in Hexit.
    + destruct Hexit as [-> _].
      specialize (Hdone (Ok true)). discriminate Hdone.
      apply in_or_app. right. left. reflexivity.
    + destruct Hexit as [_ [->| ->]].
      * specialize (Hdone (Err e)). discriminate Hdone.
        apply in_or_app. right. left. reflexivity.
      * destruct (Hstatus (Err e)) as [status Hs]; [|discriminate Hs].
        apply in_or_app. right. right. right. left. reflexivity.
    + destruct Hexit as [-> Hlen]. split; [reflexivity|].
      exists statuses. rewrite app_nil_r in Ht. auto.
Qed.

(** With more fuel a run that stopped is the same run. *)
Lemma wait_for_peering_more_fuel fuel fuel' op w :
  outcome_of (wait_for_peering sdk fuel op w) <> OutOfFuel ->
  fuel <= fuel' ->
  wait_for_peering sdk fuel' op w = wait_for_peering sdk fuel op w.
Proof.
  revert fuel' w. induction fuel as [|fuel IH]; intros fuel' w Hstop Hle.
  - contradiction Hstop. reflexivity.
  - destruct fuel' as [|fuel']; [lia|].
    simpl wait_for_peering in *.
    unfold bind, invoke, sleep, print in *.
    destruct (poller_done sdk op w) as [[[]|e] w1]; cbn in *;
      try reflexivity.
    destruct (poller_status sdk op (time_sleep sdk 2 w1)) as [[s|e] w2];
      cbn in *; try reflexivity.
    rewrite (IH fuel' w2); [reflexivity| |lia].
    destruct (outcome_of (wait_for_peering sdk fuel op w2)); cbn in *;
      congruence.
Qed.

End PollingLoop.

(** Run [azure_peering], with the polling loop taken by its shape. *)
Ltac loop_phase_step :=
  lazymatch goal with
  | |- holds (bind (wait_for_peering _ _ ?op) _) _ _ =>
      eapply holds_bind_phase; [apply wait_for_peering_shape|];
      let statuses := fresh "statuses" in
      let rest := fresh "rest" in
      let Hexit := fresh "Hexit" in
      let Hclass := fresh "Hclass" in
      intros ? ? [[]|?|] (statuses & rest & -> & Hexit);
      pose proof (iterations_class op statuses) as Hclass;
      simpl in Hexit;
      [ destruct Hexit as [-> _]
      | destruct Hexit as [_ [->| ->]]
      | destruct Hexit as [-> _] ]
  end.

Ltac exn_step :=
  lazymatch goal with
  | |- match ?e with CloudError _ => _ | _ => _ end => destruct e
  end.

Ltac run_peering :=
  lazymatch goal with
  | |- holds _ ?Q _ =>
      let post := fresh "post" in
      set (post := Q);
      unfold azure_peering;
      repeat (step || loop_phase_step || exn_step);
      subst post; cbv beta
  end.

(** Close a goal in which a call of the run replied with an exception
    although no call of the run did. *)
Ltac no_error Hok :=
  exfalso;
  match type of Hok with
  | forall e, In e ?t -> _ =>
      match t with
      | context [?c (Err ?x)] =>
          let E := fresh "E" in
          assert (E : replied_error (c (Err x)) = false)
            by (apply Hok; in_solve);
          discriminate E
      end
  end.

Section Peering.

Context {W : Type}.
Variable sdk : SDK W.
Variable environ : string -> option string.

(** C5, as the code has it: a [CloudError] raised by the peering creation
    call or by a poll of the operation, the calls inside the [try] block, is
    caught: its message is the last line printed and the function returns
    normally.  An exception of either [virtual_networks.get] call, which
    come before the [try] block, reaches the caller, and nothing is
    printed. *)
Theorem peering_cloud_error_caught
  fuel sub1 rg1 vnet1 sub2 rg2 vnet2 w :
  let r := azure_peering sdk environ fuel sub1 rg1 vnet1 sub2 rg2 vnet2 w in
  (forall message,
     (exists c rg v peering p,
        In (PeeringCreate c rg v peering p (Err (CloudError message)))
           (trace r))
     \/ (exists op, In (PollerDone op (Err (CloudError message))) (trace r))
     \/ (exists op, In (PollerStatus op (Err (CloudError message))) (trace r))
     ->
     outcome_of r = Returned tt
     /\ exists pre, trace r = pre ++ [Print message])
  /\ (forall c rg v e,
        In (VirtualNetworkGet c rg v (Err e)) (trace r) ->
        outcome_of r = Raised e /\ filter is_print (trace r) = []).
Proof.
  intros r. subst r.
  apply (holds_run
           (azure_peering sdk environ fuel sub1 rg1 vnet1 sub2 rg2 vnet2)
           (fun t _ o =>
              (forall message,
                 (exists c rg v peering p,
                    In (PeeringCreate c rg v peering p
                          (Err (CloudError message))) t)
                 \/ (exists op, In (PollerDone op (Err (CloudError message))) t)
                 \/ (exists op,
                       In (PollerStatus op (Err (CloudError message))) t)
                 ->
                 o = Returned tt /\ exists pre, t = pre ++ [Print message])
              /\ (forall c rg v e,
                    In (VirtualNetworkGet c rg v (Err e)) t ->
                    o = Raised e /\ filter is_print t = []))).
  run_peering.
  all: split;
    [ intros msg
        [(c' & rg' & v' & peering' & p' & Hin)|[(op' & Hin)|(op' & Hin)]];
      in_inv Hin;
      match goal with
      | H : @eq event _ _ |- _ => inversion H; subst; clear H
      end;
      (split; [reflexivity | eexists; split_trace])
    | intros c' rg' v' e' Hin; in_inv Hin;
      match goal with
      | H : @eq event _ _ |- _ => inversion H; subst; clear H
      end;
      (split; [reflexivity | filter_trace; reflexivity]) ].
Qed.

(** C6: a successful run on two virtual networks, one that returns and in
    which no call raised, fetches both networks and makes exactly one
    peering creation call: on vnet 1, through the client of subscription 1,
    named ["hubpeering"], allowing virtual network access and forwarded
    traffic, with the address prefixes (and the id) of vnet 2 as fetched;
    the operation then reported done.  No peering is created on vnet 2. *)
Theorem peering_created_on_vnet1_only
  fuel sub1 rg1 vnet1 sub2 rg2 vnet2 w :
  let r := azure_peering sdk environ fuel sub1 rg1 vnet1 sub2 rg2 vnet2 w in
  outcome_of r = Returned tt ->
  (forall e, In e (trace r) -> replied_error e = false) ->
  (sub1, rg1, vnet1) <> (sub2, rg2, vnet2) ->
  exists c1 c2 v1 v2 op,
    In (VirtualNetworkGet c1 rg1 vnet1 (Ok v1)) (trace r)
    /\ In (VirtualNetworkGet c2 rg2 vnet2 (Ok v2)) (trace r)
    /\ subscription_id c1 = sub1
    /\ subscription_id c2 = sub2
    /\ filter is_peering_create (trace r)
       = [PeeringCreate c1 rg1 vnet1 "hubpeering"
            {| remote_virtual_network_id := vnet_id v2;
               allow_virtual_network_access := true;
               allow_forwarded_traffic := true;
               remote_address_prefixes := address_prefixes v2 |}
            (Ok op)]
    /\ In (PollerDone op (Ok true)) (trace r)
    /\ (forall c rg v peering p reply,
          In (PeeringCreate c rg v peering p reply) (trace r) ->
          (subscription_id c, rg, v) <> (sub2, rg2, vnet2)).
Proof.
  intros r. subst r.
  apply (holds_run
           (azure_peering sdk environ fuel sub1 rg1 vnet1 sub2 rg2 vnet2)
           (fun t _ o =>
              o = Returned tt ->
              (forall e, In e t -> replied_error e = false) ->
              (sub1, rg1, vnet1) <> (sub2, rg2, vnet2) ->
              exists c1 c2 v1 v2 op,
                In (VirtualNetworkGet c1 rg1 vnet1 (Ok v1)) t
                /\ In (VirtualNetworkGet c2 rg2 vnet2 (Ok v2)) t
                /\ subscription_id c1 = sub1
                /\ subscription_id c2 = sub2
                /\ filter is_peering_create t
                   = [PeeringCreate c1 rg1 vnet1 "hubpeering"
                        {| remote_virtual_network_id := vnet_id v2;
                           allow_virtual_network_access := true;
                           allow_forwarded_traffic := true;
                           remote_address_prefixes := address_prefixes v2 |}
                        (Ok op)]
                /\ In (PollerDone op (Ok true)) t
                /\ (forall c rg v peering p reply,
                      In (PeeringCreate c rg v peering p reply) t ->
                      (subscription_id c, rg, v) <> (sub2, rg2, vnet2)))).
  run_peering.
  all: intros Hret Hok Hdistinct; try discriminate Hret.
  all: try solve [no_error Hok].
  eexists _, _, _, _, _.
  split; [in_solve|]. split; [in_solve|].
  split; [reflexivity|]. split; [reflexivity|].
  split; [filter_trace; reflexivity|]. split; [in_solve|].
  intros c' rg' v' peering' p' reply' Hin. in_inv Hin.
  match goal with
  | H : @eq event _ _ |- _ => inversion H; subst; clear H
  end.
  exact Hdistinct.
Qed.

End Peering.

(** ** When the procedures return *)

Section Progress.

Context {W : Type}.
Variable sdk : SDK W.
Variable environ : string -> option string.

(** [azure_state_setup] returns whenever the environment is complete, no
    call of the run raised, and the key listing it fetched has the entries
    ["key1"] and ["key2"]: these are the only sources of an exception. *)
Lemma azure_state_setup_returns draws vnet ops_subscription w :
  let r := azure_state_setup sdk environ draws vnet ops_subscription w in
  complete environ ->
  (forall e, In e (trace r) -> replied_error e = false) ->
  (forall c rg a storage_keys,
     In (ListKeys c rg a (Ok storage_keys)) (trace r) ->
     dict_get (keys_dict storage_keys) "key1" <> None
     /\ dict_get (keys_dict storage_keys) "key2" <> None) ->
  exists v, outcome_of r = Returned v.
Proof.
  intros r Henv. subst r.
  destruct (environ "ARM_CLIENT_ID") as [client_id|] eqn:E1;
    [|exfalso; apply (Henv "ARM_CLIENT_ID"); simpl; auto].
  destruct (environ "ARM_OBJECT_ID") as [object_id|] eqn:E2;
    [|exfalso; apply (Henv "ARM_OBJECT_ID"); simpl; auto].
  destruct (environ "ARM_CLIENT_SECRET") as [secret|] eqn:E3;
    [|exfalso; apply (Henv "ARM_CLIENT_SECRET"); simpl; auto].
  destruct (environ "ARM_TENANT_ID") as [tenant|] eqn:E4;
    [|exfalso; apply (Henv "ARM_TENANT_ID"); simpl; auto].
  clear Henv.
  apply (holds_run (azure_state_setup sdk environ draws vnet ops_subscription)
           (fun t _ o =>
              (forall e, In e t -> replied_error e = false) ->
              (forall c rg a storage_keys,
                 In (ListKeys c rg a (Ok storage_keys)) t ->
                 dict_get (keys_dict storage_keys) "key1" <> None
                 /\ dict_get (keys_dict storage_keys) "key2" <> None) ->
              exists v, o = Returned v)).
  lazymatch goal with
  | |- holds _ ?Q _ =>
      let post := fresh "post" in
      set (post := Q);
      unfold azure_state_setup, ensure_resource_group, find_keyvault,
        ensure_keyvault, find_storage_account, build_storage_account,
        reuse_storage_account, store_and_return;
      repeat step;
      subst post; cbv beta
  end.
  all: intros Hok Hkeys.
  all: try solve [eexists; reflexivity].
  all: try solve [no_error Hok].
  all: exfalso;
    match goal with
    | H : dict_get (keys_dict ?ks) _ = None |- _ =>
        destruct (Hkeys _ _ _ ks ltac:(in_solve)) as [K1 K2];
        first [ apply K1; exact H | apply K2; exact H ]
    end.
Qed.

(** Two continuations that agree after the first step give the same run. *)
Lemma bind_congr {A B} (m : M W A) (f g : A -> M W B) (w : W) :
  (forall a, outcome_of (m w) = Returned a ->
             f a (final (m w)) = g a (final (m w))) ->
  bind m f w = bind m g w.
Proof.
  intros H. unfold bind. destruct (outcome_of (m w)) as [a|e|];
    [|reflexivity|reflexivity].
  now rewrite (H a eq_refl).
Qed.

Lemma bind_stops {A B} (m : M W A) (f : A -> M W B) (w : W) (a : A) :
  outcome_of (bind m f w) <> OutOfFuel ->
  outcome_of (m w) = Returned a ->
  outcome_of (f a (final (m w))) <> OutOfFuel.
Proof. unfold bind. intros H E. now rewrite E in H. Qed.

Lemma bind_first_stops {A B} (m : M W A) (f : A -> M W B) (w : W) :
  outcome_of (bind m f w) <> OutOfFuel -> outcome_of (m w) <> OutOfFuel.
Proof.
  unfold bind. intros H E. apply H. now rewrite E.
Qed.

Lemma bind_first_congr {A B} (m m' : M W A) (f : A -> M W B) (w : W) :
  m w = m' w -> bind m f w = bind m' f w.
Proof. unfold bind. now intros ->. Qed.

Lemma try_stops {A} (body : M W A) (handler : string -> M W A) (w : W) :
  outcome_of (try_except_CloudError body handler w) <> OutOfFuel ->
  outcome_of (body w) <> OutOfFuel.
Proof.
  unfold try_except_CloudError. intros H E. apply H. now rewrite E.
Qed.

Lemma try_congr {A} (body body' : M W A) (handler : string -> M W A)
  (w : W) :
  body w = body' w ->
  try_except_CloudError body handler w
  = try_except_CloudError body' handler w.
Proof. unfold try_except_CloudError. now intros ->. Qed.

(** The bound on the polls only matters while the loop is running: a run of
    [azure_peering] that stopped is the same run under any larger bound. *)
Lemma azure_peering_more_fuel fuel fuel' sub1 rg1 vnet1 sub2 rg2 vnet2 w :
  outcome_of (azure_peering sdk environ fuel sub1 rg1 vnet1 sub2 rg2 vnet2 w)
  <> OutOfFuel ->
  fuel <= fuel' ->
  azure_peering sdk environ fuel' sub1 rg1 vnet1 sub2 rg2 vnet2 w
  = azure_peering sdk environ fuel sub1 rg1 vnet1 sub2 rg2 vnet2 w.
Proof.
  intros Hstop Hle. unfold azure_peering in *.
  do 5 (apply bind_congr; intros ? Hreturned;
        apply (bind_stops _ _ _ _ Hstop) in Hreturned as Hstop';
        clear Hstop Hreturned; rename Hstop' into Hstop; cbv beta in * ).
  apply try_congr. apply try_stops in Hstop.
  apply bind_congr; intros op Hreturned.
  apply (bind_stops _ _ _ _ Hstop) in Hreturned as Hstop'.
  apply bind_first_stops in Hstop'.
  apply bind_first_congr.
  exact (wait_for_peering_more_fuel sdk fuel fuel' op _ Hstop' Hle).
Qed.

End Progress.

(** A fresh subscription on the reference provider: one resource group, one
    vault, one storage account and one container are created, in that
    order, and two secrets are written. *)
Example fresh_subscription_run :
  let r := azure_state_setup SimCloud.provider SimCloud.environ
             SimCloud.draws SimCloud.acme "ops" SimCloud.fresh in
  map (fun e => match e with
                | ResourceGroupCreate _ rg _ _ => rg
                | VaultCreate _ _ vault _ _ => vault
                | StorageAccountCreate _ _ account _ _ => account
                | BlobContainerCreate _ _ _ container _ => container
                | _ => ""%string
                end)
      (filter is_creation (trace r))
  = ["acme-tfstate-rg"; "acme-tfstate-kv"; "acmetfstateabc012"; "tfstate"]%string
  /\ SimCloud.secrets (final r)
     = [("https://acme-tfstate-kv.vault.azure.net/", "tfstate2",
         "key2-of-acmetfstateabc012");
        ("https://acme-tfstate-kv.vault.azure.net/", "tfstate1",
         "key1-of-acmetfstateabc012")]%string.
Proof. split; vm_compute; reflexivity. Qed.

Section SecretsAndResult.

Context {W : Type}.
Variable sdk : SDK W.
Variable environ : string -> option string.

(** C3, as the code has it: take a run in which the four environment
    variables are set, no call raises, the key listing fetched has the
    entries ["key1"] and ["key2"], and the name availability check does not
    reply "unavailable".  The run returns the triple
    [(key1, key2, storage_account_name)] where [key1] and [key2] are the
    entries of the key listing fetched for that account, and it has written
    exactly two secrets, [tfstate1] with [key1] and then [tfstate2] with
    [key2], to the vault of the derived name.  Without the first three
    conditions the run may raise instead, with no secret or one secret
    written. *)
Theorem secrets_written_and_result draws vnet ops_subscription (w : W) :
  let r := azure_state_setup sdk environ draws vnet ops_subscription w in
  complete environ ->
  (forall e, In e (trace r) -> replied_error e = false) ->
  (forall c rg a storage_keys,
     In (ListKeys c rg a (Ok storage_keys)) (trace r) ->
     dict_get (keys_dict storage_keys) "key1" <> None
     /\ dict_get (keys_dict storage_keys) "key2" <> None) ->
  (forall c n, ~ In (CheckNameAvailability c n (Ok false)) (trace r)) ->
  exists key1 key2 account c rg storage_keys secret_client,
    outcome_of r = Returned (Some (key1, key2, account))
    /\ In (ListKeys c rg account (Ok storage_keys)) (trace r)
    /\ dict_get (keys_dict storage_keys) "key1" = Some key1
    /\ dict_get (keys_dict storage_keys) "key2" = Some key2
    /\ filter is_set_secret (trace r)
       = [SetSecret secret_client "tfstate1" key1 (Ok tt);
          SetSecret secret_client "tfstate2" key2 (Ok tt)]
    /\ vault_url secret_client
       = ("https://" ++ (orgName vnet ++ "-tfstate-kv")
          ++ ".vault.azure.net/")%string.
Proof.
  intros r Henv Hok Hkeys Hpath.
  destruct (azure_state_setup_returns sdk environ draws vnet ops_subscription
              w Henv Hok Hkeys) as [v Hv].
  destruct (returned_triple_and_secrets sdk environ draws vnet
              ops_subscription w v Hv Hpath)
    as (key1 & key2 & account & c & rg & storage_keys & secret_client
        & -> & H).
  exists key1, key2, account, c, rg, storage_keys, secret_client.
  split; [exact Hv | exact H].
Qed.

End SecretsAndResult.

(** ** Runs against the reference provider *)

Lemma list_in_true (x : string) (l : list string) :
  In x l -> list_in x l = true.
Proof.
  intros H. unfold list_in. apply existsb_exists. exists x.
  split; [assumption | apply String.eqb_refl].
Qed.

Lemma map_name_items (l : list string) : map name (map Build_Item l) = l.
Proof. induction l; simpl; congruence. Qed.

Lemma last_in {A} (l : list A) (d : A) : l <> [] -> In (last l d) l.
Proof.
  induction l as [|x l IH]; intros H; [contradiction|].
  destruct l as [|y l]; [left; reflexivity|].
  right. apply IH. discriminate.
Qed.

Lemma tfstate_names_in (items : list Item) (n : string) :
  In n (tfstate_names items) ->
  In n (map name items) /\ str_in "tfstate" n = true.
Proof. unfold tfstate_names. intros H. now apply filter_In in H. Qed.

Lemma find_some_exists {A} (p : A -> bool) (l : list A) (x : A) :
  In x l -> p x = true -> exists y, find p l = Some y.
Proof.
  intros Hin Hp. destruct (find p l) eqn:E; [eauto|].
  now rewrite (find_none _ _ E x Hin) in Hp.
Qed.

Section SimRuns.

Import SimCloud.

Lemma add_container_names account container l :
  map acct_name (add_container account container l) = map acct_name l.
Proof.
  unfold add_container. rewrite map_map. apply map_ext.
  intros a. now destruct (String.eqb (acct_name a) account).
Qed.

Lemma add_container_find account container l a :
  find (fun a => String.eqb (acct_name a) account) l = Some a ->
  find (fun a => String.eqb (acct_name a) account)
       (add_container account container l)
  = Some {| acct_name := acct_name a; acct_key1 := acct_key1 a;
            acct_key2 := acct_key2 a;
            acct_containers := acct_containers a ++ [container] |}.
Proof.
  induction l as [|x l IH]; simpl; [discriminate|].
  destruct (String.eqb (acct_name x) account) eqn:E; simpl.
  - intros [= ->]. now rewrite E.
  - rewrite E. exact IH.
Qed.

Ltac sim_reply H :=
  cbn [provider providers_register check_existence
       resource_groups_create_or_update vaults_list vaults_create_or_update
       storage_accounts_list check_name_availability storage_accounts_create
       storage_operation_result blob_containers_create list_keys
       list_containers set_secret account_name vault_url] in H.

Lemma sim_run environ draws vnet ops_subscription s :
  complete environ ->
  In (orgName vnet ++ "-tfstate-rg")%string (groups s) ->
  In (orgName vnet ++ "-tfstate-kv")%string (vaults s) ->
  tfstate_names (listing s) <> [] ->
  exists a,
    find_account (last (tfstate_names (listing s)) ""%string) s = Some a
    /\ holds (azure_state_setup provider environ draws vnet ops_subscription)
         (fun t s' o =>
            o = Returned (Some (acct_key1 a, acct_key2 a,
                                last (tfstate_names (listing s)) ""%string))
            /\ groups s' = groups s
            /\ vaults s' = vaults s
            /\ (if list_in "tfstate" (acct_containers a)
                then filter is_creation t = [] /\ accounts s' = accounts s
                else accounts s'
                     = add_container (acct_name a) "tfstate" (accounts s)))
         s.
Proof.
  intros Henv Hrg Hkv Hnames.
  set (n := last (tfstate_names (listing s)) ""%string).
  assert (Hn : In n (tfstate_names (listing s))) by now apply last_in.
  apply tfstate_names_in in Hn. destruct Hn as [Hlisted Hmatch].
  assert (Hfind : exists a, find_account n s = Some a).
  { unfold listing in Hlisted. rewrite map_map in Hlisted. simpl in Hlisted.
    apply in_map_iff in Hlisted. destruct Hlisted as [a0 [E Ha0]].
    apply (find_some_exists _ _ a0 Ha0). now apply String.eqb_eq. }
  destruct Hfind as [a Hfind]. exists a. split; [exact Hfind|].
  assert (Hname : acct_name a = n).
  { apply find_some in Hfind. now apply String.eqb_eq. }
  assert (Hrg' := list_in_true _ _ Hrg).
  assert (Hcv : (0 <? count_items (map Build_Item (vaults s)))%nat = true).
  { rewrite count_items_positive. now destruct (vaults s). }
  assert (Hev : existsb (fun item =>
                           String.eqb (name item)
                             (orgName vnet ++ "-tfstate-kv"))
                        (map Build_Item (vaults s)) = true).
  { apply existsb_name_eqb. now rewrite map_name_items. }
  assert (Hca : (0 <? count_items (listing s))%nat = true).
  { rewrite count_items_positive. unfold tfstate_names in Hnames.
    now destruct (listing s). }
  assert (Hea : existsb (fun item => str_in "tfstate" (name item))
                        (listing s) = true).
  { apply not_false_iff_true. intros E. now apply tfstate_names_none in E. }
  assert (Hres : forall candidate, resolved_name (listing s) candidate = n).
  { intros candidate. now apply last_default_irrelevant. }
  assert (Hvault : exists v,
             find (fun v =>
                     String.eqb ("https://" ++ v ++ ".vault.azure.net/")
                       ("https://" ++ (orgName vnet ++ "-tfstate-kv")
                        ++ ".vault.azure.net/"))
                  (vaults s) = Some v).
  { apply (find_some_exists _ _ _ Hkv). apply String.eqb_refl. }
  destruct Hvault as [v Hvault].
  destruct (environ "ARM_CLIENT_ID") as [client_id|] eqn:E1;
    [|exfalso; apply (Henv "ARM_CLIENT_ID"); simpl; auto].
  destruct (environ "ARM_OBJECT_ID") as [object_id|] eqn:E2;
    [|exfalso; apply (Henv "ARM_OBJECT_ID"); simpl; auto].
  destruct (environ "ARM_CLIENT_SECRET") as [secret|] eqn:E3;
    [|exfalso; apply (Henv "ARM_CLIENT_SECRET"); simpl; auto].
  destruct (environ "ARM_TENANT_ID") as [tenant|] eqn:E4;
    [|exfalso; apply (Henv "ARM_TENANT_ID"); simpl; auto].
  clearbody n. clear Henv Hnames Hlisted.
  unfold azure_state_setup, ensure_resource_group, find_keyvault,
    ensure_keyvault, find_storage_account, reuse_storage_account,
    store_and_return.
  unfold listing in *.
  repeat
    (rewrite ?Hrg', ?Hcv, ?Hev, ?Hca, ?Hea, ?Hres, ?map_name_items;
     cbn [negb orb];
     lazymatch goal with
     | |- holds (bind (invoke _ _) _) _ _ =>
         let Hreply := fresh "Hreply" in
         apply holds_bind_invoke; intros ? ? Hreply;
         sim_reply Hreply; unfold vault_of_url in Hreply;
         cbn [vaults with_accounts with_secrets] in Hreply;
         rewrite ?Hfind, ?Hvault in Hreply;
         injection Hreply as <- <-
     | |- holds (bind (getitem ?d ?k) _) _ _ =>
         apply holds_bind_getitem;
         let v := eval cbv in (dict_get d k) in
         change (dict_get d k) with v; cbv iota
     | _ => step
     end).
  - apply negb_true_iff in Heqb. rewrite Heqb, Hname.
    repeat split.
  - apply negb_false_iff in Heqb. rewrite Heqb.
    repeat split. filter_trace. reflexivity.
Qed.

(** Two runs in a row on the reference provider.  Take a subscription in
    which the resource group and the vault of the derived names exist and
    some storage account has a name containing ["tfstate"], and a complete
    environment.  The second run (whatever the random draws of either)
    makes no creation call, and both return the same account name and the
    same two keys.  The first run makes no creation call either when every
    account whose name contains ["tfstate"] has the container; otherwise it
    may create the container in the last listed one. *)
Lemma second_run_on_reference_provider environ draws1 draws2 vnet
  ops_subscription s :
  complete environ ->
  In (orgName vnet ++ "-tfstate-rg")%string (groups s) ->
  In (orgName vnet ++ "-tfstate-kv")%string (vaults s) ->
  (exists a, In a (accounts s) /\ str_in "tfstate" (acct_name a) = true) ->
  let first :=
    azure_state_setup provider environ draws1 vnet ops_subscription s in
  let second :=
    azure_state_setup provider environ draws2 vnet ops_subscription
      (final first) in
  filter is_creation (trace second) = []
  /\ (exists key1 key2 account,
        outcome_of first = Returned (Some (key1, key2, account))
        /\ outcome_of second = Returned (Some (key1, key2, account)))
  /\ ((forall a, In a (accounts s) ->
                 str_in "tfstate" (acct_name a) = true ->
                 In "tfstate"%string (acct_containers a)) ->
      filter is_creation (trace first) = []).
Proof.
  intros Henv Hrg Hkv (a0 & Ha0 & Hmatch0) first second.
  assert (Hnames : tfstate_names (listing s) <> []).
  { intros E. apply tfstate_names_none in E.
    apply not_true_iff_false in E. apply E, existsb_exists.
    exists (Build_Item (acct_name a0)). split; [|exact Hmatch0].
    unfold listing. now apply (in_map (fun a => Build_Item (acct_name a))). }
  destruct (sim_run environ draws1 vnet ops_subscription s Henv Hrg Hkv Hnames)
    as (a1 & Hfind1 & Hrun1).
  apply holds_run in Hrun1. fold first in Hrun1.
  destruct Hrun1 as (Hout1 & Hg1 & Hv1 & Hacc1).
  assert (Hname1 : acct_name a1 = last (tfstate_names (listing s)) ""%string).
  { apply find_some in Hfind1. now apply String.eqb_eq. }
  assert (Hlisting : listing (final first) = listing s).
  { unfold listing.
    rewrite <- (map_map acct_name Build_Item (accounts (final first))).
    rewrite <- (map_map acct_name Build_Item (accounts s)). f_equal.
    destruct (list_in "tfstate" (acct_containers a1)).
    - destruct Hacc1 as [_ ->]. reflexivity.
    - rewrite Hacc1. apply add_container_names. }
  assert (Hnames2 : tfstate_names (listing (final first)) <> [])
    by now rewrite Hlisting.
  rewrite <- Hg1 in Hrg. rewrite <- Hv1 in Hkv.
  destruct (sim_run environ draws2 vnet ops_subscription (final first)
              Henv Hrg Hkv Hnames2) as (a2 & Hfind2 & Hrun2).
  apply holds_run in Hrun2. fold second in Hrun2.
  rewrite Hlisting in Hfind2, Hrun2.
  destruct Hrun2 as (Hout2 & _ & _ & Hacc2).
  assert (Hsame : acct_key1 a2 = acct_key1 a1 /\ acct_key2 a2 = acct_key2 a1
                  /\ list_in "tfstate" (acct_containers a2) = true).
  { unfold find_account in Hfind1, Hfind2.
    destruct (list_in "tfstate" (acct_containers a1)) eqn:Hc.
    - destruct Hacc1 as [_ Hacc1]. rewrite Hacc1, Hfind1 in Hfind2.
      injection Hfind2 as <-. auto.
    - rewrite Hacc1, Hname1 in Hfind2.
      rewrite (add_container_find _ _ _ _ Hfind1) in Hfind2.
      injection Hfind2 as <-. cbn. repeat split.
      unfold list_in. rewrite existsb_app. cbn. apply orb_true_r. }
  destruct Hsame as (Hk1 & Hk2 & Hc2). rewrite Hc2 in Hacc2.
  split; [exact (proj1 Hacc2) | split].
  - eexists _, _, _. split; [exact Hout1|].
    rewrite Hout2, Hk1, Hk2. reflexivity.
  - intros Hall.
    assert (Hc1 : list_in "tfstate" (acct_containers a1) = true).
    { apply list_in_true, Hall.
      - unfold find_account in Hfind1. now apply find_some in Hfind1.
      - rewrite Hname1.
        now apply (tfstate_names_in (listing s)), last_in. }
    rewrite Hc1 in Hacc1. exact (proj1 Hacc1).
Qed.

End SimRuns.

(** ** Runs in which every reply is known

    Rules for [given ok C]: each event of the run is known to satisfy [ok]
    when it is made, before the run goes on. *)

Section Given.

Context {W : Type}.
Variable ok : event -> Prop.

Lemma given_bind_invoke {A B} (op : W -> result A * W) ev
  (f : A -> M W B) C (w : W) :
  (forall r w', op w = (r, w') -> ok (ev r) ->
     match r with
     | Ok a => holds (f a) (given ok (fun t => C (ev (Ok a) :: t))) w'
     | Err e => C [ev (Err e)] w' (Raised e)
     end) ->
  holds (bind (invoke op ev) f) (given ok C) w.
Proof.
  intros H. apply holds_bind_invoke. intros r w' E.
  specialize (H r w' E). destruct r as [a|e]; unfold holds, given in *.
  - intros Hall. inversion Hall; subst. auto.
  - intros Hall. inversion Hall; subst. auto.
Qed.

Lemma given_bind_print {B} s (f : unit -> M W B) C (w : W) :
  holds (f tt) (given ok (fun t => C (Print s :: t))) w ->
  holds (bind (print s) f) (given ok C) w.
Proof.
  intros H. apply holds_bind_print. unfold holds, given in *.
  intros Hall. inversion Hall; subst. auto.
Qed.

Lemma given_bind_known {A B} (m : M W A) t w1 a (f : A -> M W B) C (w : W) :
  m w = {| trace := t; final := w1; outcome_of := Returned a |} ->
  holds (f a) (given ok (fun t' => C (t ++ t'))) w1 ->
  holds (bind m f) (given ok C) w.
Proof.
  intros E H. apply (holds_bind_known m t w1 a f _ w E).
  unfold holds, given in *. intros Hall.
  apply Forall_app in Hall. now apply H.
Qed.

Lemma given_ret {A} (a : A) C (w : W) :
  C [] w (Returned a) -> holds (ret a) (given ok C) w.
Proof. intros H _. exact H. Qed.

End Given.

(** One step of a run in which every reply satisfies [in_place]: the reply
    of a call is replaced by what [in_place] says of it. *)
Ltac told_reply H :=
  unfold in_place in H; cbv beta iota in H;
  let E := fresh "E" in
  destruct H as [E H];
  first [ discriminate E | clear E ];
  try specialize (H eq_refl);
  first [ discriminate H
        | injection H as ->
        | clear H ].

Ltac told_step :=
  cbv beta iota;
  lazymatch goal with
  | |- holds (bind (invoke _ _) _) (given _ _) _ =>
      let H := fresh "Hreply" in
      apply given_bind_invoke; intros [?|?] ? _ H; told_reply H
  | |- holds (bind (print _) _) (given _ _) _ => apply given_bind_print
  | |- holds (bind (scan_vaults _ _ _) _) (given _ _) _ =>
      eapply given_bind_known; [apply scan_vaults_run|]
  | |- holds (bind (scan_accounts _ _ _) _) (given _ _) _ =>
      eapply given_bind_known; [apply scan_accounts_run|]
  | |- holds (ret _) (given _ _) _ => apply given_ret
  | |- holds (bind (if ?b then _ else _) _) _ _ => fail
  | |- holds (if ?b then _ else _) _ _ => fail
  | _ => step
  end.

Section InPlace.

Context {W : Type}.
Variable sdk : SDK W.
Variable environ : string -> option string.

(** C4, as the code has it: take a run that finds everything in place: the
    four environment variables are set, no call raises, the resource group
    is reported to exist, the vaults listed include one whose name is equal
    to the derived name, the storage accounts listed include one whose name
    contains ["tfstate"], and the last listed of these has the keys [key1]
    and [key2] and a container ["tfstate"].  Whatever the random draws, the
    run makes no creation call (no resource group, vault, storage account or
    container), fetches the keys and lists the containers of that last
    account, and returns its name with [key1] and [key2]; so any two such
    runs on the same listings, a second run and the first, return the same
    name and the same keys. *)
Theorem rerun_creates_nothing draws vnet ops_subscription (w : W)
  vaults storage_accounts storage_keys container_list key1 key2 :
  let r := azure_state_setup sdk environ draws vnet ops_subscription w in
  let account := last (tfstate_names storage_accounts) ""%string in
  complete environ ->
  In (orgName vnet ++ "-tfstate-kv")%string (map name vaults) ->
  tfstate_names storage_accounts <> [] ->
  dict_get (keys_dict storage_keys) "key1" = Some key1 ->
  dict_get (keys_dict storage_keys) "key2" = Some key2 ->
  In "tfstate"%string (map name container_list) ->
  Forall (in_place vaults storage_accounts account storage_keys
            container_list) (trace r) ->
  filter is_creation (trace r) = []
  /\ outcome_of r = Returned (Some (key1, key2, account))
  /\ (exists c,
        In (ListKeys c (orgName vnet ++ "-tfstate-rg") account
              (Ok storage_keys)) (trace r))
  /\ In (ListContainers {| account_name := account; account_key := key1 |}
           (Ok container_list)) (trace r).
Proof.
  intros r account Henv Hkv Hnames Hkey1 Hkey2 Hcontainer.
  subst r.
  assert (Hcv : (0 <? count_items vaults)%nat = true).
  { rewrite count_items_positive. now destruct vaults. }
  assert (Hev : existsb (fun item =>
                           String.eqb (name item)
                             (orgName vnet ++ "-tfstate-kv")) vaults = true)
    by now apply existsb_name_eqb.
  assert (Hca : (0 <? count_items storage_accounts)%nat = true).
  { rewrite count_items_positive. unfold tfstate_names in Hnames.
    now destruct storage_accounts. }
  assert (Hea : existsb (fun item => str_in "tfstate" (name item))
                        storage_accounts = true).
  { apply not_false_iff_true. intros E. now apply tfstate_names_none in E. }
  assert (Hres : forall candidate,
             resolved_name storage_accounts candidate = account).
  { intros candidate. now apply last_default_irrelevant. }
  assert (Hc : list_in "tfstate" (map name container_list) = true)
    by now apply list_in_true.
  clearbody account. clear Hkv Hnames Hcontainer.
  destruct (environ "ARM_CLIENT_ID") as [client_id|] eqn:E1;
    [|exfalso; apply (Henv "ARM_CLIENT_ID"); simpl; auto].
  destruct (environ "ARM_OBJECT_ID") as [object_id|] eqn:E2;
    [|exfalso; apply (Henv "ARM_OBJECT_ID"); simpl; auto].
  destruct (environ "ARM_CLIENT_SECRET") as [secret|] eqn:E3;
    [|exfalso; apply (Henv "ARM_CLIENT_SECRET"); simpl; auto].
  destruct (environ "ARM_TENANT_ID") as [tenant|] eqn:E4;
    [|exfalso; apply (Henv "ARM_TENANT_ID"); simpl; auto].
  clear Henv.
  apply (holds_run (azure_state_setup sdk environ draws vnet ops_subscription)
           (given (in_place vaults storage_accounts account storage_keys
                     container_list)
              (fun t _ o =>
                 filter is_creation t = []
                 /\ o = Returned (Some (key1, key2, account))
                 /\ (exists c,
                       In (ListKeys c (orgName vnet ++ "-tfstate-rg") account
                             (Ok storage_keys)) t)
                 /\ In (ListContainers
                          {| account_name := account; account_key := key1 |}
                          (Ok container_list)) t))).
  unfold azure_state_setup, ensure_resource_group, find_keyvault,
    ensure_keyvault, find_storage_account, reuse_storage_account,
    store_and_return.
  repeat (rewrite ?Hcv, ?Hev, ?Hca, ?Hea, ?Hres, ?Hc, ?Hkey1, ?Hkey2;
          cbn [negb orb];
          told_step).
  repeat split.
  - filter_trace. reflexivity.
  - eexists. in_solve.
  - in_solve.
Qed.

End InPlace.

(** ** Concrete runs *)

(** Membership in an evaluated trace. *)
Ltac in_now := vm_compute; repeat first [ left; reflexivity | right ].

(** No event of that shape is in an evaluated trace. *)
Ltac not_in_now H :=
  vm_compute in H;
  repeat (destruct H as [H|H]; [discriminate H|]);
  exact H.

(** Every event of that shape in an evaluated trace has that reply. *)
Ltac all_in_now H :=
  vm_compute in H;
  repeat (destruct H as [H|H];
          [first [discriminate H | injection H; intros; subst; reflexivity]|]);
  destruct H.

(** The candidate name is taken elsewhere: the run checks it, prints and
    returns [None]. *)
Lemma unavailable_name_returns_none_witness :
  let r := azure_state_setup SimCloud.provider SimCloud.environ
             SimCloud.draws SimCloud.acme "ops" SimCloud.name_gone in
  In (CheckNameAvailability SimCloud.ops_client "acmetfstateabc012"
        (Ok false)) (trace r)
  /\ outcome_of r = Returned None
  /\ filter is_storage_creation (trace r) = []
  /\ filter is_set_secret (trace r) = []
  /\ exists pre,
       trace r
       = pre ++ [CheckNameAvailability SimCloud.ops_client
                   "acmetfstateabc012" (Ok false);
                 Print ("The storage account " ++ "acmetfstateabc012"
                        ++ " is not available.")].
Proof.
  intros r.
  assert (H : In (CheckNameAvailability SimCloud.ops_client
                    "acmetfstateabc012" (Ok false)) (trace r)) by in_now.
  split; [exact H|].
  exact (unavailable_name_returns_none SimCloud.provider SimCloud.environ
           SimCloud.draws SimCloud.acme "ops" SimCloud.name_gone
           SimCloud.ops_client "acmetfstateabc012" H).
Defined.

(** A fresh subscription: no call raises, and the run returns the keys of
    the account it has created and has written them as the two secrets. *)
Lemma secrets_written_and_result_witness :
  let r := azure_state_setup SimCloud.provider SimCloud.environ
             SimCloud.draws SimCloud.acme "ops" SimCloud.fresh in
  complete SimCloud.environ
  /\ (forall e, In e (trace r) -> replied_error e = false)
  /\ (forall c rg a storage_keys,
        In (ListKeys c rg a (Ok storage_keys)) (trace r) ->
        dict_get (keys_dict storage_keys) "key1" <> None
        /\ dict_get (keys_dict storage_keys) "key2" <> None)
  /\ (forall c n, ~ In (CheckNameAvailability c n (Ok false)) (trace r))
  /\ exists key1 key2 account c rg storage_keys secret_client,
       outcome_of r = Returned (Some (key1, key2, account))
       /\ In (ListKeys c rg account (Ok storage_keys)) (trace r)
       /\ dict_get (keys_dict storage_keys) "key1" = Some key1
       /\ dict_get (keys_dict storage_keys) "key2" = Some key2
       /\ filter is_set_secret (trace r)
          = [SetSecret secret_client "tfstate1" key1 (Ok tt);
             SetSecret secret_client "tfstate2" key2 (Ok tt)]
       /\ vault_url secret_client
          = ("https://" ++ (orgName SimCloud.acme ++ "-tfstate-kv")
             ++ ".vault.azure.net/")%string.
Proof.
  intros r.
  assert (H0 : complete SimCloud.environ).
  { intros key [<-|[<-|[<-|[<-|[]]]]]; discriminate. }
  assert (H1 : forall e, In e (trace r) -> replied_error e = false).
  { intros e H. vm_compute in H.
    repeat (destruct H as [<-|H]; [reflexivity|]). destruct H. }
  assert (H2 : forall c rg a storage_keys,
             In (ListKeys c rg a (Ok storage_keys)) (trace r) ->
             dict_get (keys_dict storage_keys) "key1" <> None
             /\ dict_get (keys_dict storage_keys) "key2" <> None).
  { intros c rg a storage_keys H. vm_compute in H.
    repeat (destruct H as [H|H];
            [first [discriminate H
                   | injection H; intros; subst; split; discriminate]|]).
    destruct H. }
  assert (H3 : forall c n,
             ~ In (CheckNameAvailability c n (Ok false)) (trace r))
    by (intros c n H; not_in_now H).
  split; [exact H0 | split; [exact H1 | split; [exact H2 |
    split; [exact H3|]]]].
  exact (secrets_written_and_result SimCloud.provider SimCloud.environ
           SimCloud.draws SimCloud.acme "ops" SimCloud.fresh H0 H1 H2 H3).
Defined.

(** C3, counterexample: two runs on the provisioned subscription that do
    not take the unavailable-name path (no name is checked) and do not
    return.  When the key listing raises, the run raises with no secret
    written.  When no call raises and the key listing has no ["key2"], the
    run writes [tfstate1] alone and raises [KeyError('key2')]. *)
Lemma run_without_keys_writes_no_two_secrets :
  let denied :=
    azure_state_setup
      (SimFaults.provider (Err (CloudError "AuthorizationFailed"))
         (Ok "InProgress"%string))
      SimCloud.environ SimCloud.draws SimCloud.acme "ops"
      SimCloud.provisioned in
  let one_key :=
    azure_state_setup
      (SimFaults.provider (Ok [ {| key_name := "key1"; value := "k" |} ])
         (Ok "InProgress"%string))
      SimCloud.environ SimCloud.draws SimCloud.acme "ops"
      SimCloud.provisioned in
  ((forall c n reply, ~ In (CheckNameAvailability c n reply) (trace denied))
   /\ filter is_set_secret (trace denied) = []
   /\ outcome_of denied = Raised (CloudError "AuthorizationFailed"))
  /\ ((forall c n reply,
         ~ In (CheckNameAvailability c n reply) (trace one_key))
      /\ (forall e, In e (trace one_key) -> replied_error e = false)
      /\ filter is_set_secret (trace one_key)
         = [SetSecret
              {| vault_url := "https://acme-tfstate-kv.vault.azure.net/";
                 credential :=
                   {| csc_tenant_id := "tenant"; csc_client_id := "client";
                      csc_client_secret := "secret" |} |}
              "tfstate1" "k" (Ok tt)]
      /\ outcome_of one_key = Raised (KeyError "key2")).
Proof.
  intros denied one_key. split.
  - split; [intros c n reply H; not_in_now H|].
    split; vm_compute; reflexivity.
  - split; [intros c n reply H; not_in_now H|].
    split.
    + intros e H. vm_compute in H.
      repeat (destruct H as [<-|H]; [reflexivity|]). destruct H.
    + split; vm_compute; reflexivity.
Qed.

(** A fresh subscription: the account is created with the parameters of the
    script and its container right after. *)
Lemma created_account_parameters_and_container_witness :
  let r := azure_state_setup SimCloud.provider SimCloud.environ
             SimCloud.draws SimCloud.acme "ops" SimCloud.fresh in
  let p := {| sku := standard_ragrs; kind := storage;
              sa_location := "westus" |} in
  In (StorageAccountCreate SimCloud.ops_client "acme-tfstate-rg"
        "acmetfstateabc012" p (Ok 0)) (trace r)
  /\ In (StorageOperationResult 0 (Ok tt)) (trace r)
  /\ exists pre reply post,
       trace r
       = pre ++ [StorageAccountCreate SimCloud.ops_client "acme-tfstate-rg"
                   "acmetfstateabc012" p (Ok 0);
                 StorageOperationResult 0 (Ok tt);
                 BlobContainerCreate SimCloud.ops_client "acme-tfstate-rg"
                   "acmetfstateabc012" "tfstate" reply] ++ post.
Proof.
  intros r p.
  assert (H1 : In (StorageAccountCreate SimCloud.ops_client "acme-tfstate-rg"
                     "acmetfstateabc012" p (Ok 0)) (trace r)) by in_now.
  assert (H2 : In (StorageOperationResult 0 (Ok tt)) (trace r)) by in_now.
  split; [exact H1 | split; [exact H2|]].
  exact (proj2 (proj2 (proj2 (proj2
           (created_account_parameters_and_container SimCloud.provider
              SimCloud.environ SimCloud.draws SimCloud.acme "ops"
              SimCloud.fresh SimCloud.ops_client "acme-tfstate-rg"
              "acmetfstateabc012" p 0 H1 H2))))).
Defined.


(** The provisioned subscription after a first run: the last listed account
    whose name contains ["tfstate"] has its container; a second run finds
    everything in place, creates nothing and returns that account. *)
Lemma rerun_creates_nothing_witness :
  let first := azure_state_setup SimCloud.provider SimCloud.environ
                 SimCloud.draws SimCloud.acme "ops" SimCloud.provisioned in
  let r := azure_state_setup SimCloud.provider SimCloud.environ
             (fun _ => 7) SimCloud.acme "ops" (final first) in
  let vaults := [Build_Item "acme-tfstate-kv"] in
  let storage_accounts :=
    [Build_Item "acmetfstateold111"; Build_Item "logs";
     Build_Item "acmetfstatenew222"] in
  let storage_keys := [ {| key_name := "key1"; value := "new1" |};
                        {| key_name := "key2"; value := "new2" |} ] in
  let container_list := [Build_Item "tfstate"] in
  complete SimCloud.environ
  /\ last (tfstate_names storage_accounts) ""%string
     = "acmetfstatenew222"%string
  /\ Forall (in_place vaults storage_accounts "acmetfstatenew222"
               storage_keys container_list) (trace r)
  /\ filter is_creation (trace r) = []
  /\ outcome_of r
     = Returned (Some ("new1"%string, "new2"%string,
                       "acmetfstatenew222"%string))
  /\ outcome_of first = outcome_of r.
Proof.
  intros first r vaults storage_accounts storage_keys container_list.
  assert (H0 : complete SimCloud.environ).
  { intros key [<-|[<-|[<-|[<-|[]]]]]; discriminate. }
  assert (H1 : In (orgName SimCloud.acme ++ "-tfstate-kv")%string
                  (map name vaults)) by (left; reflexivity).
  assert (H2 : tfstate_names storage_accounts <> []) by discriminate.
  assert (H3 : dict_get (keys_dict storage_keys) "key1"
               = Some "new1"%string) by reflexivity.
  assert (H4 : dict_get (keys_dict storage_keys) "key2"
               = Some "new2"%string) by reflexivity.
  assert (H5 : In "tfstate"%string (map name container_list))
    by (left; reflexivity).
  assert (H6 : Forall (in_place vaults storage_accounts
                         (last (tfstate_names storage_accounts) ""%string)
                         storage_keys container_list) (trace r)).
  { vm_compute.
    repeat (constructor;
            [split; [reflexivity | first [exact I | reflexivity
                                         | intros _; reflexivity]]|]).
    constructor. }
  split; [exact H0 | split; [reflexivity | split; [exact H6|]]].
  destruct (rerun_creates_nothing SimCloud.provider SimCloud.environ
              (fun _ => 7) SimCloud.acme "ops" (final first)
              vaults storage_accounts storage_keys container_list
              "new1" "new2" H0 H1 H2 H3 H4 H5 H6) as (Hnone & Hout & _).
  split; [exact Hnone | split; [exact Hout|]].
  vm_compute. reflexivity.
Defined.

(** C4, counterexample: in the provisioned subscription the resource group
    and the vault of the derived names exist, and the account
    [acmetfstateold111], whose name contains ["tfstate"], has a ["tfstate"]
    container.  The run resolves the account listed last whose name
    contains ["tfstate"], [acmetfstatenew222], which has no container, and
    makes a creation call: the container in that account. *)
Lemma container_created_in_last_listed_account :
  let s := SimCloud.provisioned in
  let r := azure_state_setup SimCloud.provider SimCloud.environ
             SimCloud.draws SimCloud.acme "ops" s in
  In "acme-tfstate-rg"%string (SimCloud.groups s)
  /\ In "acme-tfstate-kv"%string (SimCloud.vaults s)
  /\ (exists a,
        In a (SimCloud.accounts s)
        /\ str_in "tfstate" (SimCloud.acct_name a) = true
        /\ In "tfstate"%string (SimCloud.acct_containers a))
  /\ filter is_creation (trace r)
     = [BlobContainerCreate SimCloud.ops_client "acme-tfstate-rg"
          "acmetfstatenew222" "tfstate" (Ok tt)]
  /\ outcome_of r
     = Returned (Some ("new1"%string, "new2"%string,
                       "acmetfstatenew222"%string)).
Proof.
  intros s r.
  split; [left; reflexivity|].
  split; [left; reflexivity|].
  split.
  - eexists. split; [left; reflexivity|].
    split; [reflexivity | left; reflexivity].
  - split; vm_compute; reflexivity.
Qed.

(** Hub and spoke: the peering is created on the hub only. *)
Lemma peering_created_on_vnet1_only_witness :
  let r := azure_peering SimCloud.provider SimCloud.environ 10
             "sub1" "rg1" "hub" "sub2" "rg2" "spoke"
             SimCloud.hub_and_spoke in
  outcome_of r = Returned tt
  /\ (forall e, In e (trace r) -> replied_error e = false)
  /\ ("sub1"%string, "rg1"%string, "hub"%string)
     <> ("sub2"%string, "rg2"%string, "spoke"%string)
  /\ exists c1 op,
       filter is_peering_create (trace r)
       = [PeeringCreate c1 "rg1" "hub" "hubpeering"
            {| remote_virtual_network_id := vnet_id SimCloud.spoke;
               allow_virtual_network_access := true;
               allow_forwarded_traffic := true;
               remote_address_prefixes := address_prefixes SimCloud.spoke |}
            (Ok op)].
Proof.
  intros r.
  assert (H1 : outcome_of r = Returned tt) by (vm_compute; reflexivity).
  assert (H2 : forall e, In e (trace r) -> replied_error e = false).
  { intros e H. vm_compute in H.
    repeat (destruct H as [<-|H]; [reflexivity|]). destruct H. }
  assert (H3 : ("sub1"%string, "rg1"%string, "hub"%string)
               <> ("sub2"%string, "rg2"%string, "spoke"%string))
    by discriminate.
  split; [exact H1 | split; [exact H2 | split; [exact H3|]]].
  destruct (peering_created_on_vnet1_only SimCloud.provider SimCloud.environ
              10 "sub1" "rg1" "hub" "sub2" "rg2" "spoke"
              SimCloud.hub_and_spoke H1 H2 H3)
    as (c1 & c2 & v1 & v2 & op & _ & Hv2 & _ & _ & Hfilter & _).
  exists c1, op. unfold r. rewrite Hfilter.
  assert (E : v2 = SimCloud.spoke).
  { vm_compute in Hv2.
    repeat (destruct Hv2 as [Hv2|Hv2];
            [first [discriminate Hv2
                   | injection Hv2; intros; subst; reflexivity]|]).
    destruct Hv2. }
  now rewrite E.
Defined.

(** An operation that never completes: after any three polls the loop is
    still running. *)
Lemma polling_loop_unbounded_witness :
  let r := wait_for_peering SimCloud.provider 3 1 SimCloud.never_done in
  (forall reply, In (PollerDone 1 reply) (trace r) -> reply = Ok false)
  /\ (forall reply, In (PollerStatus 1 reply) (trace r) ->
                    exists status, reply = Ok status)
  /\ outcome_of r = OutOfFuel.
Proof.
  intros r.
  assert (H1 : forall reply,
             In (PollerDone 1 reply) (trace r) -> reply = Ok false)
    by (intros reply H; all_in_now H).
  assert (H2 : forall reply,
             In (PollerStatus 1 reply) (trace r) ->
             exists status, reply = Ok status).
  { intros reply H. vm_compute in H.
    repeat (destruct H as [H|H];
            [first [discriminate H
                   | injection H; intros; subst; eexists; reflexivity]|]).
    destruct H. }
  split; [exact H1 | split; [exact H2|]].
  exact (proj1 (proj2 (proj2
           (polling_loop_unbounded SimCloud.provider 3 1 SimCloud.never_done))
           H1 H2)).
Defined.

(** On the reference provider an operation that never completes keeps the
    loop running whatever the bound. *)
Lemma never_done_never_returns (fuel : nat) (op : Poller)
  (s : SimCloud.Cloud) :
  SimCloud.pending s = None ->
  outcome_of (wait_for_peering SimCloud.provider fuel op s) = OutOfFuel.
Proof.
  revert s. induction fuel as [|fuel IH]; intros s H; [reflexivity|].
  simpl wait_for_peering. unfold bind, invoke, sleep, print. cbn.
  unfold SimCloud.operation_done. rewrite H. cbn.
  rewrite IH; [reflexivity|]. cbn. now rewrite H.
Qed.

(** C5, counterexample: no virtual network exists, [virtual_networks.get]
    raises a [CloudError]; the error is not caught, it reaches the caller
    and nothing is printed. *)
Lemma peering_get_error_propagates :
  let r := azure_peering SimCloud.provider SimCloud.environ 10
             "sub1" "rg1" "hub" "sub2" "rg2" "spoke" SimCloud.fresh in
  trace r = [VirtualNetworkGet (SimCloud.network_client "sub1") "rg1" "hub"
               (Err (CloudError "ResourceNotFound"))]
  /\ outcome_of r = Raised (CloudError "ResourceNotFound")
  /\ outcome_of r <> Returned tt.
Proof.
  intros r. split; [vm_compute; reflexivity|].
  split; [vm_compute; reflexivity | vm_compute; discriminate].
Qed.

(** The hub is locked: the creation call raises, the message is printed and
    the function returns. *)
Lemma peering_cloud_error_caught_witness :
  let r := azure_peering SimCloud.provider SimCloud.environ 10
             "sub1" "rg1" "hub" "sub2" "rg2" "spoke"
             SimCloud.locked_hub in
  (exists c rg v peering p,
     In (PeeringCreate c rg v peering p (Err (CloudError "ScopeLocked")))
        (trace r))
  /\ outcome_of r = Returned tt
  /\ exists pre, trace r = pre ++ [Print "ScopeLocked"].
Proof.
  intros r.
  assert (H : exists c rg v peering p,
             In (PeeringCreate c rg v peering p
                   (Err (CloudError "ScopeLocked"))) (trace r)).
  { eexists _, _, _, _, _. vm_compute.
    repeat first [ left; reflexivity | right ]. }
  split; [exact H|].
  exact (proj1 (peering_cloud_error_caught SimCloud.provider SimCloud.environ
                  10 "sub1" "rg1" "hub" "sub2" "rg2" "spoke"
                  SimCloud.locked_hub) "ScopeLocked"%string (or_introl H)).
Defined.

(** A vault whose name only starts like the derived name does not stop the
    creation of the vault; an account whose name merely contains
    ["tfstate"] stops the storage build. *)
Lemma discovery_match_policies_witness :
  let r := azure_state_setup SimCloud.provider SimCloud.environ
             SimCloud.draws SimCloud.acme "ops" SimCloud.lookalikes in
  (filter is_vaults_list (trace r)
   = [VaultsList SimCloud.ops_client (Ok [Build_Item "acme-tfstate-kv-old"]);
      VaultsList SimCloud.ops_client (Ok [Build_Item "acme-tfstate-kv-old"])]
   /\ filter is_accounts_list (trace r)
      = [StorageAccountsList SimCloud.ops_client (Ok [Build_Item "xtfstatey"]);
         StorageAccountsList SimCloud.ops_client
           (Ok [Build_Item "xtfstatey"])])
  /\ (exists c rg p reply,
        In (VaultCreate c rg "acme-tfstate-kv" p reply) (trace r))
  /\ ~ (exists c n reply, In (CheckNameAvailability c n reply) (trace r)).
Proof.
  intros r.
  assert (E1 : filter is_vaults_list (trace r)
               = [VaultsList SimCloud.ops_client
                    (Ok [Build_Item "acme-tfstate-kv-old"]);
                  VaultsList SimCloud.ops_client
                    (Ok [Build_Item "acme-tfstate-kv-old"])])
    by (vm_compute; reflexivity).
  assert (E2 : filter is_accounts_list (trace r)
               = [StorageAccountsList SimCloud.ops_client
                    (Ok [Build_Item "xtfstatey"]);
                  StorageAccountsList SimCloud.ops_client
                    (Ok [Build_Item "xtfstatey"])])
    by (vm_compute; reflexivity).
  split; [split; [exact E1 | exact E2]|].
  pose proof (discovery_match_policies SimCloud.provider SimCloud.environ
                SimCloud.draws SimCloud.acme "ops" SimCloud.lookalikes)
    as H.
  cbv zeta in H. fold r in H. rewrite E1, E2 in H.
  destruct H as [Hvault [Hcheck _]].
  split.
  - apply Hvault. simpl. intros [H|[]]. discriminate H.
  - intros Hc. apply Hcheck in Hc. apply Hc.
    exists "xtfstatey"%string. split; [left; reflexivity | reflexivity].
Defined.

(** The account created on a fresh subscription is found again by a second
    run, which does not check any name. *)
Lemma candidate_name_is_rediscovered_witness :
  let first := azure_state_setup SimCloud.provider SimCloud.environ
                 SimCloud.draws SimCloud.acme "ops" SimCloud.fresh in
  let second := azure_state_setup SimCloud.provider SimCloud.environ
                  (fun _ => 7) SimCloud.acme "ops" (final first) in
  random_generator default_size default_chars SimCloud.draws = Ok "abc012"
  /\ In "acmetfstateabc012"%string
        (map name (SimCloud.listing (final first)))
  /\ ~ (exists c n reply,
          In (CheckNameAvailability c n reply) (trace second)).
Proof.
  intros first second.
  destruct (candidate_name_is_rediscovered SimCloud.draws SimCloud.acme)
    as (suffix & Hs & _ & _ & _ & _ & Hlater).
  assert (E : suffix = "abc012"%string).
  { vm_compute in Hs. now injection Hs. }
  subst suffix.
  split; [exact Hs|].
  split; [vm_compute; left; reflexivity|].
  intros (c & n & reply & Hin). revert Hin.
  apply (Hlater _ SimCloud.provider SimCloud.environ (fun _ => 7)
           SimCloud.acme "ops"%string (final first)
           [Build_Item "acmetfstateabc012"]).
  - exists SimCloud.ops_client. in_now.
  - intros c' reply' H. all_in_now H.
  - left. reflexivity.
Defined.

(** ** random_generator with any size and any characters *)

Lemma join_choices_get (chars : string) (draws : nat -> nat)
  (size from : nat) (s : string) :
  join_choices chars draws from size = Ok s ->
  String.length s = size
  /\ forall i, i < size ->
       String.get i s
       = String.get (draws (from + i) mod String.length chars) chars.
Proof.
  revert from s. induction size as [|n IH]; intros from s; simpl.
  - intros [= <-]. split; [reflexivity | intros i Hi; lia].
  - unfold choice.
    destruct (String.get (draws from mod String.length chars) chars)
      as [c|] eqn:Hc; [|discriminate].
    destruct (join_choices chars draws (S from) n) as [s'|e] eqn:Hs;
      [|discriminate].
    intros [= <-]. destruct (IH _ _ Hs) as [Hl Hg].
    split; [simpl; now rewrite Hl|].
    intros [|i] Hi; simpl.
    + now rewrite Nat.add_0_r, Hc.
    + rewrite Hg by lia. now rewrite Nat.add_succ_r.
Qed.

Lemma get_in (s : string) (k : nat) (c : ascii) :
  String.get k s = Some c -> In c (list_ascii_of_string s).
Proof.
  revert k. induction s as [|a s IH]; intros k; simpl; [discriminate|].
  destruct k as [|k]; [intros [= ->]; now left | intros H; right; eauto].
Qed.

Lemma join_choices_isascii (chars : string) (draws : nat -> nat)
  (size from : nat) (s : string) :
  isascii chars = true ->
  join_choices chars draws from size = Ok s -> isascii s = true.
Proof.
  intros Hchars. revert from s.
  induction size as [|n IH]; intros from s; simpl.
  - intros [= <-]. reflexivity.
  - unfold choice.
    destruct (String.get (draws from mod String.length chars) chars)
      as [c|] eqn:Hc; [|discriminate].
    destruct (join_choices chars draws (S from) n) as [s'|e] eqn:Hs;
      [|discriminate].
    intros [= <-]. unfold isascii in *. simpl.
    rewrite (IH _ _ Hs), andb_true_r.
    exact (proj1 (forallb_forall _ _) Hchars c (get_in _ _ _ Hc)).
Qed.

(** X1: [random_generator(size, chars)] with a size that is not negative
    and a non-empty [chars] of ASCII characters returns a string of exactly
    [size] characters, ASCII as well, and its [i]-th character is the
    character of [chars] at the [i]-th random draw (reduced modulo the
    length of [chars]).  Outside ASCII a character of a Python string is
    not one byte, and lengths and indices are not those of the strings
    here: nothing is stated there. *)
Theorem random_generator_characters (size : nat) (chars : string)
  (draws : nat -> nat) :
  isascii chars = true ->
  0 < String.length chars ->
  exists s,
    random_generator size chars draws = Ok s
    /\ isascii s = true
    /\ String.length s = size
    /\ forall i, i < size ->
         String.get i s
         = String.get (draws i mod String.length chars) chars.
Proof.
  intros Hascii H. unfold random_generator.
  destruct (join_choices_nonempty chars draws size 0 H) as [s [Hs _]].
  exists s. split; [exact Hs|].
  split; [exact (join_choices_isascii _ _ _ _ _ Hascii Hs)|].
  exact (join_choices_get _ _ _ _ _ Hs).
Qed.

(** X2: [random_generator] raises exactly when [chars] is empty and [size]
    is positive, and the exception is then the [IndexError] of
    [random.choice]; with [size = 0] it returns the empty string whatever
    [chars] is. *)
Theorem random_generator_raises_iff_empty (size : nat) (chars : string)
  (draws : nat -> nat) :
  (forall e,
     random_generator size chars draws = Err e <->
     (chars = ""%string /\ 0 < size
      /\ e = IndexError "Cannot choose from an empty sequence"))
  /\ random_generator 0 chars draws = Ok ""%string.
Proof.
  split; [|reflexivity]. intros e. split.
  - intros H. destruct chars as [|c chars].
    + destruct size as [|n]; [discriminate H|].
      cbn in H. injection H as <-. repeat split. lia.
    + destruct (join_choices_nonempty (String c chars) draws size 0)
        as [s [Hs _]]; [simpl; lia|].
      unfold random_generator in H. congruence.
  - intros (-> & Hsize & ->). destruct size as [|n]; [lia | reflexivity].
Qed.

(** ** The test ['tfstate' in item.name] *)

Lemma prefix_split (s t : string) :
  String.prefix s t = true -> exists post, t = (s ++ post)%string.
Proof.
  revert t. induction s as [|c s IH]; intros t; simpl.
  - intros _. exists t. reflexivity.
  - destruct t as [|c' t]; [discriminate|]. simpl.
    destruct (ascii_dec c c') as [E|]; [subst c'|discriminate].
    intros H. destruct (IH _ H) as [post ->]. exists post. reflexivity.
Qed.

(** X3: the containment test of the account loop, [needle in hay], holds
    exactly when [hay] is some prefix, then [needle], then some suffix: the
    account name is matched anywhere, not only at its start. *)
Theorem str_in_iff_substring (needle hay : string) :
  str_in needle hay = true
  <-> exists pre post, hay = (pre ++ needle ++ post)%string.
Proof.
  split.
  - induction hay as [|c hay IH].
    + unfold str_in.
      destruct (String.prefix needle "") eqn:E; [|discriminate].
      intros _. destruct (prefix_split _ _ E) as [post Hp].
      exists ""%string, post. exact Hp.
    + unfold str_in; fold str_in.
      destruct (String.prefix needle (String c hay)) eqn:E.
      * intros _. destruct (prefix_split _ _ E) as [post Hp].
        exists ""%string, post. exact Hp.
      * intros H. destruct (IH H) as (pre & post & ->).
        exists (String c pre), post. reflexivity.
  - intros (pre & post & ->). apply str_in_app.
Qed.

(** ** The dictionary of keys *)

Lemma keys_dict_rev (storage_keys : list StorageAccountKey) :
  keys_dict storage_keys
  = rev (map (fun v => (key_name v, value v)) storage_keys).
Proof.
  unfold keys_dict.
  assert (G : forall l d,
             fold_left (fun d v => dict_set d (key_name v) (value v)) l d
             = rev (map (fun v => (key_name v, value v)) l) ++ d).
  { induction l as [|v l IH]; intros d; simpl; [reflexivity|].
    rewrite IH. unfold dict_set. now rewrite <- app_assoc. }
  rewrite G. apply app_nil_r.
Qed.

Lemma find_map_key (k : string) (l : list StorageAccountKey) :
  option_map snd
    (find (fun kv : string * string => String.eqb (fst kv) k)
          (map (fun v => (key_name v, value v)) l))
  = option_map value (find (fun v => String.eqb (key_name v) k) l).
Proof.
  induction l as [|v l IH]; simpl; [reflexivity|].
  destruct (String.eqb (key_name v) k); [reflexivity | exact IH].
Qed.

(** X4: the dictionary built from a key listing,
    [{v.key_name: v.value for v in storage_keys.keys}], maps a name to the
    value of the last entry of the listing with that name, and has no entry
    for a name exactly when the listing has none. *)
Theorem keys_dict_last_entry (storage_keys : list StorageAccountKey)
  (k : string) :
  dict_get (keys_dict storage_keys) k
  = option_map value
      (find (fun v => String.eqb (key_name v) k) (rev storage_keys))
  /\ (dict_get (keys_dict storage_keys) k = None
      <-> ~ In k (map key_name storage_keys)).
Proof.
  assert (E : dict_get (keys_dict storage_keys) k
              = option_map value
                  (find (fun v => String.eqb (key_name v) k)
                        (rev storage_keys))).
  { unfold dict_get. rewrite keys_dict_rev, <- map_rev. apply find_map_key. }
  split; [exact E|]. rewrite E. split.
  - intros H Hin. apply in_map_iff in Hin. destruct Hin as [v [<- Hv]].
    destruct (find (fun v0 => String.eqb (key_name v0) (key_name v))
                   (rev storage_keys)) eqn:F; [discriminate H|].
    apply in_rev in Hv. apply (find_none _ _ F v) in Hv.
    now rewrite String.eqb_refl in Hv.
  - intros H.
    destruct (find (fun v => String.eqb (key_name v) k) (rev storage_keys))
      as [v|] eqn:F; [|reflexivity].
    exfalso. apply H. apply find_some in F. destruct F as [Hv Hk].
    apply String.eqb_eq in Hk. subst k.
    apply in_map. now apply in_rev.
Qed.

(** ** Properties kept by every step of a procedure *)

Section Always.

Context {W : Type}.
Variable P : event -> Prop.

Lemma always_bind {A B} (m : M W A) (f : A -> M W B) (w : W) :
  holds m (always P) w ->
  (forall a w1, holds (f a) (always P) w1) ->
  holds (bind m f) (always P) w.
Proof.
  unfold holds, always, bind. intros Hm Hf.
  destruct (outcome_of (m w)); cbn; auto.
  apply Forall_app. split; [exact Hm | apply Hf].
Qed.

Lemma always_invoke {A} (op : W -> result A * W) ev (w : W) :
  (forall r, P (ev r)) -> holds (invoke op ev) (always P) w.
Proof.
  intros H. unfold holds, always, invoke. destruct (op w) as [r w'].
  cbn. constructor; [apply H | constructor].
Qed.

Lemma always_print (s : string) (w : W) :
  P (Print s) -> holds (print s) (always P) w.
Proof. intros H. unfold holds, always, print. cbn. auto. Qed.

Lemma always_ret {A} (a : A) (w : W) : holds (ret a) (always P) w.
Proof. constructor. Qed.

Lemma always_os_environ env (k : string) (w : W) :
  holds (os_environ env k) (always P) w.
Proof. unfold holds, os_environ. destruct (env k); constructor. Qed.

Lemma always_getitem (d : dict) (k : string) (w : W) :
  holds (getitem d k) (always P) w.
Proof. unfold holds, getitem. destruct (dict_get d k); constructor. Qed.

Lemma always_scan_vaults (kv : string) (vaults : list Item) (b : bool)
  (w : W) :
  (forall s, P (Print s)) -> holds (scan_vaults kv vaults b) (always P) w.
Proof.
  intros H. unfold holds. rewrite scan_vaults_run. cbn.
  apply Forall_map_const, H.
Qed.

Lemma always_scan_accounts (l : list Item) (n : string) (b : bool) (w : W) :
  (forall s, P (Print s)) -> holds (scan_accounts l n b) (always P) w.
Proof.
  intros H. unfold holds. rewrite scan_accounts_run. cbn.
  apply Forall_map_const, H.
Qed.

End Always.

(** The statements of a procedure that read the environment or draw the
    random suffix. *)
Ltac env_step :=
  cbv beta iota;
  lazymatch goal with
  | |- holds (let x := _ in _) _ _ => step
  | |- holds (bind (os_environ _ _) _) _ _ => step
  | |- holds (bind (lift _) _) _ _ => step
  end.

Ltac always_step leaf :=
  cbv beta iota zeta;
  lazymatch goal with
  | |- holds (bind _ _) (always _) _ => apply always_bind; [|intros ? ?]
  | |- holds (invoke _ _) (always _) _ => apply always_invoke; intros ?; leaf
  | |- holds (print _) (always _) _ => apply always_print; leaf
  | |- holds (ret _) (always _) _ => apply always_ret
  | |- holds (os_environ _ _) (always _) _ => apply always_os_environ
  | |- holds (getitem _ _) (always _) _ => apply always_getitem
  | |- holds (scan_vaults _ _ _) (always _) _ =>
      apply always_scan_vaults; intros ?; leaf
  | |- holds (scan_accounts _ _ _) (always _) _ =>
      apply always_scan_accounts; intros ?; leaf
  | |- holds (if ?b then _ else _) _ _ => destruct b
  | |- holds (match ?x with (_, _) => _ end) _ _ => destruct x
  end.

Section FailsFast.

Context {W : Type}.
Variable keys : list string.

Lemma fails_fast_bind {A B} (m : M W A) (f : A -> M W B) (w : W) :
  holds m (fails_fast keys) w ->
  (forall a w1, holds (f a) (fails_fast keys) w1) ->
  holds (bind m f) (fails_fast keys) w.
Proof.
  unfold holds, fails_fast, bind. intros (H1 & H2 & H3) Hf.
  destruct (outcome_of (m w)) as [a|e0|]; cbn.
  - destruct (Hf a (final (m w))) as (F1 & F2 & F3).
    split; [|split; [|exact F3]].
    + intros e x Hin Hx. apply in_app_or in Hin. destruct Hin as [Hin|Hin].
      * destruct (H1 e x Hin Hx) as [E _]. discriminate E.
      * destruct (F1 e x Hin Hx) as [E [pre Hpre]]. split; [exact E|].
        exists (trace (m w) ++ pre). rewrite Hpre. apply app_assoc.
    + intros x Hx. destruct (F2 x Hx) as [(pre & e & Hpre & He)|Hkey].
      * left. exists (trace (m w) ++ pre), e. split; [|exact He].
        rewrite Hpre. apply app_assoc.
      * right. exact Hkey.
  - split; [|split; [|discriminate]].
    + intros e x Hin Hx. destruct (H1 e x Hin Hx) as [E Hpre].
      injection E as ->. auto.
    + intros x [= ->]. exact (H2 x eq_refl).
  - contradiction H3. reflexivity.
Qed.

Lemma fails_fast_invoke {A} (op : W -> result A * W) ev (w : W) :
  (forall r, raised_by (ev r) = error_of r) ->
  holds (invoke op ev) (fails_fast keys) w.
Proof.
  intros H. unfold holds, fails_fast, invoke. destruct (op w) as [r w'].
  cbn. split; [|split].
  - intros e x [<-|[]] Hx. rewrite H in Hx. destruct r as [a|e0].
    + discriminate Hx.
    + injection Hx as ->. split; [reflexivity | exists []; reflexivity].
  - intros x Hx. destruct r as [a|e0]; [discriminate Hx|].
    injection Hx as ->. left. exists [], (ev (Err x)).
    split; [reflexivity | apply H].
  - destruct r; discriminate.
Qed.

(** A step that returns and makes no call. *)
Lemma fails_fast_quiet {A} (m : M W A) (w : W) :
  (exists a, outcome_of (m w) = Returned a) ->
  Forall (fun e => raised_by e = None) (trace (m w)) ->
  holds m (fails_fast keys) w.
Proof.
  intros [a Ha] Hq. unfold holds, fails_fast. rewrite Ha.
  split; [|split; [|discriminate]].
  - intros e x Hin Hx.
    rewrite (proj1 (Forall_forall _ _) Hq e Hin) in Hx. discriminate Hx.
  - intros x Hx. discriminate Hx.
Qed.

Lemma fails_fast_key_error {A} (k : string) (w : W) :
  In k keys -> @fails_fast W A keys [] w (Raised (KeyError k)).
Proof.
  intros Hk. split; [|split; [|discriminate]].
  - intros e x [].
  - intros x [= <-]. right. exists k. auto.
Qed.

Lemma fails_fast_os_environ env (k : string) (w : W) :
  In k keys -> holds (os_environ env k) (fails_fast keys) w.
Proof.
  intros Hk. unfold os_environ. destruct (env k).
  - apply fails_fast_quiet; [eexists; reflexivity | constructor].
  - now apply fails_fast_key_error.
Qed.

Lemma fails_fast_getitem (d : dict) (k : string) (w : W) :
  In k keys -> holds (getitem d k) (fails_fast keys) w.
Proof.
  intros Hk. unfold getitem. destruct (dict_get d k).
  - apply fails_fast_quiet; [eexists; reflexivity | constructor].
  - now apply fails_fast_key_error.
Qed.

Lemma fails_fast_print (s : string) (w : W) :
  holds (print s) (fails_fast keys) w.
Proof.
  apply fails_fast_quiet; [eexists; reflexivity|].
  constructor; [reflexivity | constructor].
Qed.

Lemma fails_fast_ret {A} (a : A) (w : W) : holds (ret a) (fails_fast keys) w.
Proof. apply fails_fast_quiet; [eexists; reflexivity | constructor]. Qed.

Lemma fails_fast_scan_vaults (kv : string) (vaults : list Item) (b : bool)
  (w : W) :
  holds (scan_vaults kv vaults b) (fails_fast keys) w.
Proof.
  apply fails_fast_quiet; rewrite scan_vaults_run; cbn.
  - eexists; reflexivity.
  - now apply Forall_map_const.
Qed.

Lemma fails_fast_scan_accounts (l : list Item) (n : string) (b : bool)
  (w : W) :
  holds (scan_accounts l n b) (fails_fast keys) w.
Proof.
  apply fails_fast_quiet; rewrite scan_accounts_run; cbn.
  - eexists; reflexivity.
  - now apply Forall_map_const.
Qed.

End FailsFast.

Ltac fails_fast_step :=
  cbv beta iota zeta;
  lazymatch goal with
  | |- holds (bind _ _) (fails_fast _) _ => apply fails_fast_bind; [|intros ? ?]
  | |- holds (invoke _ _) (fails_fast _) _ =>
      apply fails_fast_invoke; intros ?; reflexivity
  | |- holds (print _) (fails_fast _) _ => apply fails_fast_print
  | |- holds (ret _) (fails_fast _) _ => apply fails_fast_ret
  | |- holds (os_environ _ _) (fails_fast _) _ =>
      apply fails_fast_os_environ; simpl; tauto
  | |- holds (getitem _ _) (fails_fast _) _ =>
      apply fails_fast_getitem; simpl; tauto
  | |- holds (scan_vaults _ _ _) (fails_fast _) _ =>
      apply fails_fast_scan_vaults
  | |- holds (scan_accounts _ _ _) (fails_fast _) _ =>
      apply fails_fast_scan_accounts
  | |- holds (if ?b then _ else _) _ _ => destruct b
  | |- holds (match ?x with (_, _) => _ end) _ _ => destruct x
  end.

Lemma holds_anyway {W A} (m : M W A)
  (Q : list event -> W -> outcome A -> Prop) (w : W) :
  (forall t w1 o, Q t w1 o) -> holds m Q w.
Proof. intros H. apply H. Qed.

Section WholeRun.

Context {W : Type}.
Variable sdk : SDK W.
Variable environ : string -> option string.

(** X5: [azure_state_setup] reads [ARM_CLIENT_ID], [ARM_OBJECT_ID],
    [ARM_CLIENT_SECRET] and [ARM_TENANT_ID] before it calls the provider.
    When one is not set, the run raises the [KeyError] of the first that is
    missing, in that order, having made no call and left the subscription
    as it was.  When all four are set, the first call registers the
    provider namespace ["Microsoft.KeyVault"] through a client of the
    subscription given. *)
Theorem state_setup_environment draws vnet ops_subscription (w : W) :
  let r := azure_state_setup sdk environ draws vnet ops_subscription w in
  match find (unset environ)
             ["ARM_CLIENT_ID"; "ARM_OBJECT_ID"; "ARM_CLIENT_SECRET";
              "ARM_TENANT_ID"]%string with
  | Some missing =>
      outcome_of r = Raised (KeyError missing)
      /\ trace r = [] /\ final r = w
  | None =>
      exists c reply rest,
        trace r = ProvidersRegister c "Microsoft.KeyVault" reply :: rest
        /\ subscription_id c = ops_subscription
  end.
Proof.
  intros r. subst r. cbn [find]. unfold unset.
  destruct (environ "ARM_CLIENT_ID") as [client_id|] eqn:E1;
    [destruct (environ "ARM_OBJECT_ID") as [object_id|] eqn:E2;
     [destruct (environ "ARM_CLIENT_SECRET") as [secret|] eqn:E3;
      [destruct (environ "ARM_TENANT_ID") as [tenant|] eqn:E4|]|]|].
  1: apply (holds_run
              (azure_state_setup sdk environ draws vnet ops_subscription)
              (fun t _ _ =>
                 exists c reply rest,
                   t = ProvidersRegister c "Microsoft.KeyVault" reply :: rest
                   /\ subscription_id c = ops_subscription)).
  2-5: match goal with
       | |- _ = Raised ?x /\ _ =>
           apply (holds_run
                    (azure_state_setup sdk environ draws vnet ops_subscription)
                    (fun t w1 o => o = Raised x /\ t = [] /\ w1 = w))
       end.
  all: unfold azure_state_setup; repeat env_step.
  2-5: repeat split.
  apply holds_bind_invoke. intros [[]|e] w' _.
  - apply holds_anyway. intros t w1 o. eexists _, _, _.
    split; reflexivity.
  - eexists _, _, _. split; reflexivity.
Qed.

(** X6: when the four variables are set, every management call of a run
    of [azure_state_setup] goes through one client, of the subscription
    given and with the credentials of the environment (client id, object
    id, secret, tenant); every secret is written through the secret client
    of the vault URL of the derived vault name, with the tenant, client id
    and secret of the environment; and no call is made on a virtual
    network. *)
Theorem state_setup_calls_through_its_clients
  draws vnet ops_subscription (w : W) client_id object_id secret tenant :
  environ "ARM_CLIENT_ID" = Some client_id ->
  environ "ARM_OBJECT_ID" = Some object_id ->
  environ "ARM_CLIENT_SECRET" = Some secret ->
  environ "ARM_TENANT_ID" = Some tenant ->
  let r := azure_state_setup sdk environ draws vnet ops_subscription w in
  let c :=
    {| credentials :=
         {| spc_client_id := client_id; spc_object_id := Some object_id;
            spc_secret := secret; spc_tenant := tenant |};
       subscription_id := ops_subscription |} in
  let sc :=
    {| vault_url := ("https://" ++ (orgName vnet ++ "-tfstate-kv")
                     ++ ".vault.azure.net/")%string;
       credential :=
         {| csc_tenant_id := tenant; csc_client_id := client_id;
            csc_client_secret := secret |} |} in
  Forall (through c sc) (trace r).
Proof.
  intros E1 E2 E3 E4 r c sc. subst r.
  apply (holds_run (azure_state_setup sdk environ draws vnet ops_subscription)
           (always (through c sc))).
  unfold azure_state_setup, ensure_resource_group, find_keyvault,
    ensure_keyvault, find_storage_account, build_storage_account,
    reuse_storage_account, store_and_return.
  repeat env_step.
  repeat always_step ltac:(first [reflexivity | split; reflexivity]).
Qed.

(** X7: [azure_state_setup] handles no exception.  A provider call that
    raises is the last event of the run and its exception is the outcome of
    the run; conversely a run that raises does so with the exception of its
    last call, or with the [KeyError] of a lookup in the environment or in
    the dictionary of keys. *)
Theorem state_setup_stops_at_first_error
  draws vnet ops_subscription (w : W) :
  let r := azure_state_setup sdk environ draws vnet ops_subscription w in
  (forall e x,
     In e (trace r) -> raised_by e = Some x ->
     outcome_of r = Raised x /\ exists pre, trace r = pre ++ [e])
  /\ (forall x,
        outcome_of r = Raised x ->
        (exists pre e, trace r = pre ++ [e] /\ raised_by e = Some x)
        \/ (exists key,
              In key ["ARM_CLIENT_ID"; "ARM_OBJECT_ID"; "ARM_CLIENT_SECRET";
                      "ARM_TENANT_ID"; "key1"; "key2"]%string
              /\ x = KeyError key)).
Proof.
  intros r. subst r.
  assert (H : holds
                (azure_state_setup sdk environ draws vnet ops_subscription)
                (fails_fast ["ARM_CLIENT_ID"; "ARM_OBJECT_ID";
                             "ARM_CLIENT_SECRET"; "ARM_TENANT_ID";
                             "key1"; "key2"]%string) w).
  { unfold azure_state_setup, ensure_resource_group, find_keyvault,
      ensure_keyvault, find_storage_account, build_storage_account,
      reuse_storage_account, store_and_return.
    env_step. repeat fails_fast_step. }
  destruct H as (H1 & H2 & _). split; [exact H1 | exact H2].
Qed.

End WholeRun.

(** ** azure_state_setup: the resource group, the vault, the container *)

(** Compute [filter p] over a collected trace, for the classifier [p] of the
    goal. *)
Ltac filter_events :=
  repeat first
    [ rewrite filter_app
    | rewrite filter_map_const by reflexivity
    | match goal with
      | F : Forall _ ?t |- context [filter ?p ?t] =>
          rewrite (filter_other_class _ p t F)
            by (intros []; simpl; congruence)
      end
    | progress cbn [filter app is_group_event is_vault_create
                    is_accounts_list is_vaults_list is_storage_creation
                    is_set_secret is_creation] ].

(** Run [azure_state_setup] through its resource group part, with the key
    vault and storage phases taken by class. *)
Ltac run_group_phase :=
  lazymatch goal with
  | |- holds _ ?Q _ =>
      let post := fresh "post" in
      set (post := Q);
      unfold azure_state_setup, ensure_resource_group;
      repeat (step || vault_phase_step || storage_phase_step);
      subst post; cbv beta
  end.

Section Provisioning.

Context {W : Type}.
Variable sdk : SDK W.
Variable environ : string -> option string.

(** X8: the resource group.  A run asks at most once whether the resource
    group [<orgName>-tfstate-rg] exists, and creates it, in the location of
    [vnet], exactly when the reply was "no"; when that question raises, the
    run ends with its exception.  No other resource group is asked for or
    created. *)
Theorem resource_group_created_unless_found
  draws vnet ops_subscription (w : W) :
  let r := azure_state_setup sdk environ draws vnet ops_subscription w in
  let rg := (orgName vnet ++ "-tfstate-rg")%string in
  filter is_group_event (trace r) = []
  \/ (exists c e,
        filter is_group_event (trace r) = [CheckExistence c rg (Err e)]
        /\ outcome_of r = Raised e)
  \/ (exists c,
        filter is_group_event (trace r) = [CheckExistence c rg (Ok true)])
  \/ (exists c reply,
        filter is_group_event (trace r)
        = [CheckExistence c rg (Ok false);
           ResourceGroupCreate c rg (location vnet) reply]
        /\ subscription_id c = ops_subscription).
Proof.
  intros r rg. subst r rg.
  apply (holds_run (azure_state_setup sdk environ draws vnet ops_subscription)
           (fun t _ o =>
              filter is_group_event t = []
              \/ (exists c e,
                    filter is_group_event t
                    = [CheckExistence c (orgName vnet ++ "-tfstate-rg")
                         (Err e)]
                    /\ o = Raised e)
              \/ (exists c,
                    filter is_group_event t
                    = [CheckExistence c (orgName vnet ++ "-tfstate-rg")
                         (Ok true)])
              \/ (exists c reply,
                    filter is_group_event t
                    = [CheckExistence c (orgName vnet ++ "-tfstate-rg")
                         (Ok false);
                       ResourceGroupCreate c (orgName vnet ++ "-tfstate-rg")
                         (location vnet) reply]
                    /\ subscription_id c = ops_subscription))).
  run_group_phase.
  all: filter_events.
  all: repeat match goal with
              | H : negb ?b = true |- _ =>
                  is_var b; destruct b; [discriminate H|]
              | H : negb ?b = false |- _ =>
                  is_var b; destruct b; [|discriminate H]
              end.
  all: first
    [ left; reflexivity
    | right; left; eexists _, _; split; reflexivity
    | right; right; left; eexists; reflexivity
    | right; right; right; eexists _, _; split; reflexivity ].
Qed.

(** X9: the key vault.  Whenever a run asks for the creation of a vault, it
    does so once, right after printing that the vault does not exist: the
    vault [<orgName>-tfstate-kv] in the resource group [<orgName>-tfstate-rg]
    of the subscription given, in the location of [vnet], with SKU
    ["standard"], the tenant of [ARM_TENANT_ID], and one access policy, for
    that tenant and the object of [ARM_OBJECT_ID], with all permissions on
    keys and on secrets. *)
Theorem vault_creation_parameters
  draws vnet ops_subscription (w : W) c rg vault p reply :
  let r := azure_state_setup sdk environ draws vnet ops_subscription w in
  In (VaultCreate c rg vault p reply) (trace r) ->
  rg = (orgName vnet ++ "-tfstate-rg")%string
  /\ vault = (orgName vnet ++ "-tfstate-kv")%string
  /\ subscription_id c = ops_subscription
  /\ kv_location p = location vnet
  /\ kv_sku_name p = "standard"%string
  /\ environ "ARM_TENANT_ID" = Some (kv_tenant_id p)
  /\ environ "ARM_TENANT_ID" = Some (kv_policy_tenant_id p)
  /\ environ "ARM_OBJECT_ID" = Some (kv_policy_object_id p)
  /\ kv_policy_keys p = ["all"%string]
  /\ kv_policy_secrets p = ["all"%string]
  /\ filter is_vault_create (trace r) = [VaultCreate c rg vault p reply]
  /\ exists pre post,
       trace r
       = pre ++ [Print ("*** The keyvault " ++ vault
                        ++ " doesn't exist, creating ***");
                 VaultCreate c rg vault p reply] ++ post.
Proof.
  intros r. subst r.
  apply (holds_run (azure_state_setup sdk environ draws vnet ops_subscription)
           (fun t _ _ =>
              In (VaultCreate c rg vault p reply) t ->
              rg = (orgName vnet ++ "-tfstate-rg")%string
              /\ vault = (orgName vnet ++ "-tfstate-kv")%string
              /\ subscription_id c = ops_subscription
              /\ kv_location p = location vnet
              /\ kv_sku_name p = "standard"%string
              /\ environ "ARM_TENANT_ID" = Some (kv_tenant_id p)
              /\ environ "ARM_TENANT_ID" = Some (kv_policy_tenant_id p)
              /\ environ "ARM_OBJECT_ID" = Some (kv_policy_object_id p)
              /\ kv_policy_keys p = ["all"%string]
              /\ kv_policy_secrets p = ["all"%string]
              /\ filter is_vault_create t = [VaultCreate c rg vault p reply]
              /\ exists pre post,
                   t = pre ++ [Print ("*** The keyvault " ++ vault
                                      ++ " doesn't exist, creating ***");
                               VaultCreate c rg vault p reply] ++ post)).
  run_vault_phases.
  all: intros Hin; in_inv Hin.
  all: match goal with
       | H : VaultCreate _ _ _ _ _ = _ |- _ => injection H as <- <- <- <- <-
       end.
  all: repeat match goal with |- _ /\ _ => split end;
    try reflexivity; try assumption;
    [ filter_events; reflexivity
    | eexists _, _; split_trace ].
Qed.

(** X10: the container of an account that was found.  The containers are
    listed with the account name the loop ended with and the value of
    ["key1"] of its key listing.  The container ["tfstate"] is then created,
    in that account and in the derived resource group, exactly when no
    listed container is named ["tfstate"]; the run makes no other storage
    creation call. *)
Theorem container_created_unless_listed
  draws vnet ops_subscription (w : W) b container_list :
  let r := azure_state_setup sdk environ draws vnet ops_subscription w in
  In (ListContainers b (Ok container_list)) (trace r) ->
  (exists c rg storage_keys,
     In (ListKeys c rg (account_name b) (Ok storage_keys)) (trace r)
     /\ dict_get (keys_dict storage_keys) "key1" = Some (account_key b))
  /\ if list_in "tfstate" (map name container_list)
     then filter is_storage_creation (trace r) = []
     else exists c reply,
            filter is_storage_creation (trace r)
            = [BlobContainerCreate c (orgName vnet ++ "-tfstate-rg")
                 (account_name b) "tfstate" reply]
            /\ subscription_id c = ops_subscription.
Proof.
  intros r. subst r.
  apply (holds_run (azure_state_setup sdk environ draws vnet ops_subscription)
           (fun t _ _ =>
              In (ListContainers b (Ok container_list)) t ->
              (exists c rg storage_keys,
                 In (ListKeys c rg (account_name b) (Ok storage_keys)) t
                 /\ dict_get (keys_dict storage_keys) "key1"
                    = Some (account_key b))
              /\ if list_in "tfstate" (map name container_list)
                 then filter is_storage_creation t = []
                 else exists c reply,
                        filter is_storage_creation t
                        = [BlobContainerCreate c
                             (orgName vnet ++ "-tfstate-rg")
                             (account_name b) "tfstate" reply]
                        /\ subscription_id c = ops_subscription)).
  run_state_setup.
  all: intros Hin; in_inv Hin.
  all: match goal with
       | H : ListContainers _ _ = _ |- _ => injection H as <- <-
       end.
  all: (split;
        [ eexists _, _, _; split; [in_solve | eassumption] |]).
  all: match goal with
       | H : negb (list_in "tfstate" (map name ?l)) = true |- _ =>
           apply (proj1 (negb_true_iff _)) in H; rewrite H
       | H : negb (list_in "tfstate" (map name ?l)) = false |- _ =>
           apply (proj1 (negb_false_iff _)) in H; rewrite H
       end.
  all: first
    [ filter_events; reflexivity
    | eexists _, _; split; [filter_events; reflexivity | reflexivity] ].
Qed.

(** X11: a key listing without ["key1"] or ["key2"].  The script looks the
    two names up without a default.  Without ["key1"] the run raises
    [KeyError('key1')] and writes no secret.  Without ["key2"] the run never
    returns and never writes [tfstate2]; and when [tfstate1] was written, it
    holds the value of ["key1"] and the run raises [KeyError('key2')]: the
    vault is left with one of the two secrets. *)
Theorem incomplete_key_listing_raises
  draws vnet ops_subscription (w : W) c rg a storage_keys :
  let r := azure_state_setup sdk environ draws vnet ops_subscription w in
  In (ListKeys c rg a (Ok storage_keys)) (trace r) ->
  (dict_get (keys_dict storage_keys) "key1" = None ->
   outcome_of r = Raised (KeyError "key1")
   /\ filter is_set_secret (trace r) = [])
  /\ (dict_get (keys_dict storage_keys) "key2" = None ->
      (forall v, outcome_of r <> Returned v)
      /\ (forall sc value reply,
            ~ In (SetSecret sc "tfstate2" value reply) (trace r))
      /\ (forall sc value,
            In (SetSecret sc "tfstate1" value (Ok tt)) (trace r) ->
            dict_get (keys_dict storage_keys) "key1" = Some value
            /\ outcome_of r = Raised (KeyError "key2"))).
Proof.
  intros r. subst r.
  apply (holds_run (azure_state_setup sdk environ draws vnet ops_subscription)
           (fun t _ o =>
              In (ListKeys c rg a (Ok storage_keys)) t ->
              (dict_get (keys_dict storage_keys) "key1" = None ->
               o = Raised (KeyError "key1") /\ filter is_set_secret t = [])
              /\ (dict_get (keys_dict storage_keys) "key2" = None ->
                  (forall v, o <> Returned v)
                  /\ (forall sc value reply,
                        ~ In (SetSecret sc "tfstate2" value reply) t)
                  /\ (forall sc value,
                        In (SetSecret sc "tfstate1" value (Ok tt)) t ->
                        dict_get (keys_dict storage_keys) "key1" = Some value
                        /\ o = Raised (KeyError "key2"))))).
  run_state_setup.
  all: intros Hin; in_inv Hin.
  all: match goal with
       | H : ListKeys _ _ _ _ = _ |- _ => injection H as <- <- <- <-
       end.
  all: split;
    [ intros Hnone;
      first [ congruence
            | split; [reflexivity | filter_events; reflexivity] ]
    | intros Hnone;
      first
        [ congruence
        | split; [ discriminate |];
          split;
          [ intros sc' value' reply' Hs; in_inv Hs
          | intros sc' value' Hs; in_inv Hs;
            try match goal with
                | H : SetSecret _ _ _ _ = _ |- _ =>
                    injection H as <- <-
                end;
            first [ split; [assumption | reflexivity] | idtac ] ] ] ].
Qed.

(** X12: the account loop reads the second listing.  When a run has listed
    the storage accounts twice, the first listing was not empty and is used
    for nothing else: the name availability is checked exactly when no name
    of the second listing contains ["tfstate"], and the keys are fetched for
    the last name of the second listing that does, or else for the
    candidate name.  When a run has listed them once only, that listing was
    empty and the name availability is checked. *)
Theorem account_discovery_reads_second_listing
  draws vnet ops_subscription (w : W) c1 first reading :
  let r := azure_state_setup sdk environ draws vnet ops_subscription w in
  filter is_accounts_list (trace r)
  = StorageAccountsList c1 (Ok first) :: reading ->
  match reading with
  | [] =>
      first = []
      /\ exists c n reply, In (CheckNameAvailability c n reply) (trace r)
  | [StorageAccountsList c2 (Ok second)] =>
      first <> []
      /\ ((exists c n reply, In (CheckNameAvailability c n reply) (trace r))
          <-> tfstate_names second = [])
      /\ (forall c rg a reply,
            In (ListKeys c rg a reply) (trace r) ->
            exists candidate, a = resolved_name second candidate)
  | [StorageAccountsList c2 (Err e)] =>
      first <> [] /\ outcome_of r = Raised e
  | _ => False
  end.
Proof.
  intros r. subst r.
  apply (holds_run (azure_state_setup sdk environ draws vnet ops_subscription)
           (fun t _ o =>
              filter is_accounts_list t
              = StorageAccountsList c1 (Ok first) :: reading ->
              match reading with
              | [] =>
                  first = []
                  /\ exists c n reply,
                       In (CheckNameAvailability c n reply) t
              | [StorageAccountsList c2 (Ok second)] =>
                  first <> []
                  /\ ((exists c n reply,
                         In (CheckNameAvailability c n reply) t)
                      <-> tfstate_names second = [])
                  /\ (forall c rg a reply,
                        In (ListKeys c rg a reply) t ->
                        exists candidate, a = resolved_name second candidate)
              | [StorageAccountsList c2 (Err e)] =>
                  first <> [] /\ o = Raised e
              | _ => False
              end)).
  run_state_setup.
  all: filter_events.
  all: intros Hf; try discriminate Hf.
  all: injection Hf as <- <- <-.
  all: try match goal with
           | H : (0 <? count_items ?l)%nat = true |- _ =>
               assert (l <> []) by (intros ->; discriminate H)
           end.
  all: flag_facts.
  all: try match goal with
           | H : existsb _ _ = false |- _ =>
               apply (proj1 (tfstate_names_none _)) in H
           | H : existsb _ ?l = true |- _ =>
               assert (tfstate_names l <> [])
                 by (intros E; apply tfstate_names_none in E; congruence)
           end.
  all: repeat match goal with |- _ /\ _ => split end.
  all: try assumption; try reflexivity.
  all: try solve [ do 3 eexists; in_solve ].
  all: try solve [ split; [ intros _; assumption
                          | intros _; do 3 eexists; in_solve ] ].
  all: try solve [ split; [ intros (c' & n' & reply' & Hc); in_inv Hc
                          | intros E; congruence ] ].
  all: try solve [ intros c' rg' a' reply' Hk; in_inv Hk;
                   match goal with
                   | H : ListKeys _ _ _ _ = _ |- _ => injection H as <- <- <- <-
                   end;
                   eexists; reflexivity ].
Qed.

End Provisioning.

(** ** azure_peering: environment, order of the calls, exceptions *)

(** The line printed on completion is none of the lines printed while
    polling. *)
Lemma completion_line_not_polled (op : Poller) (statuses : list string) :
  ~ In (Print " ********** peering completed **********")
       (concat (map (polling_iteration op) statuses)).
Proof.
  induction statuses as [|s l IH]; simpl; [tauto|].
  intros [H|[H|[H|[H|H]]]]; try discriminate H; auto.
Qed.

Lemma iterations_network (op : Poller) (statuses : list string) :
  Forall (fun e => (is_network_event e = true \/ is_print e = true)
                   /\ forall seconds, e = Sleep seconds -> seconds = 2)
         (concat (map (polling_iteration op) statuses)).
Proof.
  induction statuses as [|s l IH]; simpl; [constructor|].
  repeat (constructor;
          [ split; [ first [left; reflexivity | right; reflexivity]
                   | intros seconds Hs;
                     first [discriminate Hs | now injection Hs] ] |]).
  exact IH.
Qed.

Section PeeringRuns.

Context {W : Type}.
Variable sdk : SDK W.
Variable environ : string -> option string.

(** X13: [azure_peering] reads [ARM_CLIENT_ID], [ARM_CLIENT_SECRET] and
    [ARM_TENANT_ID], and not [ARM_OBJECT_ID].  When one of the three is not
    set, the run raises the [KeyError] of the first that is missing, in that
    order, and has made no call.  When the three are set, whatever
    [ARM_OBJECT_ID] is, the first call fetches [vnet1] in [rg1] through a
    client of [sub1] whose credentials are those three values, without
    object id. *)
Theorem peering_environment fuel sub1 rg1 vnet1 sub2 rg2 vnet2 (w : W) :
  let r := azure_peering sdk environ fuel sub1 rg1 vnet1 sub2 rg2 vnet2 w in
  match find (unset environ)
             ["ARM_CLIENT_ID"; "ARM_CLIENT_SECRET"; "ARM_TENANT_ID"]%string
  with
  | Some missing =>
      outcome_of r = Raised (KeyError missing)
      /\ trace r = [] /\ final r = w
  | None =>
      exists client_id secret tenant reply rest,
        environ "ARM_CLIENT_ID" = Some client_id
        /\ environ "ARM_CLIENT_SECRET" = Some secret
        /\ environ "ARM_TENANT_ID" = Some tenant
        /\ trace r
           = VirtualNetworkGet
               {| credentials :=
                    {| spc_client_id := client_id; spc_object_id := None;
                       spc_secret := secret; spc_tenant := tenant |};
                  subscription_id := sub1 |}
               rg1 vnet1 reply :: rest
  end.
Proof.
  intros r. subst r. cbn [find]. unfold unset.
  destruct (environ "ARM_CLIENT_ID") as [client_id|] eqn:E1;
    [destruct (environ "ARM_CLIENT_SECRET") as [secret|] eqn:E3;
     [destruct (environ "ARM_TENANT_ID") as [tenant|] eqn:E4|]|].
  1: apply (holds_run
              (azure_peering sdk environ fuel sub1 rg1 vnet1 sub2 rg2 vnet2)
              (fun t _ _ =>
                 exists client_id' secret' tenant' reply rest,
                   Some client_id = Some client_id'
                   /\ Some secret = Some secret'
                   /\ Some tenant = Some tenant'
                   /\ t = VirtualNetworkGet
                            {| credentials :=
                                 {| spc_client_id := client_id';
                                    spc_object_id := None;
                                    spc_secret := secret';
                                    spc_tenant := tenant' |};
                               subscription_id := sub1 |}
                            rg1 vnet1 reply :: rest)).
  2-4: match goal with
       | |- _ = Raised ?x /\ _ =>
           apply (holds_run
                    (azure_peering sdk environ fuel sub1 rg1 vnet1 sub2 rg2
                       vnet2)
                    (fun t w1 o => o = Raised x /\ t = [] /\ w1 = w))
       end.
  all: unfold azure_peering; repeat env_step.
  2-4: repeat split.
  apply holds_bind_invoke. intros [v1|e] w' _.
  - apply holds_anyway. intros t w1 o. eexists _, _, _, _, _.
    repeat split.
  - eexists _, _, _, _, _. repeat split.
Qed.

(** X14: only a [CloudError] is caught.  When a call of [azure_peering]
    raises an exception that is not a [CloudError], the creation call and
    the polls included, the run ends there and raises that exception: its
    message is not printed and the completion line is not printed. *)
Theorem peering_other_exception_propagates
  fuel sub1 rg1 vnet1 sub2 rg2 vnet2 (w : W) e x :
  let r := azure_peering sdk environ fuel sub1 rg1 vnet1 sub2 rg2 vnet2 w in
  In e (trace r) ->
  raised_by e = Some x ->
  (forall message, x <> CloudError message) ->
  outcome_of r = Raised x
  /\ (exists pre, trace r = pre ++ [e])
  /\ ~ In (Print " ********** peering completed **********") (trace r).
Proof.
  intros r. subst r.
  apply (holds_run
           (azure_peering sdk environ fuel sub1 rg1 vnet1 sub2 rg2 vnet2)
           (fun t _ o =>
              In e t ->
              raised_by e = Some x ->
              (forall message, x <> CloudError message) ->
              o = Raised x
              /\ (exists pre, t = pre ++ [e])
              /\ ~ In (Print " ********** peering completed **********") t)).
  run_peering.
  all: intros Hin Hx Hother; in_inv Hin.
  all: try match goal with
           | F : Forall _ ?t, H : In ?y ?t |- _ =>
               apply (proj1 (Forall_forall _ _) F) in H;
               destruct y as [| | | | | | | | | | | | | | | | |? [[]|?]|? [?|?]];
               first [discriminate H | discriminate Hx]
           end.
  all: subst e; try discriminate Hx.
  all: injection Hx as <-.
  all: try solve [exfalso; eapply Hother; reflexivity].
  all: (split; [reflexivity|]);
    (split; [eexists; split_trace|]);
    intros Hp; in_inv Hp;
    match goal with
    | H : In _ (concat _) |- _ => exact (completion_line_not_polled _ _ H)
    end.
Qed.

(** X15: the peering is created after both networks were fetched.  In any
    run with a peering creation call, the run begins with the fetch of
    [vnet1] and then of [vnet2], both successful, followed by that call; it
    is the only creation call of the run, and it goes through the client
    that fetched [vnet1].  So when either network cannot be fetched no
    peering is asked for. *)
Theorem peering_created_after_both_fetched
  fuel sub1 rg1 vnet1 sub2 rg2 vnet2 (w : W) c rg v peering p reply :
  let r := azure_peering sdk environ fuel sub1 rg1 vnet1 sub2 rg2 vnet2 w in
  In (PeeringCreate c rg v peering p reply) (trace r) ->
  exists c2 v1 v2 rest,
    trace r
    = VirtualNetworkGet c rg1 vnet1 (Ok v1)
      :: VirtualNetworkGet c2 rg2 vnet2 (Ok v2)
      :: PeeringCreate c rg v peering p reply :: rest
    /\ subscription_id c = sub1
    /\ subscription_id c2 = sub2
    /\ credentials c2 = credentials c
    /\ filter is_creation rest = [].
Proof.
  intros r. subst r.
  apply (holds_run
           (azure_peering sdk environ fuel sub1 rg1 vnet1 sub2 rg2 vnet2)
           (fun t _ _ =>
              In (PeeringCreate c rg v peering p reply) t ->
              exists c2 v1 v2 rest,
                t = VirtualNetworkGet c rg1 vnet1 (Ok v1)
                    :: VirtualNetworkGet c2 rg2 vnet2 (Ok v2)
                    :: PeeringCreate c rg v peering p reply :: rest
                /\ subscription_id c = sub1
                /\ subscription_id c2 = sub2
                /\ credentials c2 = credentials c
                /\ filter is_creation rest = [])).
  run_peering.
  all: intros Hin; in_inv Hin.
  all: match goal with
       | H : PeeringCreate _ _ _ _ _ _ = _ |- _ =>
           injection H as <- <- <- <- <- <-
       end.
  all: eexists _, _, _, _; split; [reflexivity|].
  all: repeat split.
  all: repeat first
         [ rewrite filter_app
         | match goal with
           | F : Forall _ ?t |- context [filter ?q ?t] =>
               rewrite (filter_other_class _ q t F)
                 by (intros [| | | | | | | | | | | | | | | | |? [[]|?]|? [?|?]];
                     simpl; congruence)
           end
         | progress cbn [filter app is_creation] ];
    reflexivity.
Qed.

(** X16: [azure_peering] works on virtual networks only.  Every event of a
    run is a fetch of a virtual network, the peering creation call, a poll
    of its operation, a sleep or a printed line: the run makes no call on a
    resource group, a vault, a storage account or a secret, and each sleep
    is of two seconds. *)
Theorem peering_makes_network_calls_only
  fuel sub1 rg1 vnet1 sub2 rg2 vnet2 (w : W) :
  let r := azure_peering sdk environ fuel sub1 rg1 vnet1 sub2 rg2 vnet2 w in
  Forall (fun e => (is_network_event e = true \/ is_print e = true)
                   /\ forall seconds, e = Sleep seconds -> seconds = 2)
         (trace r).
Proof.
  intros r. subst r.
  apply (holds_run
           (azure_peering sdk environ fuel sub1 rg1 vnet1 sub2 rg2 vnet2)
           (fun t _ _ =>
              Forall (fun e =>
                        (is_network_event e = true \/ is_print e = true)
                        /\ forall seconds, e = Sleep seconds -> seconds = 2)
                     t)).
  run_peering.
  all: repeat first
         [ apply Forall_nil
         | apply Forall_cons;
           [ split; [ first [left; reflexivity | right; reflexivity]
                    | intros seconds Hs;
                      first [discriminate Hs | now injection Hs] ] |]
         | apply Forall_app; split
         | apply iterations_network ].
Qed.

End PeeringRuns.

(** ** A first run against the reference provider *)

Lemma list_in_In (x : string) (l : list string) :
  list_in x l = true -> In x l.
Proof.
  unfold list_in. intros H. apply existsb_exists in H.
  destruct H as [y [Hy E]]. apply String.eqb_eq in E. now subst y.
Qed.

Lemma existsb_items_list_in (kv : string) (vs : list string) :
  existsb (fun item => String.eqb (name item) kv) (map Build_Item vs)
  = list_in kv vs.
Proof.
  unfold list_in. induction vs as [|v vs IH]; simpl; [reflexivity|].
  rewrite IH. f_equal. apply String.eqb_sym.
Qed.

Lemma find_app_none {A} (p : A -> bool) (l l' : list A) :
  find p l = None -> find p (l ++ l') = find p l'.
Proof.
  induction l as [|x l IH]; simpl; [reflexivity|].
  destruct (p x); [discriminate | exact IH].
Qed.

Lemma tfstate_names_app (l l' : list Item) :
  tfstate_names (l ++ l') = tfstate_names l ++ tfstate_names l'.
Proof. unfold tfstate_names. now rewrite map_app, filter_app. Qed.

Ltac sim_facts_in H :=
  repeat match goal with
         | E : list_in _ _ = _ |- _ => rewrite E in H
         | E : find _ _ = _ |- _ => rewrite E in H
         end.

Ltac sim_facts :=
  repeat match goal with
         | E : (_ <? _)%nat = _ |- _ => rewrite E
         | E : existsb _ _ = _ |- _ => rewrite E
         | E : resolved_name _ _ = _ |- _ => rewrite E
         | E : list_in _ _ = _ |- _ => rewrite E
         end.

Ltac sim_call :=
  let Hreply := fresh "Hreply" in
  apply holds_bind_invoke; intros ? ? Hreply;
  cbn [SimCloud.provider providers_register check_existence
       resource_groups_create_or_update vaults_list vaults_create_or_update
       storage_accounts_list check_name_availability storage_accounts_create
       storage_operation_result blob_containers_create list_keys
       list_containers set_secret account_name vault_url] in Hreply;
  unfold SimCloud.vault_of_url, SimCloud.name_taken, SimCloud.find_account
    in Hreply;
  cbn [SimCloud.groups SimCloud.vaults SimCloud.secrets SimCloud.accounts
       SimCloud.taken SimCloud.with_groups SimCloud.with_vaults
       SimCloud.with_secrets SimCloud.with_accounts] in Hreply;
  sim_facts_in Hreply;
  cbv iota in Hreply;
  cbn [negb SimCloud.acct_key1 SimCloud.acct_key2] in Hreply;
  apply (proj1 (pair_equal_spec _ _ _ _)) in Hreply;
  destruct Hreply as [<- <-].

Lemma two_keys (k1 k2 : string) :
  let keys := keys_dict [ {| key_name := "key1"; value := k1 |};
                          {| key_name := "key2"; value := k2 |} ] in
  dict_get keys "key1" = Some k1 /\ dict_get keys "key2" = Some k2.
Proof. split; reflexivity. Qed.

(** A call at the end of a procedure is a call followed by [ret]. *)
Lemma holds_bind_ret_r {W A} (m : M W A) Q (w : W) :
  holds (bind m (fun a => ret a)) Q w -> holds m Q w.
Proof.
  unfold holds, bind, ret. destruct (m w) as [t w1 [a|e|]]; cbn; trivial.
  now rewrite app_nil_r.
Qed.

Section SimFirstRun.

Import SimCloud.

Variable environ : string -> option string.
Hypothesis Henv : complete environ.

(** Lines 62-65 on the reference provider: the group is added when it is
    missing. *)
Lemma sim_group_phase c rg vnet s :
  holds (ensure_resource_group provider c rg vnet)
    (fun t s' o =>
       o = Returned tt
       /\ s' = (if list_in rg (groups s) then s
                else with_groups s (groups s ++ [rg]))
       /\ map created_name (filter is_creation t)
          = (if list_in rg (groups s) then [] else [rg]))
    s.
Proof.
  unfold ensure_resource_group.
  destruct (list_in rg (groups s)) eqn:Hb.
  all: repeat (sim_facts; cbn [negb];
               lazymatch goal with
               | |- holds (bind (invoke _ _) _) _ _ => sim_call
               | |- holds (invoke _ _) _ _ =>
                   apply holds_bind_ret_r; sim_call
               | _ => step
               end).
  all: repeat split.
Qed.

Ltac sim_steps :=
  repeat (sim_facts; cbn [negb orb];
          lazymatch goal with
          | |- holds (bind (invoke _ _) _) _ _ => sim_call
          | |- holds (invoke _ _) _ _ => apply holds_bind_ret_r; sim_call
          | |- holds (bind (getitem (keys_dict [ {| key_name := "key1";
                                                     value := ?k1 |};
                                                  {| key_name := "key2";
                                                     value := ?k2 |} ]) _) _)
                 _ _ =>
              apply holds_bind_getitem;
              rewrite ?(proj1 (two_keys k1 k2)), ?(proj2 (two_keys k1 k2))
          | _ => step
          end).

(** Lines 67-80: the vault is found exactly when it is among the vaults. *)
Lemma sim_find_keyvault c kv s :
  holds (find_keyvault provider c kv)
    (fun t s' o =>
       o = Returned (list_in kv (vaults s)) /\ s' = s
       /\ filter is_creation t = [])
    s.
Proof.
  assert (Hkx : (if (0 <? count_items (map Build_Item (vaults s)))%nat
                 then existsb (fun item => String.eqb (name item) kv)
                              (map Build_Item (vaults s))
                 else false)
                = list_in kv (vaults s)).
  { rewrite count_items_positive, existsb_items_list_in.
    now destruct (vaults s). }
  unfold find_keyvault.
  destruct (0 <? count_items (map Build_Item (vaults s)))%nat eqn:Hcv.
  all: sim_steps.
  all: rewrite <- Hkx; repeat split.
  filter_trace. reflexivity.
Qed.

(** Lines 82-105: the vault is added when it was not found. *)
Lemma sim_ensure_keyvault c rg kv vnet b s :
  holds (ensure_keyvault provider environ c rg kv vnet b)
    (fun t s' o =>
       o = Returned tt
       /\ s' = (if b then s
                else if list_in kv (vaults s) then s
                     else with_vaults s (vaults s ++ [kv]))
       /\ map created_name (filter is_creation t)
          = (if b then [] else [kv]))
    s.
Proof.
  destruct (environ "ARM_OBJECT_ID") as [object_id|] eqn:E2;
    [|exfalso; apply (Henv "ARM_OBJECT_ID"); simpl; auto].
  destruct (environ "ARM_TENANT_ID") as [tenant|] eqn:E4;
    [|exfalso; apply (Henv "ARM_TENANT_ID"); simpl; auto].
  unfold ensure_keyvault.
  destruct b; destruct (list_in kv (vaults s)) eqn:Hkx.
  all: sim_steps.
  all: repeat split.
Qed.

(** Lines 109-123: no account is found when no name contains ["tfstate"]. *)
Lemma sim_find_storage_account c n s :
  tfstate_names (listing s) = [] ->
  holds (find_storage_account provider c n)
    (fun t s' o =>
       o = Returned (n, false) /\ s' = s /\ filter is_creation t = [])
    s.
Proof.
  intros Hnames.
  assert (Hea : existsb (fun item => str_in "tfstate" (name item))
                        (listing s) = false)
    by now apply tfstate_names_none.
  assert (Hres : resolved_name (listing s) n = n)
    by now apply resolved_name_no_match.
  unfold find_storage_account. unfold listing in *.
  destruct (0 <? count_items
                   (map (fun a => Build_Item (acct_name a)) (accounts s)))%nat
    eqn:Hca.
  all: sim_steps.
  all: rewrite ?Hres, ?Hea; cbn [orb]; repeat split.
  filter_trace. reflexivity.
Qed.

(** Lines 125-150 and 175-182: a free name is taken, the account gets its
    container, and its two keys are written to the vault and returned. *)
Lemma sim_build_storage_account c sc rg account vnet s v :
  name_taken account s = false ->
  vault_of_url (vault_url sc) s = Some v ->
  holds (build_storage_account provider c sc rg account vnet)
    (fun t s' o =>
       o = Returned (Some (("key1-of-" ++ account)%string,
                           ("key2-of-" ++ account)%string, account))
       /\ groups s' = groups s
       /\ vaults s' = vaults s
       /\ accounts s'
          = add_container account "tfstate"
              (accounts s ++ [new_account account []])
       /\ secrets s'
          = (vault_url sc, "tfstate2"%string, ("key2-of-" ++ account)%string)
            :: (vault_url sc, "tfstate1"%string,
                ("key1-of-" ++ account)%string)
            :: secrets s
       /\ map created_name (filter is_creation t)
          = [account; "tfstate"%string])
    s.
Proof.
  intros Hfree Hvault.
  unfold name_taken, find_account in Hfree.
  destruct (find (fun a => String.eqb (acct_name a) account) (accounts s))
    eqn:Hfa; [discriminate Hfree|].
  rename Hfree into Htk.
  assert (Hfa2 : find (fun a => String.eqb (acct_name a) account)
                      (accounts s ++ [new_account account []])
                 = Some (new_account account [])).
  { rewrite (find_app_none _ _ _ Hfa). simpl. now rewrite String.eqb_refl. }
  assert (Hfa3 := add_container_find account "tfstate" _ _ Hfa2).
  cbn [new_account acct_name acct_key1 acct_key2 acct_containers app]
    in Hfa3.
  unfold vault_of_url in Hvault. unfold new_account in *.
  unfold build_storage_account, store_and_return.
  sim_steps.
  repeat split.
Qed.

Lemma sim_first_run draws vnet ops_subscription s suffix :
  random_generator default_size default_chars draws = Ok suffix ->
  tfstate_names (listing s) = [] ->
  name_taken ((orgName vnet ++ "tfstate") ++ suffix) s = false ->
  holds (azure_state_setup provider environ draws vnet ops_subscription)
    (fun t s' o =>
       let rg := (orgName vnet ++ "-tfstate-rg")%string in
       let kv := (orgName vnet ++ "-tfstate-kv")%string in
       let url := ("https://" ++ kv ++ ".vault.azure.net/")%string in
       let account := ((orgName vnet ++ "tfstate") ++ suffix)%string in
       o = Returned (Some (("key1-of-" ++ account)%string,
                           ("key2-of-" ++ account)%string, account))
       /\ groups s' = (if list_in rg (groups s) then groups s
                       else groups s ++ [rg])
       /\ vaults s' = (if list_in kv (vaults s) then vaults s
                       else vaults s ++ [kv])
       /\ accounts s'
          = add_container account "tfstate"
              (accounts s ++ [new_account account []])
       /\ secrets s'
          = (url, "tfstate2"%string, ("key2-of-" ++ account)%string)
            :: (url, "tfstate1"%string, ("key1-of-" ++ account)%string)
            :: secrets s
       /\ map created_name (filter is_creation t)
          = (if list_in rg (groups s) then [] else [rg])
            ++ (if list_in kv (vaults s) then [] else [kv])
            ++ [account; "tfstate"%string])
    s.
Proof.
  intros Hs Hnames Hfree.
  destruct (environ "ARM_CLIENT_ID") as [client_id|] eqn:E1;
    [|exfalso; apply (Henv "ARM_CLIENT_ID"); simpl; auto].
  destruct (environ "ARM_OBJECT_ID") as [object_id|] eqn:E2;
    [|exfalso; apply (Henv "ARM_OBJECT_ID"); simpl; auto].
  destruct (environ "ARM_CLIENT_SECRET") as [secret|] eqn:E3;
    [|exfalso; apply (Henv "ARM_CLIENT_SECRET"); simpl; auto].
  destruct (environ "ARM_TENANT_ID") as [tenant|] eqn:E4;
    [|exfalso; apply (Henv "ARM_TENANT_ID"); simpl; auto].
  lazymatch goal with
  | |- holds _ ?Q _ => set (post := Q)
  end.
  unfold azure_state_setup. repeat env_step.
  rewrite Hs in Hsuffix. injection Hsuffix as <-.
  sim_call.
  destruct (list_in (orgName vnet ++ "-tfstate-rg") (groups s)) eqn:Hb1;
    destruct (list_in (orgName vnet ++ "-tfstate-kv") (vaults s)) eqn:Hkx.
  all: eapply holds_bind_phase; [apply sim_group_phase|];
    intros tr1 st1 out1 (-> & -> & Hc1);
    rewrite ?Hb1 in Hc1 |- *.
  all: eapply holds_bind_phase; [apply sim_find_keyvault|];
    intros tr2 st2 out2 (-> & -> & Hc2);
    cbn [vaults with_groups] in Hc2 |- *; rewrite ?Hkx in Hc2 |- *.
  all: eapply holds_bind_phase; [apply sim_ensure_keyvault|];
    intros tr3 st3 out3 (-> & -> & Hc3);
    cbn [vaults with_groups] in Hc3 |- *; rewrite ?Hkx in Hc3 |- *.
  all: eapply holds_bind_phase;
    [apply sim_find_storage_account; exact Hnames|];
    intros tr4 st4 out4 (-> & -> & Hc4).
  all: cbv iota; cbn [negb].
  all: lazymatch goal with
       | |- holds _ _ ?st =>
           assert (Hvault : exists v,
                      vault_of_url
                        ("https://" ++ (orgName vnet ++ "-tfstate-kv")
                         ++ ".vault.azure.net/")%string st = Some v)
             by (unfold vault_of_url; cbn [vaults with_vaults with_groups];
                 apply (find_some_exists _ _
                          (orgName vnet ++ "-tfstate-kv")%string);
                 [ first [ now apply list_in_In
                         | apply in_or_app; right; left; reflexivity ]
                 | apply String.eqb_refl ])
       end;
    destruct Hvault as [v Hvault].
  all: eapply holds_phase;
    [eapply sim_build_storage_account; [exact Hfree | exact Hvault]|];
    intros tr5 st5 out5 (-> & Hg & Hvs & Ha & Hsec & Hc5).
  all: subst post; cbv beta zeta; rewrite Hb1, Hkx.
  all: cbn [groups vaults accounts secrets with_groups with_vaults
            vault_url] in Hg, Hvs, Ha, Hsec.
  all: repeat match goal with |- _ /\ _ => split end;
    try assumption; try reflexivity.
  all: cbn [filter is_creation]; rewrite !filter_app, !map_app;
    rewrite Hc1, Hc2, Hc3, Hc4, Hc5; reflexivity.
Qed.

(** X17: a first run and a second run on the reference provider.  Take a
    subscription in which no storage account name contains ["tfstate"] and
    the candidate name is free, and a complete environment.  The first run
    returns the candidate name with the two keys of the account created
    under it; it creates the resource group and the vault exactly when they
    are missing, then the account and its container, in that order; it
    leaves the group, the vault, the account with the container
    ["tfstate"], and the two keys stored as [tfstate1] and [tfstate2] under
    the URL of the vault.  A second run, whatever it draws, creates nothing
    and returns what the first run returned. *)
Theorem first_run_provisions_and_second_run_is_idle
  draws1 draws2 vnet ops_subscription s suffix :
  random_generator default_size default_chars draws1 = Ok suffix ->
  tfstate_names (listing s) = [] ->
  name_taken ((orgName vnet ++ "tfstate") ++ suffix) s = false ->
  let first :=
    azure_state_setup provider environ draws1 vnet ops_subscription s in
  let second :=
    azure_state_setup provider environ draws2 vnet ops_subscription
      (final first) in
  let rg := (orgName vnet ++ "-tfstate-rg")%string in
  let kv := (orgName vnet ++ "-tfstate-kv")%string in
  let url := ("https://" ++ kv ++ ".vault.azure.net/")%string in
  let account := ((orgName vnet ++ "tfstate") ++ suffix)%string in
  let key1 := ("key1-of-" ++ account)%string in
  let key2 := ("key2-of-" ++ account)%string in
  outcome_of first = Returned (Some (key1, key2, account))
  /\ map created_name (filter is_creation (trace first))
     = (if list_in rg (groups s) then [] else [rg])
       ++ (if list_in kv (vaults s) then [] else [kv])
       ++ [account; "tfstate"%string]
  /\ In rg (groups (final first))
  /\ In kv (vaults (final first))
  /\ find_account account (final first)
     = Some (new_account account ["tfstate"%string])
  /\ In (url, "tfstate1"%string, key1) (secrets (final first))
  /\ In (url, "tfstate2"%string, key2) (secrets (final first))
  /\ filter is_creation (trace second) = []
  /\ outcome_of second = outcome_of first.
Proof.
  intros Hs Hnames Hfree first second rg kv url account key1 key2.
  destruct (holds_run _ _ _
              (sim_first_run draws1 vnet ops_subscription s suffix
                 Hs Hnames Hfree))
    as (Hout & Hg & Hv & Ha & Hsec & Hcreated).
  fold first rg kv account in Hout, Hg, Hv, Ha, Hsec, Hcreated.
  fold key1 key2 in Hout. fold url in Hsec.
  assert (Hrg : In rg (groups (final first))).
  { rewrite Hg. destruct (list_in rg (groups s)) eqn:E.
    - now apply list_in_In.
    - apply in_or_app. right. left. reflexivity. }
  assert (Hkv : In kv (vaults (final first))).
  { rewrite Hv. destruct (list_in kv (vaults s)) eqn:E.
    - now apply list_in_In.
    - apply in_or_app. right. left. reflexivity. }
  assert (Hfind : find_account account (final first)
                  = Some (new_account account ["tfstate"%string])).
  { unfold find_account. rewrite Ha.
    unfold name_taken, find_account in Hfree. fold account in Hfree.
    destruct (find (fun a => String.eqb (acct_name a) account) (accounts s))
      eqn:Hfa; [discriminate Hfree|].
    apply (add_container_find account "tfstate" _ (new_account account [])).
    rewrite (find_app_none _ _ _ Hfa). simpl. now rewrite String.eqb_refl. }
  assert (Hmatch : str_in "tfstate" account = true).
  { unfold account. rewrite string_app_assoc. apply str_in_app. }
  assert (Hlisting : tfstate_names (listing (final first)) = [account]).
  { unfold listing. rewrite Ha.
    rewrite <- (map_map acct_name Build_Item), add_container_names.
    rewrite map_map, map_app, tfstate_names_app.
    unfold listing in Hnames. rewrite Hnames.
    unfold tfstate_names. simpl. now rewrite Hmatch. }
  assert (Hne : tfstate_names (listing (final first)) <> [])
    by (rewrite Hlisting; discriminate).
  destruct (sim_run environ draws2 vnet ops_subscription (final first)
              Henv Hrg Hkv Hne) as (a & Hfind2 & Hrun2).
  apply holds_run in Hrun2. fold second in Hrun2.
  rewrite Hlisting in Hfind2, Hrun2. cbn [last] in Hfind2, Hrun2.
  rewrite Hfind in Hfind2. injection Hfind2 as <-.
  destruct Hrun2 as (Hout2 & _ & _ & Hidle).
  cbn in Hidle.
  repeat match goal with |- _ /\ _ => split end.
  - exact Hout.
  - exact Hcreated.
  - exact Hrg.
  - exact Hkv.
  - exact Hfind.
  - rewrite Hsec. right. left. reflexivity.
  - rewrite Hsec. left. reflexivity.
  - exact (proj1 Hidle).
  - rewrite Hout, Hout2. reflexivity.
Qed.

End SimFirstRun.

(** ** Concrete runs for the properties of the provisioning and of the
    peering *)

(** The default arguments and the draws of the examples. *)
Lemma random_generator_characters_witness :
  isascii default_chars = true
  /\ 0 < String.length default_chars
  /\ exists s,
       random_generator default_size default_chars SimCloud.draws = Ok s
       /\ isascii s = true
       /\ String.length s = default_size
       /\ forall i, i < default_size ->
            String.get i s
            = String.get (SimCloud.draws i mod String.length default_chars)
                default_chars.
Proof.
  assert (H0 : isascii default_chars = true) by reflexivity.
  assert (H : 0 < String.length default_chars) by (vm_compute; lia).
  split; [exact H0 | split; [exact H|]].
  exact (random_generator_characters default_size default_chars
           SimCloud.draws H0 H).
Defined.

(** The environment of the examples: every call of the run on a fresh
    subscription goes through the client of ["ops"]. *)
Lemma state_setup_calls_through_its_clients_witness :
  let r := azure_state_setup SimCloud.provider SimCloud.environ
             SimCloud.draws SimCloud.acme "ops" SimCloud.fresh in
  SimCloud.environ "ARM_CLIENT_ID" = Some "client"%string
  /\ SimCloud.environ "ARM_OBJECT_ID" = Some "object"%string
  /\ SimCloud.environ "ARM_CLIENT_SECRET" = Some "secret"%string
  /\ SimCloud.environ "ARM_TENANT_ID" = Some "tenant"%string
  /\ trace r <> []
  /\ Forall (through SimCloud.ops_client
               {| vault_url := "https://acme-tfstate-kv.vault.azure.net/";
                  credential :=
                    {| csc_tenant_id := "tenant"; csc_client_id := "client";
                       csc_client_secret := "secret" |} |})
            (trace r).
Proof.
  intros r.
  assert (H1 : SimCloud.environ "ARM_CLIENT_ID" = Some "client"%string)
    by reflexivity.
  assert (H2 : SimCloud.environ "ARM_OBJECT_ID" = Some "object"%string)
    by reflexivity.
  assert (H3 : SimCloud.environ "ARM_CLIENT_SECRET" = Some "secret"%string)
    by reflexivity.
  assert (H4 : SimCloud.environ "ARM_TENANT_ID" = Some "tenant"%string)
    by reflexivity.
  split; [exact H1 | split; [exact H2 | split; [exact H3 | split; [exact H4|]]]].
  split; [vm_compute; discriminate|].
  exact (state_setup_calls_through_its_clients SimCloud.provider
           SimCloud.environ SimCloud.draws SimCloud.acme "ops" SimCloud.fresh
           "client" "object" "secret" "tenant" H1 H2 H3 H4).
Defined.

(** A fresh subscription: the vault is asked for once, with the parameters
    of the script. *)
Lemma vault_creation_parameters_witness :
  let r := azure_state_setup SimCloud.provider SimCloud.environ
             SimCloud.draws SimCloud.acme "ops" SimCloud.fresh in
  let p := {| kv_location := "westus"; kv_sku_name := "standard";
              kv_tenant_id := "tenant"; kv_policy_tenant_id := "tenant";
              kv_policy_object_id := "object"; kv_policy_keys := ["all"];
              kv_policy_secrets := ["all"] |} in
  In (VaultCreate SimCloud.ops_client "acme-tfstate-rg" "acme-tfstate-kv" p
        (Ok tt)) (trace r)
  /\ filter is_vault_create (trace r)
     = [VaultCreate SimCloud.ops_client "acme-tfstate-rg" "acme-tfstate-kv"
          p (Ok tt)].
Proof.
  intros r p.
  assert (H : In (VaultCreate SimCloud.ops_client "acme-tfstate-rg"
                    "acme-tfstate-kv" p (Ok tt)) (trace r)) by in_now.
  split; [exact H|].
  destruct (vault_creation_parameters SimCloud.provider SimCloud.environ
              SimCloud.draws SimCloud.acme "ops" SimCloud.fresh
              SimCloud.ops_client "acme-tfstate-rg" "acme-tfstate-kv" p
              (Ok tt) H)
    as (_ & _ & _ & _ & _ & _ & _ & _ & _ & _ & Hf & _).
  exact Hf.
Defined.

(** The provisioned subscription: the account found has no container, and
    the container is created in it. *)
Lemma container_created_unless_listed_witness :
  let r := azure_state_setup SimCloud.provider SimCloud.environ
             SimCloud.draws SimCloud.acme "ops" SimCloud.provisioned in
  let b := {| account_name := "acmetfstatenew222"; account_key := "new1" |} in
  In (ListContainers b (Ok [])) (trace r)
  /\ exists c reply,
       filter is_storage_creation (trace r)
       = [BlobContainerCreate c "acme-tfstate-rg" "acmetfstatenew222"
            "tfstate" reply]
       /\ subscription_id c = "ops"%string.
Proof.
  intros r b.
  assert (H : In (ListContainers b (Ok [])) (trace r)) by in_now.
  split; [exact H|].
  exact (proj2 (container_created_unless_listed SimCloud.provider
                  SimCloud.environ SimCloud.draws SimCloud.acme "ops"
                  SimCloud.provisioned b [] H)).
Defined.

(** A provider whose key listing has ["key1"] only: the first secret is
    written and the run raises [KeyError('key2')]. *)
Lemma incomplete_key_listing_raises_witness :
  let storage_keys := [ {| key_name := "key1"; value := "k" |} ] in
  let r := azure_state_setup
             (SimFaults.provider (Ok storage_keys) (Ok "InProgress"%string))
             SimCloud.environ SimCloud.draws SimCloud.acme "ops"
             SimCloud.fresh in
  In (ListKeys SimCloud.ops_client "acme-tfstate-rg" "acmetfstateabc012"
        (Ok storage_keys)) (trace r)
  /\ dict_get (keys_dict storage_keys) "key2" = None
  /\ (exists sc, In (SetSecret sc "tfstate1" "k" (Ok tt)) (trace r))
  /\ outcome_of r = Raised (KeyError "key2").
Proof.
  intros storage_keys r.
  assert (H1 : In (ListKeys SimCloud.ops_client "acme-tfstate-rg"
                     "acmetfstateabc012" (Ok storage_keys)) (trace r))
    by in_now.
  assert (H2 : dict_get (keys_dict storage_keys) "key2" = None)
    by reflexivity.
  assert (H3 : exists sc, In (SetSecret sc "tfstate1" "k" (Ok tt)) (trace r))
    by (eexists; in_now).
  split; [exact H1 | split; [exact H2 | split; [exact H3|]]].
  destruct H3 as [sc H3].
  destruct (proj2 (incomplete_key_listing_raises
                     (SimFaults.provider (Ok storage_keys)
                        (Ok "InProgress"%string))
                     SimCloud.environ SimCloud.draws SimCloud.acme "ops"
                     SimCloud.fresh SimCloud.ops_client "acme-tfstate-rg"
                     "acmetfstateabc012" storage_keys H1) H2)
    as (_ & _ & Hw).
  exact (proj2 (Hw sc "k"%string H3)).
Defined.

(** The provisioned subscription: the accounts are listed twice and no name
    is checked. *)
Lemma account_discovery_reads_second_listing_witness :
  let r := azure_state_setup SimCloud.provider SimCloud.environ
             SimCloud.draws SimCloud.acme "ops" SimCloud.provisioned in
  let l := SimCloud.listing SimCloud.provisioned in
  filter is_accounts_list (trace r)
  = [StorageAccountsList SimCloud.ops_client (Ok l);
     StorageAccountsList SimCloud.ops_client (Ok l)]
  /\ l <> []
  /\ ~ (exists c n reply, In (CheckNameAvailability c n reply) (trace r)).
Proof.
  intros r l.
  assert (H : filter is_accounts_list (trace r)
              = [StorageAccountsList SimCloud.ops_client (Ok l);
                 StorageAccountsList SimCloud.ops_client (Ok l)])
    by (vm_compute; reflexivity).
  split; [exact H|].
  destruct (account_discovery_reads_second_listing SimCloud.provider
              SimCloud.environ SimCloud.draws SimCloud.acme "ops"
              SimCloud.provisioned SimCloud.ops_client l
              [StorageAccountsList SimCloud.ops_client (Ok l)] H)
    as (Hne & Hiff & _).
  split; [exact Hne|].
  intros Hc. apply (proj1 Hiff) in Hc. discriminate Hc.
Defined.

(** A provider whose status call raises another exception than a
    [CloudError]: the exception reaches the caller. *)
Lemma peering_other_exception_propagates_witness :
  let r := azure_peering
             (SimFaults.provider (Ok [])
                (Err (OtherError "TooManyRequests")))
             SimCloud.environ 10 "sub1" "rg1" "hub" "sub2" "rg2" "spoke"
             SimCloud.hub_and_spoke in
  let e := PollerStatus 1 (Err (OtherError "TooManyRequests")) in
  In e (trace r)
  /\ raised_by e = Some (OtherError "TooManyRequests")
  /\ outcome_of r = Raised (OtherError "TooManyRequests")
  /\ ~ In (Print " ********** peering completed **********") (trace r).
Proof.
  intros r e.
  assert (H1 : In e (trace r)) by in_now.
  assert (H2 : raised_by e = Some (OtherError "TooManyRequests"))
    by reflexivity.
  assert (H3 : forall message,
             OtherError "TooManyRequests" <> CloudError message)
    by discriminate.
  split; [exact H1 | split; [exact H2|]].
  destruct (peering_other_exception_propagates
              (SimFaults.provider (Ok [])
                 (Err (OtherError "TooManyRequests")))
              SimCloud.environ 10 "sub1" "rg1" "hub" "sub2" "rg2" "spoke"
              SimCloud.hub_and_spoke e (OtherError "TooManyRequests")
              H1 H2 H3) as (Ho & _ & Hn).
  split; [exact Ho | exact Hn].
Defined.

(** Hub and spoke: the two networks are fetched, then the peering is
    created. *)
Lemma peering_created_after_both_fetched_witness :
  let r := azure_peering SimCloud.provider SimCloud.environ 10
             "sub1" "rg1" "hub" "sub2" "rg2" "spoke"
             SimCloud.hub_and_spoke in
  let p := {| remote_virtual_network_id := vnet_id SimCloud.spoke;
              allow_virtual_network_access := true;
              allow_forwarded_traffic := true;
              remote_address_prefixes := address_prefixes SimCloud.spoke |} in
  In (PeeringCreate (SimCloud.network_client "sub1") "rg1" "hub"
        "hubpeering" p (Ok 1)) (trace r)
  /\ exists c2 v1 v2 rest,
       trace r
       = VirtualNetworkGet (SimCloud.network_client "sub1") "rg1" "hub"
           (Ok v1)
         :: VirtualNetworkGet c2 "rg2" "spoke" (Ok v2)
         :: PeeringCreate (SimCloud.network_client "sub1") "rg1" "hub"
              "hubpeering" p (Ok 1) :: rest
       /\ filter is_creation rest = [].
Proof.
  intros r p.
  assert (H : In (PeeringCreate (SimCloud.network_client "sub1") "rg1" "hub"
                    "hubpeering" p (Ok 1)) (trace r)) by in_now.
  split; [exact H|].
  destruct (peering_created_after_both_fetched SimCloud.provider
              SimCloud.environ 10 "sub1" "rg1" "hub" "sub2" "rg2" "spoke"
              SimCloud.hub_and_spoke (SimCloud.network_client "sub1")
              "rg1" "hub" "hubpeering" p (Ok 1) H)
    as (c2 & v1 & v2 & rest & Ht & _ & _ & _ & Hf).
  exists c2, v1, v2, rest. split; [exact Ht | exact Hf].
Defined.

(** A fresh subscription: the first run creates the group, the vault, the
    account and the container; the second creates nothing. *)
Lemma first_run_provisions_and_second_run_is_idle_witness :
  let first := azure_state_setup SimCloud.provider SimCloud.environ
                 SimCloud.draws SimCloud.acme "ops" SimCloud.fresh in
  let second := azure_state_setup SimCloud.provider SimCloud.environ
                  (fun _ => 7) SimCloud.acme "ops" (final first) in
  complete SimCloud.environ
  /\ random_generator default_size default_chars SimCloud.draws
     = Ok "abc012"%string
  /\ tfstate_names (SimCloud.listing SimCloud.fresh) = []
  /\ SimCloud.name_taken "acmetfstateabc012" SimCloud.fresh = false
  /\ map created_name (filter is_creation (trace first))
     = ["acme-tfstate-rg"; "acme-tfstate-kv"; "acmetfstateabc012";
        "tfstate"]%string
  /\ filter is_creation (trace second) = []
  /\ outcome_of second = outcome_of first.
Proof.
  intros first second.
  assert (H1 : complete SimCloud.environ).
  { intros key [<-|[<-|[<-|[<-|[]]]]]; discriminate. }
  assert (H2 : random_generator default_size default_chars SimCloud.draws
               = Ok "abc012"%string) by (vm_compute; reflexivity).
  assert (H3 : tfstate_names (SimCloud.listing SimCloud.fresh) = [])
    by reflexivity.
  assert (H4 : SimCloud.name_taken
                 ((orgName SimCloud.acme ++ "tfstate") ++ "abc012")
                 SimCloud.fresh = false) by reflexivity.
  split; [exact H1 | split; [exact H2 | split; [exact H3|]]].
  split; [exact H4|].
  destruct (first_run_provisions_and_second_run_is_idle SimCloud.environ H1
              SimCloud.draws (fun _ => 7) SimCloud.acme "ops" SimCloud.fresh
              "abc012" H2 H3 H4)
    as (_ & Hcreated & _ & _ & _ & _ & _ & Hidle & Hsame).
  split; [exact Hcreated | split; [exact Hidle | exact Hsame]].
Defined.
